(** * Voice-Scheduling-Agent: dialogue engines, session store and history window

  A shallow embedding of the dialogue logic of the repository:
  - [agent_state.py]: the step-field engine (ask_email, ask_phone, confirm, done),
    its validators and its dict conversion;
  - [chat.py]: the planner-driven engine behind /api/chat/stream, with the
    commit of the calendar event inside the event stream;
  - [voice.py]: the bounded message history of the voice front-end;
  - [oauth_google.py]: the login request and its callback.

  Python [str] values are modelled by [string]; the character operations
  ([strip], [lower], the classes of the regular expressions) are the ASCII
  ones, bytes above 127 being left alone, so that the model is that of the
  code on ASCII text.  The models, the calendar service and
  [datetime.fromisoformat] of the interpreter are parameters. *)

From stdpp Require Import gmap strings list.
From Stdlib Require Import Ascii String Lia.

Local Open Scope string_scope.

(** ** Python values shared by the modules *)

(** A value that is either [None] or a [str]. *)
Abbreviation value := (option string) (only parsing).

(** The outcome of a call that may raise: the exception is kept as its text. *)
Inductive result (A : Type) : Type :=
| Return (a : A)
| Raise (e : string).
Arguments Return {A} a.
Arguments Raise {A} e.

(** The newline character of the Python literals. *)
Definition NL : string := String (ascii_of_nat 10) EmptyString.

(** ** Operations of [str] *)

(** A [str] is modelled by the string of its bytes.  On ASCII text, where
    a byte is a character, the operations below are those of Python; on
    other text they are not: [strip] and [lower] know the ASCII blanks and
    letters only, and [take] counts bytes.  A statement that depends on
    what these operations compute is made for ASCII text ([is_ascii]). *)
Module PyStr.

Definition code (c : ascii) : nat := nat_of_ascii c.


(** [str.isspace] on ASCII: TAB..CR, FS..US and the blank. *)
Definition isspace (c : ascii) : bool :=
  ((9 <=? code c)%nat && (code c <=? 13)%nat)
  || ((28 <=? code c)%nat && (code c <=? 32)%nat).

Definition isdigit (c : ascii) : bool :=
  (48 <=? code c)%nat && (code c <=? 57)%nat.

Definition lower_char (c : ascii) : ascii :=
  if (65 <=? code c)%nat && (code c <=? 90)%nat then ascii_of_nat (code c + 32) else c.

(** [s.lower()] *)
Fixpoint lower (s : string) : string :=
  match s with
  | EmptyString => EmptyString
  | String c s' => String (lower_char c) (lower s')
  end.

Fixpoint lstrip (s : string) : string :=
  match s with
  | EmptyString => EmptyString
  | String c s' => if isspace c then lstrip s' else s
  end.

Fixpoint rstrip (s : string) : string :=
  match s with
  | EmptyString => EmptyString
  | String c s' =>
      match rstrip s' with
      | EmptyString => if isspace c then EmptyString else String c EmptyString
      | r => String c r
      end
  end.

(** [s.strip()] *)
Definition strip (s : string) : string := lstrip (rstrip s).

(** Truth value of a [str]: non-empty. *)
Definition nonempty (s : string) : bool :=
  match s with EmptyString => false | _ => true end.

(** Truth value of an optional [str]: neither [None] nor empty. *)
Definition truthy (v : value) : bool :=
  match v with Some s => nonempty s | None => false end.

(** [v or d] for an optional [str] [v]. *)
Definition or_else (v : value) (d : string) : string :=
  match v with
  | Some s => if nonempty s then s else d
  | None => d
  end.

(** [s[:n]] *)
Fixpoint take (n : nat) (s : string) : string :=
  match n, s with
  | S n', String c s' => String c (take n' s')
  | _, _ => EmptyString
  end.

(** [s[:-1]] *)
Fixpoint drop_last (s : string) : string :=
  match s with
  | EmptyString => EmptyString
  | String c EmptyString => EmptyString
  | String c s' => String c (drop_last s')
  end.

Fixpoint last_char (s : string) : option ascii :=
  match s with
  | EmptyString => None
  | String c EmptyString => Some c
  | String _ s' => last_char s'
  end.

(** [s.endswith(c)] for a one-character suffix. *)
Definition endswith_char (s : string) (c : ascii) : bool :=
  match last_char s with
  | Some d => Ascii.eqb d c
  | None => false
  end.

Fixpoint startswith (p s : string) : bool :=
  match p, s with
  | EmptyString, _ => true
  | String a p', String b s' => Ascii.eqb a b && startswith p' s'
  | String _ _, EmptyString => false
  end.

(** [p in s] *)
Fixpoint contains (p s : string) : bool :=
  startswith p s ||
  match s with
  | EmptyString => false
  | String _ s' => contains p s'
  end.

(** [t in {...}] for a set literal of strings. *)
Definition member (t : string) (l : list string) : bool :=
  existsb (String.eqb t) l.

(** Keeps the characters satisfying [p], in order. *)
Fixpoint filter (p : ascii -> bool) (s : string) : string :=
  match s with
  | EmptyString => EmptyString
  | String c s' => if p c then String c (filter p s') else filter p s'
  end.

Fixpoint forallb (p : ascii -> bool) (s : string) : bool :=
  match s with
  | EmptyString => true
  | String c s' => p c && forallb p s'
  end.

(** [str(v)] inside an f-string. *)
Definition fmt (v : value) : string :=
  match v with Some s => s | None => "None" end.

End PyStr.

(** ** Regular expressions of [re], matched by derivatives *)
Module Re.

Inductive regex : Type :=
| Void
| Eps
| Class (p : ascii -> bool)
| Cat (r1 r2 : regex)
| Alt (r1 r2 : regex)
| Star (r : regex).

Definition Chr (c : ascii) : regex := Class (Ascii.eqb c).
(** [r?] *)
Definition Opt (r : regex) : regex := Alt Eps r.
(** [r+] *)
Definition Plus (r : regex) : regex := Cat r (Star r).
(** [r{n,}] *)
Fixpoint AtLeast (n : nat) (r : regex) : regex :=
  match n with
  | O => Star r
  | S n' => Cat r (AtLeast n' r)
  end.

Fixpoint nullable (r : regex) : bool :=
  match r with
  | Void => false
  | Eps => true
  | Class _ => false
  | Cat r1 r2 => nullable r1 && nullable r2
  | Alt r1 r2 => nullable r1 || nullable r2
  | Star _ => true
  end.

Fixpoint deriv (c : ascii) (r : regex) : regex :=
  match r with
  | Void => Void
  | Eps => Void
  | Class p => if p c then Eps else Void
  | Cat r1 r2 =>
      if nullable r1 then Alt (Cat (deriv c r1) r2) (deriv c r2)
      else Cat (deriv c r1) r2
  | Alt r1 r2 => Alt (deriv c r1) (deriv c r2)
  | Star r1 => Cat (deriv c r1) (Star r1)
  end.

(** The whole of [s] is in the language of [r]. *)
Fixpoint matches (r : regex) (s : string) : bool :=
  match s with
  | EmptyString => nullable r
  | String c s' => matches (deriv c r) s'
  end.

(** [match] of the pattern [^r$] finds a match: without MULTILINE, [$]
    holds at the end of the string and just before a final newline. *)
Definition match_anchored (r : regex) (s : string) : bool :=
  matches r s ||
  (PyStr.endswith_char s (ascii_of_nat 10) && matches r (PyStr.drop_last s)).

End Re.

(** ** agent_state.py: the step-field engine *)
Module AgentState.

(** [EMAIL_RE = ^[^@\s]+@[^@\s]+\.[^@\s]+$] *)
Definition not_at_space (c : ascii) : bool :=
  negb (Ascii.eqb c "@" || PyStr.isspace c).

Definition EMAIL_RE : Re.regex :=
  Re.Cat (Re.Plus (Re.Class not_at_space))
    (Re.Cat (Re.Chr "@")
       (Re.Cat (Re.Plus (Re.Class not_at_space))
          (Re.Cat (Re.Chr ".") (Re.Plus (Re.Class not_at_space))))).

(** [PHONE_RE = ^\+?[0-9][0-9\s\-()]{6,}$] *)
Definition phone_tail (c : ascii) : bool :=
  PyStr.isdigit c || PyStr.isspace c || Ascii.eqb c "-"
  || Ascii.eqb c "(" || Ascii.eqb c ")".

Definition PHONE_RE : Re.regex :=
  Re.Cat (Re.Opt (Re.Chr "+"))
    (Re.Cat (Re.Class PyStr.isdigit) (Re.AtLeast 6 (Re.Class phone_tail))).

(** The characters of an ASCII text that [re.sub] with the pattern
    [[^\d+]] keeps: digits and plus signs.  (Outside ASCII, [\d] also keeps
    the other decimal digits of Unicode, which [[0-9]] of [PHONE_RE] does
    not match; the byte strings of the model do not tell them apart.) *)
Definition digit_or_plus (c : ascii) : bool :=
  PyStr.isdigit c || Ascii.eqb c "+".

Definition normalize_phone (s : string) : string :=
  PyStr.filter digit_or_plus (PyStr.strip s).

Definition is_valid_email (s : string) : bool :=
  Re.match_anchored EMAIL_RE (PyStr.lower (PyStr.strip s)).

Definition is_valid_phone (s : string) : bool :=
  Re.match_anchored PHONE_RE (normalize_phone s).

Definition parse_yes_no (text : string) : option bool :=
  let t := PyStr.lower (PyStr.strip text) in
  if PyStr.member t ["yes"; "y"; "yeah"; "yep"; "confirm"; "correct"; "ok"; "okay"]
  then Some true
  else if PyStr.member t ["no"; "n"; "nope"; "cancel"; "restart"]
  then Some false
  else None.

Record BookingState : Type := mkBookingState {
  step : value;
  email : value;
  phone : value;
  title : value
}.

(** [BookingState(step=s, title=t)]: the other fields take their defaults. *)
Definition default_step : value := Some "ask_email".
Definition default_title : value := Some "Scheduled Meeting".
Definition default_state : BookingState :=
  mkBookingState default_step None None default_title.

Definition set_step (st : BookingState) (v : value) : BookingState :=
  mkBookingState v (email st) (phone st) (title st).
Definition set_email (st : BookingState) (v : value) : BookingState :=
  mkBookingState (step st) v (phone st) (title st).
Definition set_phone (st : BookingState) (v : value) : BookingState :=
  mkBookingState (step st) (email st) v (title st).

(** [st.step == name] *)
Definition at_step (st : BookingState) (name : string) : bool :=
  match step st with
  | Some s => String.eqb s name
  | None => false
  end.

Definition build_confirmation (st : BookingState) : string :=
  "Please confirm the details:" +:+ NL +:+
  "- Email: " +:+ PyStr.fmt (email st) +:+ NL +:+
  "- Phone: " +:+ PyStr.fmt (phone st) +:+ NL +:+ NL +:+
  "Reply with **yes** to confirm, or **no** to restart.".

Inductive action : Type := create_meeting.

(** The dictionary returned by [handle_user_message]. *)
Record Outcome : Type := mkOutcome {
  state : BookingState;
  reply : string;
  act : option action
}.

Definition handle_user_message (st : BookingState) (user_text : string) : Outcome :=
  let user_text := PyStr.strip user_text in
  if at_step st "ask_email" then
    if negb (is_valid_email user_text) then
      mkOutcome st "Please provide a valid email address (e.g., john.doe@gmail.com)." None
    else
      let st1 := set_email st (Some (PyStr.lower (PyStr.strip user_text))) in
      let st2 := set_step st1 (Some "ask_phone") in
      mkOutcome st2 "Thanks! Now please provide your phone number (digits, may include +)." None
  else if at_step st "ask_phone" then
    if negb (is_valid_phone user_text) then
      mkOutcome st "Please provide a valid phone number (e.g., +14155552671)." None
    else
      let st1 := set_phone st (Some (normalize_phone user_text)) in
      let st2 := set_step st1 (Some "confirm") in
      mkOutcome st2 (build_confirmation st2) None
  else if at_step st "confirm" then
    match parse_yes_no user_text with
    | None =>
        mkOutcome st "Please reply with **yes** to confirm or **no** to restart." None
    | Some false =>
        mkOutcome (mkBookingState (Some "ask_email") None None (title st))
          ("No problem — let’s start over." +:+ NL +:+ "What’s your email?") None
    | Some true =>
        mkOutcome (set_step st (Some "done"))
          "Great — creating your meeting now…" (Some create_meeting)
    end
  else if at_step st "done" then
    mkOutcome st "This session is already completed. Clear to start a new one." None
  else
    mkOutcome st "I’m not sure what to do next." None.

(** [asdict(st)] *)
Definition state_to_dict (st : BookingState) : gmap string value :=
  <["step" := step st]> (<["email" := email st]>
    (<["phone" := phone st]> (<["title" := title st]> ∅))).

Definition field_names : list string := ["step"; "email"; "phone"; "title"].

(** The constructor applied to the keywords of [d or {}]: a keyword that is
    not a field raises [TypeError]; a field that is not given takes its
    default. *)
Definition dict_to_state (d : option (gmap string value)) : result BookingState :=
  let kw := default ∅ d in
  match List.find (fun k => negb (PyStr.member k field_names)) (map fst (map_to_list kw)) with
  | Some k =>
      Raise ("TypeError: BookingState.__init__() got an unexpected keyword argument '"
             +:+ k +:+ "'")
  | None =>
      Return (mkBookingState
                (default default_step (kw !! "step"))
                (default None (kw !! "email"))
                (default None (kw !! "phone"))
                (default default_title (kw !! "title")))
  end.

End AgentState.

(** ** datetime: the values of the library, and a sample of its parser *)
Module Datetime.

(** An aware or naive [datetime]; [tzinfo] is the UTC offset in microseconds. *)
Record datetime : Type := mkDatetime {
  year : Z;
  month : Z;
  day : Z;
  hour : Z;
  minute : Z;
  second : Z;
  microsecond : Z;
  tzinfo : option Z
}.

Definition digit_val (c : ascii) : option Z :=
  if PyStr.isdigit c then Some (Z.of_nat (PyStr.code c - 48)) else None.

(** Reads exactly [n] decimal digits. *)
Fixpoint digits (n : nat) (acc : Z) (s : string) : option (Z * string) :=
  match n with
  | O => Some (acc, s)
  | S n' =>
      match s with
      | EmptyString => None
      | String c s' =>
          match digit_val c with
          | Some d => digits n' (10 * acc + d)%Z s'
          | None => None
          end
      end
  end.

Definition expect (c : ascii) (s : string) : option string :=
  match s with
  | String d s' => if Ascii.eqb c d then Some s' else None
  | EmptyString => None
  end.

(** [HH[:MM[:SS[.fff[fff]]]]], the whole of [t]. *)
Definition parse_hh_mm_ss_ff (t : string) : option (Z * Z * Z * Z) :=
  '(h, r) ← digits 2 0 t;
  match r with
  | EmptyString => Some (h, 0, 0, 0)%Z
  | _ =>
    r ← expect ":" r;
    '(m, r) ← digits 2 0 r;
    match r with
    | EmptyString => Some (h, m, 0, 0)%Z
    | _ =>
      r ← expect ":" r;
      '(s, r) ← digits 2 0 r;
      match r with
      | EmptyString => Some (h, m, s, 0%Z)
      | _ =>
        f ← expect "." r;
        if (String.length f =? 3)%nat then
          '(us, _) ← digits 3 0 f; Some (h, m, s, us * 1000)%Z
        else if (String.length f =? 6)%nat then
          '(us, _) ← digits 6 0 f; Some (h, m, s, us)
        else None
      end
    end
  end.

(** Splits a time string at its first sign: the time, and the sign
    ([true] for minus) with the offset text when there is one. *)
Fixpoint split_tz (t : string) : string * option (bool * string) :=
  match t with
  | EmptyString => (EmptyString, None)
  | String c t' =>
      if Ascii.eqb c "+" then (EmptyString, Some (false, t'))
      else if Ascii.eqb c "-" then (EmptyString, Some (true, t'))
      else let '(a, b) := split_tz t' in (String c a, b)
  end.

Definition is_leap (y : Z) : bool :=
  ((y mod 4 =? 0) && negb (y mod 100 =? 0) || (y mod 400 =? 0))%Z.

Definition days_in_month (y m : Z) : Z :=
  (if m =? 2 then (if is_leap y then 29 else 28)
   else if (m =? 4) || (m =? 6) || (m =? 9) || (m =? 11) then 30
   else 31)%Z.

(** The range checks of the [datetime] constructor. *)
Definition valid_date (y m d : Z) : bool :=
  ((1 <=? y) && (y <=? 9999) && (1 <=? m) && (m <=? 12)
   && (1 <=? d) && (d <=? days_in_month y m))%Z.

Definition valid_time (h m s us : Z) : bool :=
  ((h <? 24) && (m <? 60) && (s <? 60) && (us <? 1000000))%Z.

Definition offset_us (h m s us : Z) : Z :=
  ((h * 3600 + m * 60 + s) * 1000000 + us)%Z.

(** [HH:MM[:SS[.ffffff]]] behind a sign, of length 5, 8 or 15.  An offset
    of zero seconds is UTC, whatever its microseconds; [timezone] wants any
    other offset strictly inside one day. *)
Definition parse_offset (neg : bool) (z : string) : option Z :=
  let n := String.length z in
  if negb ((n =? 5) || (n =? 8) || (n =? 15))%nat then None
  else
    '(h, m, s, us) ← parse_hh_mm_ss_ff z;
    if (h * 3600 + m * 60 + s =? 0)%Z then Some 0%Z
    else
      let off := offset_us h m s us in
      if (off <? 86400 * 1000000)%Z then Some (if neg then (- off)%Z else off)
      else None.

(** The inverse of [isoformat]: the whole of [datetime.fromisoformat] up to
    Python 3.10, which reads
    [YYYY-MM-DD[*HH[:MM[:SS[.fff[fff]]]][+HH:MM[:SS[.ffffff]]]]], where [*]
    is any one character.  [None] stands for [ValueError].  From 3.11 on the
    method reads further spellings of ISO 8601 (a basic-format offset such
    as -0800, fractions of any length, week dates), and chat.py needs 3.12
    to load; the engine is therefore defined over the parser that its
    interpreter brings ([fromisoformat] of [Chat.Config]), and this
    function is the parser of the sample runs only, on texts that every
    version reads in this way. *)
Definition isoformat_inverse (s : string) : option datetime :=
  '(y, r) ← digits 4 0 s;
  r ← expect "-" r;
  '(mo, r) ← digits 2 0 r;
  r ← expect "-" r;
  '(d, r) ← digits 2 0 r;
  if negb (valid_date y mo d) then None
  else
    match r with
    | EmptyString => Some (mkDatetime y mo d 0 0 0 0 None)
    | String _ t =>
        let '(tm, tz) := split_tz t in
        '(h, mi, sec, us) ← parse_hh_mm_ss_ff tm;
        if negb (valid_time h mi sec us) then None
        else
          match tz with
          | None => Some (mkDatetime y mo d h mi sec us None)
          | Some (neg, z) =>
              off ← parse_offset neg z;
              Some (mkDatetime y mo d h mi sec us (Some off))
          end
    end.

End Datetime.

(** ** app.py: the process-wide session store *)
Module App.

(** The dictionary stored under [google_tokens] by the OAuth callback. *)
Record Tokens : Type := mkTokens {
  access_token : string;
  refresh_token : value
}.

(** One entry of a message list. *)
Record Message : Type := mkMessage {
  role : string;
  content : string
}.

(** One session: a dictionary with the keys below; a key that is absent
    reads as [None] (for the history: as the empty list that
    [_get_history] creates).  [BS] is the record kept under
    [booking_state]. *)
Record Session (BS : Type) : Type := mkSession {
  google_tokens : option Tokens;
  booking_state : option BS;
  voice_history : list Message
}.
Arguments mkSession {BS} _ _ _.
Arguments google_tokens {BS} _.
Arguments booking_state {BS} _.
Arguments voice_history {BS} _.

Definition empty_session {BS : Type} : Session BS := mkSession None None [].

(** [_sessions.get(sid, {})] *)
Definition get_session {BS : Type} (sessions : gmap string (Session BS)) (sid : string)
  : Session BS :=
  default empty_session (sessions !! sid).

Definition _get_tokens {BS : Type} (sessions : gmap string (Session BS)) (sid : string)
  : option Tokens :=
  google_tokens (get_session sessions sid).

(** What the OAuth callback does to the store: it creates the session when
    it is absent and sets its [google_tokens]. *)
Definition auth_callback {BS : Type} (sessions : gmap string (Session BS)) (sid : string)
    (tokens : Tokens) : gmap string (Session BS) :=
  let sess := get_session sessions sid in
  <[sid := mkSession (Some tokens) (booking_state sess) (voice_history sess)]> sessions.

(** A server-sent event, without its framing. *)
Inductive SSE : Type :=
| ev_delta (text : string)
| ev_final_text (text : string)
| ev_done.

(** The deltas of a streamed model reply; [stream_error] is the exception
    that ends the stream, when there is one. *)
Record Stream : Type := mkStream {
  deltas : list string;
  stream_error : option string
}.

(** What a streaming endpoint has done when its generator is exhausted:
    the store, the events sent, and the exception that ended it, if any. *)
Record Response (BS : Type) : Type := mkResponse {
  sessions_after : gmap string (Session BS);
  events : list SSE;
  error : option string
}.
Arguments mkResponse {BS} _ _ _.
Arguments sessions_after {BS} _.
Arguments events {BS} _.
Arguments error {BS} _.

End App.

(** ** chat.py: the planner-driven engine *)
Module Chat.
Import App.

(** What the module binds when it is loaded: the constants read from the
    environment, and [datetime.fromisoformat] of the interpreter, whose
    grammar depends on the version of Python ([None] stands for the
    exception it raises). *)
Record Config : Type := mkConfig {
  TZ_NAME : string;
  CALENDAR_ID : string;
  DEFAULT_DURATION_MIN : Z;
  DEFAULT_TITLE : string;
  fromisoformat : string -> option Datetime.datetime
}.

(** The values used when the environment sets none, with the sample
    parser. *)
Definition default_config : Config :=
  mkConfig "America/Los_Angeles" "primary" 30 "Scheduled Meeting"
    Datetime.isoformat_inverse.

Record BookingState : Type := mkBookingState {
  step : value;
  email : value;
  phone : value;
  start_iso : value;
  title : value
}.

(** [BookingState()] *)
Definition initial_state : BookingState :=
  mkBookingState (Some "ask_email_phone") None None None None.

Definition set_step (st : BookingState) (v : value) : BookingState :=
  mkBookingState v (email st) (phone st) (start_iso st) (title st).
Definition set_email (st : BookingState) (v : value) : BookingState :=
  mkBookingState (step st) v (phone st) (start_iso st) (title st).
Definition set_phone (st : BookingState) (v : value) : BookingState :=
  mkBookingState (step st) (email st) v (start_iso st) (title st).
Definition set_start_iso (st : BookingState) (v : value) : BookingState :=
  mkBookingState (step st) (email st) (phone st) v (title st).
Definition set_title (st : BookingState) (v : value) : BookingState :=
  mkBookingState (step st) (email st) (phone st) (start_iso st) v.

(** [st.step == name] *)
Definition at_step (st : BookingState) (name : string) : bool :=
  match step st with
  | Some s => String.eqb s name
  | None => false
  end.

(** [v == name] for an optional string. *)
Definition is_str (v : value) (name : string) : bool :=
  match v with
  | Some s => String.eqb s name
  | None => false
  end.

Abbreviation Sessions := (gmap string (Session BookingState)) (only parsing).

Definition set_booking_state (sess : Session BookingState) (st : BookingState)
  : Session BookingState :=
  mkSession (google_tokens sess) (Some st) (voice_history sess).

(** The stored dictionary is the [asdict] of a [BookingState]; it is kept
    here as the record itself. *)
Definition _load_state (sessions : Sessions) (sid : string) : Sessions * BookingState :=
  let sess := get_session sessions sid in
  match booking_state sess with
  | None => (<[sid := set_booking_state sess initial_state]> sessions, initial_state)
  | Some st => (<[sid := sess]> sessions, st)
  end.

Definition _save_state (sessions : Sessions) (sid : string) (st : BookingState) : Sessions :=
  <[sid := set_booking_state (get_session sessions sid) st]> sessions.

Definition yes_tokens : list string :=
  ["yes"; "y"; "yeah"; "yep"; "confirm"; "ok"; "okay"; "sure"].
Definition no_tokens : list string :=
  ["no"; "n"; "nope"; "cancel"; "restart"].

Definition _is_yes (text : string) : bool :=
  PyStr.member (PyStr.lower (PyStr.strip text)) yes_tokens.

Definition _is_no (text : string) : bool :=
  PyStr.member (PyStr.lower (PyStr.strip text)) no_tokens.

(** Every exception of the [try] block gives [None]. *)
Definition _parse_iso_datetime (cfg : Config) (s : string) : option Datetime.datetime :=
  if negb (PyStr.nonempty s) then None
  else
    let s2 := PyStr.strip s in
    let s2 := if PyStr.endswith_char s2 "Z" then PyStr.drop_last s2 +:+ "+00:00" else s2 in
    fromisoformat cfg s2.

(** *** The planner *)

(** The object under [extracted], as the strict JSON schema types it. *)
Record Extracted : Type := mkExtracted {
  ex_email : value;
  email_ok : bool;
  ex_phone : value;
  phone_ok : bool;
  ex_start_iso : value;
  start_ok : bool;
  ex_title : value;
  ex_confirm : value
}.

Record Notes : Type := mkNotes {
  email_reason : value;
  phone_reason : value;
  time_reason : value
}.

Record Plan : Type := mkPlan {
  extracted : Extracted;
  notes : Notes
}.

(** A JSON value that is not an object, by the Python value that
    [json.loads] makes of it: [None], a [bool], an [int], a [float], a
    [str] or a [list]. *)
Inductive NonObject : Type :=
| json_null
| json_bool (b : bool)
| json_int (n : Z)
| json_float (literal : string)
| json_str (s : string)
| json_list (text : string).

(** [type(j).__name__] *)
Definition type_name (j : NonObject) : string :=
  match j with
  | json_null => "NoneType"
  | json_bool _ => "bool"
  | json_int _ => "int"
  | json_float _ => "float"
  | json_str _ => "str"
  | json_list _ => "list"
  end.

(** What [json.loads] returns: a dictionary, read with the members and the
    member types of the schema of the request (a member that is absent or
    null reads as [None], a flag that is absent as [False]), or a value that
    is no dictionary.  Nothing checks the value against the schema.  A
    dictionary with members of other types is not modelled. *)
Inductive PlanValue : Type :=
| a_plan (p : Plan)
| not_a_plan (j : NonObject).

(** What the call of the model does: [responses.create] raises, or it
    returns an [output_text] that [json.loads] rejects, or one that is the
    JSON of a plan, or one that is JSON but no object. *)
Inductive PlannerResponse : Type :=
| call_raises (e : string)
| output_malformed (text : string)
| output_plan (p : Plan)
| output_other (j : NonObject).

(** The dictionary of the [except] branch. *)
Definition fallback_plan : Plan :=
  mkPlan (mkExtracted None false None false None false None None)
         (mkNotes (Some "parse_error") (Some "parse_error") (Some "parse_error")).

(** Only [json.loads] stands inside the [try]. *)
Definition llm_extract_and_validate
    (planner : string -> BookingState -> PlannerResponse)
    (user_text : string) (st : BookingState) : result PlanValue :=
  match planner user_text st with
  | call_raises e => Raise e
  | output_malformed _ => Return (a_plan fallback_plan)
  | output_plan p => Return (a_plan p)
  | output_other j => Return (not_a_plan j)
  end.

(** *** The speaker *)

(** The generator yields the deltas that are not empty. *)
Definition llm_stream_reply
    (speaker : string -> BookingState -> string -> Stream)
    (user_text : string) (st : BookingState) (planned_assistant_text : string) : Stream :=
  let r := speaker user_text st planned_assistant_text in
  mkStream (List.filter PyStr.nonempty (deltas r)) (stream_error r).

Definition _contact_summary (st : BookingState) : string :=
  "Email: " +:+ PyStr.or_else (email st) "(missing)" +:+ NL +:+
  "Phone: " +:+ PyStr.or_else (phone st) "(missing)".

Definition _final_summary (cfg : Config) (st : BookingState) : string :=
  "Email: " +:+ PyStr.fmt (email st) +:+ NL +:+
  "Phone: " +:+ PyStr.fmt (phone st) +:+ NL +:+
  "Start: " +:+ PyStr.fmt (start_iso st) +:+ " (" +:+ TZ_NAME cfg +:+ ")" +:+ NL +:+
  "Title: " +:+ PyStr.or_else (title st) (DEFAULT_TITLE cfg) +:+ NL.

(** *** The calendar *)

(** What the [try] block of [sse] works on: the keyword arguments of
    [create_google_calendar_event], with the duration from which the block
    computes [end_dt] in the place of [end_dt]. *)
Record EventRequest : Type := mkEventRequest {
  req_access_token : string;
  req_calendar_id : string;
  req_title : string;
  req_start_dt : Datetime.datetime;
  req_duration_min : Z;
  req_tz_name : string;
  req_attendee_email : string;
  req_description : string
}.

(** The two keys read from the created event. *)
Record Created : Type := mkCreated {
  htmlLink : value;
  hangoutLink : value
}.

(** *** The turn *)

(** [ok and v]: the string when the flag is set and the value is a
    non-empty string. *)
Definition accepted (ok : bool) (v : value) : option string :=
  match v with
  | Some s => if ok && PyStr.nonempty s then Some s else None
  | None => None
  end.

(** The confirmation of the turn: an explicit yes or no of the user wins
    over the one the planner inferred. *)
Definition resolve_confirm (user_text : string) (ex : Extracted) : value :=
  if _is_yes user_text then Some "yes"
  else if _is_no user_text then Some "no"
  else ex_confirm ex.

Definition not_connected_msg : string :=
  "⚠️ Google Calendar is not connected yet. Please complete OAuth login first: /auth/google".

Definition creating_msg : string := "Got it — creating your calendar event now…".

Definition restart_contact_msg : string :=
  "No problem. Please tell me your email and phone number again.".

(** The content of the last message, stripped; empty without messages. *)
Definition last_user_text (messages : list Message) : string :=
  PyStr.strip
    (match last messages with Some m => content m | None => EmptyString end).

Definition done_msg : string :=
  "Your event is already created. Click Clear to start a new booking.".

(** The exception of [plan.get] when the plan is no dictionary. *)
Definition no_get (j : NonObject) : string :=
  "AttributeError: '" +:+ type_name j +:+ "' object has no attribute 'get'".

Section Engine.

Variable cfg : Config.
(** The three collaborators: the planner model, the speaker model and the
    calendar service.  [calendar] stands for the two statements of the
    [try] block of [sse] that lead to the event, as the block sees them:
    [end_dt = start_dt + timedelta(minutes=DEFAULT_DURATION_MIN)], which
    raises OverflowError when the end lies past the year 9999, and the call
    of [create_google_calendar_event]; it gives the created event, or the
    text of the exception that either of the two raised. *)
Variable planner : string -> BookingState -> PlannerResponse.
Variable speaker : string -> BookingState -> string -> Stream.
Variable calendar : EventRequest -> result Created.

(** The step machine of [chat_stream]: the new state and the planned text. *)
Definition step_machine (user_text : string) (st : BookingState)
    (ex : Extracted) (nt : Notes) (confirm : value) : BookingState * string :=
  if at_step st "ask_email_phone" then
    let st :=
      match accepted (email_ok ex) (ex_email ex) with
      | Some e => set_email st (Some (PyStr.lower (PyStr.strip e)))
      | None => st
      end in
    let st :=
      match accepted (phone_ok ex) (ex_phone ex) with
      | Some p => set_phone st (Some (PyStr.take 40 (PyStr.strip p)))
      | None => st
      end in
    if negb (PyStr.truthy (email st)) || negb (PyStr.truthy (phone st)) then
      let reason_email := PyStr.or_else (email_reason nt) EmptyString in
      let reason_phone := PyStr.or_else (phone_reason nt) EmptyString in
      let planned_text :=
        "Please provide BOTH a valid email and a valid phone number in one message."
        +:+ NL +:+ "Example: john@example.com, +1 415 555 2671" +:+ NL in
      if PyStr.nonempty reason_email || PyStr.nonempty reason_phone then
        (st, planned_text +:+ NL +:+ "(Details: email="
             +:+ PyStr.or_else (Some reason_email) "missing" +:+ ", phone="
             +:+ PyStr.or_else (Some reason_phone) "missing" +:+ ")")
      else (st, planned_text)
    else
      let st := set_step st (Some "confirm_contact") in
      (st, "Thanks! Please confirm these details:" +:+ NL +:+ _contact_summary st
           +:+ NL +:+ NL +:+ "Reply 'yes' to confirm or 'no' to re-enter.")
  else if at_step st "confirm_contact" then
    if is_str confirm "no" then
      (initial_state, restart_contact_msg)
    else if is_str confirm "yes" then
      (set_step st (Some "ask_time"),
       "Great. What date and time would you like to schedule the meeting?")
    else
      (st, "Please reply 'yes' to confirm or 'no' to re-enter your email and phone.")
  else if at_step st "ask_time" then
    match accepted (start_ok ex) (ex_start_iso ex) with
    | Some s =>
        match _parse_iso_datetime cfg s with
        | None =>
            (st, "Sorry — I couldn’t parse that time. Please try again (e.g., 'Feb 16 2pm').")
        | Some _ =>
            (set_step (set_start_iso st (Some s)) (Some "ask_title"),
             "Optional: what’s the meeting title? You can say 'skip'.")
        end
    | None =>
        let reason := PyStr.or_else (time_reason nt) "missing/ambiguous" in
        (st, "Sorry, I couldn’t understand the date/time." +:+ NL +:+
             "Try: 'Feb 16 2pm' or 'next Monday 3pm'." +:+ NL +:+
             "(Details: " +:+ reason +:+ ")")
    end
  else if at_step st "ask_title" then
    let t := PyStr.strip (PyStr.or_else (ex_title ex) user_text) in
    let st :=
      if PyStr.member (PyStr.lower t) ["skip"; "no"; "none"]
      then set_title st (Some (DEFAULT_TITLE cfg))
      else set_title st (Some (if PyStr.nonempty t then PyStr.take 120 t
                               else DEFAULT_TITLE cfg)) in
    let st := set_step st (Some "confirm_all") in
    (st, "Please confirm the meeting details:" +:+ NL +:+ _final_summary cfg st
         +:+ NL +:+ "Create the calendar event now? (yes/no)")
  else if at_step st "confirm_all" then
    if is_str confirm "no" then
      (set_start_iso (set_step st (Some "ask_time")) None,
       "Okay. Let’s pick a new time. What date and time would you like?")
    else if is_str confirm "yes" then
      (st, creating_msg)
    else
      (st, "Please reply 'yes' to create the event or 'no' to change the time.")
  else if at_step st "done" then
    (st, done_msg)
  else (st, EmptyString).

(** The keyword arguments of the call in [sse]; the email of [st2] is a
    non-empty string there. *)
Definition event_request (tokens : Tokens) (st2 : BookingState)
    (start_dt : Datetime.datetime) : EventRequest :=
  mkEventRequest
    (access_token tokens) (CALENDAR_ID cfg)
    (PyStr.or_else (title st2) (DEFAULT_TITLE cfg))
    start_dt (DEFAULT_DURATION_MIN cfg) (TZ_NAME cfg)
    (PyStr.or_else (email st2) EmptyString)
    ("Phone: " +:+ PyStr.fmt (phone st2)).

(** The text sent after a created event. *)
Definition created_msg (created : Created) (st2 : BookingState) : string :=
  NL +:+ NL +:+ "✅ Event created!" +:+ NL
  +:+ (if PyStr.truthy (hangoutLink created)
       then "Meet link: " +:+ PyStr.fmt (hangoutLink created) +:+ NL else EmptyString)
  +:+ (if PyStr.truthy (htmlLink created)
       then "Calendar link: " +:+ PyStr.fmt (htmlLink created) +:+ NL else EmptyString)
  +:+ "Invite email sent to: " +:+ PyStr.fmt (email st2).

(** The two texts below are written inside the braces of an f-string with
    doubled backslashes: they start with a backslash and the letter n, twice. *)
Definition invalid_start_msg : string :=
  "\n\n⚠️ Internal error: invalid start_iso format.".

Definition failed_msg (e : string) : string :=
  "\n\n⚠️ Failed to create event: " +:+ e.

(** The generator [sse] of [chat_stream], run to its end: A) the reply is
    streamed, B) the event is created when the stored step is
    [confirm_all] and the turn confirmed.  In the [try] block the start
    time is parsed first; the computation of [end_dt] and the call that
    follow it are [calendar], and whatever either of them raises gives the
    failure text. *)
Definition sse (tokens : Tokens) (sessions : Sessions) (sid user_text : string)
    (st : BookingState) (planned_text : string) (confirm : value)
  : Response BookingState :=
  let reply := llm_stream_reply speaker user_text st planned_text in
  let sent := map ev_delta (deltas reply) in
  match stream_error reply with
  | Some e => mkResponse sessions sent (Some e)
  | None =>
      let '(sessions, st2) := _load_state sessions sid in
      if at_step st2 "confirm_all" && is_str confirm "yes"
         && PyStr.truthy (start_iso st2) && PyStr.truthy (email st2)
         && PyStr.truthy (phone st2)
      then
        match _parse_iso_datetime cfg (PyStr.or_else (start_iso st2) EmptyString) with
        | None => mkResponse sessions (sent ++ [ev_delta invalid_start_msg; ev_done]) None
        | Some start_dt =>
            match calendar (event_request tokens st2 start_dt) with
            | Return created =>
                let st2 := set_step st2 (Some "done") in
                let sessions := _save_state sessions sid st2 in
                mkResponse sessions
                  (sent ++ [ev_delta (created_msg created st2); ev_done]) None
            | Raise e =>
                mkResponse sessions (sent ++ [ev_delta (failed_msg e); ev_done]) None
            end
        end
      else mkResponse sessions (sent ++ [ev_done]) None
  end.

(** POST /api/chat/stream with its response consumed to the end. *)
Definition chat_stream (sessions : Sessions) (sid : string) (messages : list Message)
  : Response BookingState :=
  let user_text := last_user_text messages in
  let '(sessions, st) := _load_state sessions sid in
  match _get_tokens sessions sid with
  | None => mkResponse sessions [ev_delta not_connected_msg; ev_done] None
  | Some tokens =>
      match llm_extract_and_validate planner user_text st with
      | Raise e => mkResponse sessions [] (Some e)
      | Return (not_a_plan j) => mkResponse sessions [] (Some (no_get j))
      | Return (a_plan plan) =>
          let ex := extracted plan in
          let nt := notes plan in
          let confirm := resolve_confirm user_text ex in
          let '(st, planned_text) := step_machine user_text st ex nt confirm in
          let sessions := _save_state sessions sid st in
          sse tokens sessions sid user_text st planned_text confirm
      end
  end.

End Engine.

(** The state stored for a session, as the next turn will load it. *)
Definition stored_state (sessions : Sessions) (sid : string) : option BookingState :=
  booking_state (get_session sessions sid).

End Chat.

(** ** voice.py: the conversation of the voice front-end *)
Module Voice.
Import App.

(** [history[-20:]] *)
Definition last20 (history : list Message) : list Message :=
  drop (List.length history - 20) history.

(** [history.append(m)] followed by [history[:] = history[-20:]]. *)
Definition append_bounded (history : list Message) (m : Message) : list Message :=
  last20 (history ++ [m]).

(** The body of a request: the contents of [messages] (empty when the key
    is absent) and [text]. *)
Record Payload : Type := mkPayload {
  p_messages : list value;
  p_text : value
}.

(** What the [try] block of the booking produces: the links of the created
    event and the attendee the finalizer chose. *)
Record Booked : Type := mkBooked {
  meet_link : value;
  html_link : value;
  attendee_email : string
}.

Definition no_input_msg : string := "I didn’t catch that. Can you say it again?".
Definition not_connected_msg : string :=
  "⚠️ Google Calendar is not connected. Please open /auth/google first.".
Definition creating_msg : string :=
  "One second — I'm creating the meeting details for you now.".

Definition booked_msg (b : Booked) : string :=
  NL +:+ NL +:+ "✅ Done! Your meeting is booked."
  +:+ (if PyStr.truthy (meet_link b)
       then NL +:+ "Meet link: " +:+ PyStr.fmt (meet_link b) else EmptyString)
  +:+ (if PyStr.truthy (html_link b)
       then NL +:+ "Calendar link: " +:+ PyStr.fmt (html_link b) else EmptyString)
  +:+ NL +:+ "Invite sent to: " +:+ attendee_email b.

Definition failed_msg (e : string) : string :=
  NL +:+ NL +:+ "⚠️ Failed to create calendar event: " +:+ e.

Section Conversation.

Context {BS : Type}.
(** The collaborators: the assistant model streaming a reply to the
    history, and the [try] block that finalizes and creates the event. *)
Variable assistant : list Message -> Stream.
Variable booking : list Message -> Tokens -> result Booked.

Definition set_history (sessions : gmap string (Session BS)) (sid : string)
    (history : list Message) : gmap string (Session BS) :=
  let sess := get_session sessions sid in
  <[sid := mkSession (google_tokens sess) (booking_state sess) history]> sessions.

Definition _get_history (sessions : gmap string (Session BS)) (sid : string)
  : gmap string (Session BS) * list Message :=
  let sess := get_session sessions sid in
  (<[sid := sess]> sessions, voice_history sess).

(** The history stored for a session. *)
Definition stored_history (sessions : gmap string (Session BS)) (sid : string)
  : list Message :=
  voice_history (get_session sessions sid).

(** The generator [sse] of [voice_chat_stream], run to its end.  The list
    [history] is the one stored in the session: every change of it is a
    change of the store. *)
Definition sse (tokens : Tokens) (sessions : gmap string (Session BS)) (sid : string)
    (history : list Message) : Response BS :=
  let reply := assistant history in
  let chunks := List.filter PyStr.nonempty (deltas reply) in
  let assistant_text := String.concat EmptyString chunks in
  let sent := map ev_delta chunks in
  match stream_error reply with
  | Some e => mkResponse sessions sent (Some e)
  | None =>
      let history := append_bounded history (mkMessage "assistant" assistant_text) in
      let sessions := set_history sessions sid history in
      if PyStr.contains "CONFIRMED" assistant_text then
        match booking history tokens with
        | Return b =>
            mkResponse (set_history sessions sid [])
              (sent ++ [ev_delta creating_msg; ev_delta (booked_msg b);
                        ev_final_text assistant_text; ev_done]) None
        | Raise e =>
            mkResponse sessions
              (sent ++ [ev_delta creating_msg; ev_delta (failed_msg e);
                        ev_final_text assistant_text; ev_done]) None
        end
      else mkResponse sessions (sent ++ [ev_final_text assistant_text; ev_done]) None
  end.

(** POST /api/voice/chat/stream with its response consumed to the end. *)
Definition voice_chat_stream (sessions : gmap string (Session BS)) (sid : string)
    (payload : Payload) : Response BS :=
  let user_text :=
    PyStr.strip
      (match last (p_messages payload) with
       | Some c => PyStr.or_else c EmptyString
       | None => PyStr.or_else (p_text payload) EmptyString
       end) in
  if negb (PyStr.nonempty user_text) then
    mkResponse sessions
      [ev_delta no_input_msg; ev_final_text no_input_msg; ev_done] None
  else
    let '(sessions, history) := _get_history sessions sid in
    let history := append_bounded history (mkMessage "user" user_text) in
    let sessions := set_history sessions sid history in
    match _get_tokens sessions sid with
    | None =>
        mkResponse sessions
          [ev_delta not_connected_msg; ev_final_text not_connected_msg; ev_done] None
    | Some tokens => sse tokens sessions sid history
    end.

End Conversation.

End Voice.

(** ** Shapes, invariants and sample data used by the statements *)
Module Props.



(** The start time of a state, when there is one, is a string that
    [_parse_iso_datetime] parses. *)
Definition start_parses (cfg : Chat.Config) (st : Chat.BookingState) : Prop :=
  match Chat.start_iso st with
  | Some s => is_Some (Chat._parse_iso_datetime cfg s)
  | None => True
  end.

(** The email and the phone of a state of the step-field engine, when
    there are any, pass the validators of that engine. *)
Definition contact_valid (st : AgentState.BookingState) : Prop :=
  match AgentState.email st with
  | Some e => AgentState.is_valid_email e = true
  | None => True
  end /\
  match AgentState.phone st with
  | Some p => AgentState.is_valid_phone p = true
  | None => True
  end.

(** The stores that the endpoints produce, starting from the empty store of
    app.py: the OAuth callback, a turn of the chat endpoint, a turn of the
    voice endpoint. *)
Inductive reachable (cfg : Chat.Config)
  : gmap string (App.Session Chat.BookingState) -> Prop :=
| reach_empty : reachable cfg ∅
| reach_oauth sessions sid tokens :
    reachable cfg sessions ->
    reachable cfg (App.auth_callback sessions sid tokens)
| reach_chat planner speaker calendar sessions sid messages :
    reachable cfg sessions ->
    reachable cfg
      (App.sessions_after
         (Chat.chat_stream cfg planner speaker calendar sessions sid messages))
| reach_voice assistant booking sessions sid payload :
    reachable cfg sessions ->
    reachable cfg
      (App.sessions_after
         (Voice.voice_chat_stream assistant booking sessions sid payload)).

(** *** Sample data *)

(** The state of the step-field engine at the given step, without contact. *)
Definition agent_at (step : string) : AgentState.BookingState :=
  AgentState.mkBookingState (Some step) None None (Some "Scheduled Meeting").

Definition agent_done : AgentState.BookingState :=
  AgentState.mkBookingState (Some "done") (Some "john.doe@example.com")
    (Some "+14155552671") (Some "Scheduled Meeting").

Definition sample_tokens : App.Tokens := App.mkTokens "ya29.token" None.

(** A chat state with every field set, at the given step. *)
Definition full_state (step : string) : Chat.BookingState :=
  Chat.mkBookingState (Some step) (Some "john.doe@example.com") (Some "+14155552671")
    (Some "2026-02-16T14:00:00-08:00") (Some "Demo").

(** A chat state with the contact only, at the given step. *)
Definition contact_state (step : string) : Chat.BookingState :=
  Chat.mkBookingState (Some step) (Some "john.doe@example.com") (Some "+14155552671")
    None None.

(** A store with one connected session, [s1], holding the given state. *)
Definition store_with (st : Chat.BookingState)
  : gmap string (App.Session Chat.BookingState) :=
  {[ "s1" := App.mkSession (Some sample_tokens) (Some st) [] ]}.

Definition no_notes : Chat.Notes := Chat.mkNotes None None None.

(** An extraction with no field and the given confirmation. *)
Definition only_confirm (c : value) : Chat.Extracted :=
  Chat.mkExtracted None false None false None false None c.

(** An extraction of a contact that the planner marks valid. *)
Definition contact_marked_valid (e p : string) : Chat.Extracted :=
  Chat.mkExtracted (Some e) true (Some p) true None false None None.

(** An extraction of a start time that the planner marks valid. *)
Definition start_marked_valid (s : string) : Chat.Extracted :=
  Chat.mkExtracted None false None false (Some s) true None None.

(** A planner that answers with the given extraction. *)
Definition planner_of (ex : Chat.Extracted) (u : string) (st : Chat.BookingState)
  : Chat.PlannerResponse :=
  Chat.output_plan (Chat.mkPlan ex no_notes).

(** A planner that extracts nothing but the given confirmation. *)
Definition planner_confirm (c : value) : string -> Chat.BookingState -> Chat.PlannerResponse :=
  planner_of (only_confirm c).

(** A planner whose call times out. *)
Definition planner_timeout (u : string) (st : Chat.BookingState) : Chat.PlannerResponse :=
  Chat.call_raises "APITimeoutError: Request timed out.".



(** A speaker that says the planned text in one piece. *)
Definition speaker_echo (u : string) (st : Chat.BookingState) (planned : string)
  : App.Stream :=
  App.mkStream [planned] None.

(** A block that computes the end time and creates the event without an
    exception (the sample runs are far from the year 9999), and one whose
    call fails. *)
Definition calendar_ok (req : Chat.EventRequest) : result Chat.Created :=
  Return (Chat.mkCreated (Some "https://calendar.example/evt")
                         (Some "https://meet.example/abc")).

Definition calendar_down (req : Chat.EventRequest) : result Chat.Created :=
  Raise "Create event failed: 503 unavailable".

Definition say (text : string) : list App.Message := [App.mkMessage "user" text].

(** A whole booking, turn by turn, from the empty store. *)
Definition run_connected : gmap string (App.Session Chat.BookingState) :=
  App.auth_callback ∅ "s1" sample_tokens.

Definition run_contact : gmap string (App.Session Chat.BookingState) :=
  App.sessions_after
    (Chat.chat_stream Chat.default_config
       (planner_of (contact_marked_valid " John.Doe@Example.COM " "+14155552671"))
       speaker_echo calendar_ok run_connected "s1"
       (say "John.Doe@Example.COM, +1 415 555 2671")).

Definition run_contact_confirmed : gmap string (App.Session Chat.BookingState) :=
  App.sessions_after
    (Chat.chat_stream Chat.default_config (planner_confirm None)
       speaker_echo calendar_ok run_contact "s1" (say "yes")).

Definition run_timed : gmap string (App.Session Chat.BookingState) :=
  App.sessions_after
    (Chat.chat_stream Chat.default_config
       (planner_of (start_marked_valid "2026-02-16T14:00:00-08:00"))
       speaker_echo calendar_ok run_contact_confirmed "s1" (say "Feb 16 2pm")).

Definition run_titled : gmap string (App.Session Chat.BookingState) :=
  App.sessions_after
    (Chat.chat_stream Chat.default_config (planner_confirm None)
       speaker_echo calendar_ok run_timed "s1" (say "skip")).

Definition run_booked : gmap string (App.Session Chat.BookingState) :=
  App.sessions_after
    (Chat.chat_stream Chat.default_config (planner_confirm None)
       speaker_echo calendar_ok run_titled "s1" (say "Yes")).

End Props.

(** ** The languages of the regular expressions *)
Module ReLang.

(** The strings that a regular expression denotes. *)
Inductive lang : Re.regex -> string -> Prop :=
| lang_eps : lang Re.Eps EmptyString
| lang_class p c : p c = true -> lang (Re.Class p) (String c EmptyString)
| lang_cat r1 r2 s1 s2 :
    lang r1 s1 -> lang r2 s2 -> lang (Re.Cat r1 r2) (s1 +:+ s2)
| lang_alt_l r1 r2 s : lang r1 s -> lang (Re.Alt r1 r2) s
| lang_alt_r r1 r2 s : lang r2 s -> lang (Re.Alt r1 r2) s
| lang_star_nil r : lang (Re.Star r) EmptyString
| lang_star_cons r s1 s2 :
    lang r s1 -> lang (Re.Star r) s2 -> lang (Re.Star r) (s1 +:+ s2).

(** A non-empty run of characters that are neither an at sign nor
    whitespace. *)
Definition email_part (s : string) : Prop :=
  PyStr.nonempty s = true /\ PyStr.forallb AgentState.not_at_space s = true.

(** local, at sign, domain, dot, top level. *)
Definition email_shape (s : string) : Prop :=
  exists a b c,
    s = a +:+ "@" +:+ b +:+ "." +:+ c
    /\ email_part a /\ email_part b /\ email_part c.

(** The number of at signs of a string. *)
Definition count_at (s : string) : nat :=
  String.length (PyStr.filter (Ascii.eqb "@") s).

End ReLang.

(** ** oauth_google.py: connecting a session to the calendar *)
Module OAuth.
Import App.

(** The three settings that [_build_flow] reads from the environment. *)
Record Env : Type := mkEnv {
  GOOGLE_CLIENT_ID : value;
  GOOGLE_CLIENT_SECRET : value;
  GOOGLE_REDIRECT_URI : value
}.

(** What the flow is built from. *)
Record Flow : Type := mkFlow {
  client_id : string;
  client_secret : string;
  redirect_uri : string;
  flow_state : string
}.

(** The credentials of a flow whose token was fetched. *)
Record Credentials : Type := mkCredentials {
  token : string;
  cred_refresh_token : value
}.

(** The two pages of the callback; their HTML is not kept. *)
Inductive Page : Type := mismatch_page | connected_page.

(** A response: a redirect that sets the cookie [sid], or a page with its
    status and the cookie it sets, if any. *)
Inductive HttpResponse : Type :=
| redirect (url : string) (cookie_sid : string)
| html (status : nat) (page : Page) (cookie_sid : option string).

(** The sessions together with the value each of them holds under the key
    [oauth_csrf]; a session without the key has no entry. *)
Record Store (BS : Type) : Type := mkStore {
  sessions : gmap string (Session BS);
  oauth_csrf : gmap string string
}.
Arguments mkStore {BS} _ _.
Arguments sessions {BS} _.
Arguments oauth_csrf {BS} _.

Definition _build_flow (env : Env) (state : string) : result Flow :=
  if negb (PyStr.truthy (GOOGLE_CLIENT_ID env))
     || negb (PyStr.truthy (GOOGLE_CLIENT_SECRET env))
     || negb (PyStr.truthy (GOOGLE_REDIRECT_URI env))
  then Raise "Missing GOOGLE_CLIENT_ID / GOOGLE_CLIENT_SECRET / GOOGLE_REDIRECT_URI in .env"
  else Return (mkFlow (PyStr.or_else (GOOGLE_CLIENT_ID env) EmptyString)
                      (PyStr.or_else (GOOGLE_CLIENT_SECRET env) EmptyString)
                      (PyStr.or_else (GOOGLE_REDIRECT_URI env) EmptyString)
                      state).

Section Routes.

Context {BS : Type}.
Variable env : Env.
(** The library: the authorization URL of a flow, and the exchange of the
    code for credentials, which may raise. *)
Variable authorization_url : Flow -> string.
Variable fetch_token : Flow -> string -> result Credentials.

(** GET /auth/google; [csrf] is the value that [secrets.token_urlsafe]
    returns.  The value is stored before the flow is built. *)
Definition auth_google (store : Store BS) (sid csrf : string)
  : Store BS * result HttpResponse :=
  let store1 :=
    mkStore (<[sid := get_session (sessions store) sid]> (sessions store))
            (<[sid := csrf]> (oauth_csrf store)) in
  match _build_flow env csrf with
  | Raise e => (store1, Raise e)
  | Return flow => (store1, Return (redirect (authorization_url flow) sid))
  end.

(** GET /google/callback *)
Definition auth_callback (store : Store BS) (sid state code : string)
  : Store BS * result HttpResponse :=
  let saved := oauth_csrf store !! sid in
  if negb (PyStr.truthy saved) || negb (Chat.is_str saved state) then
    (store, Return (html 400 mismatch_page None))
  else
    match _build_flow env state with
    | Raise e => (store, Raise e)
    | Return flow =>
        match fetch_token flow code with
        | Raise e => (store, Raise e)
        | Return creds =>
            (mkStore
               (App.auth_callback (sessions store) sid
                  (mkTokens (token creds) (cred_refresh_token creds)))
               (oauth_csrf store),
             Return (html 200 connected_page (Some sid)))
        end
    end.

End Routes.

End OAuth.

(** ** Graphs, invariants and sample data of the further properties *)
Module Inv.

(** The steps that the step machine of the chat engine can leave a state
    in, by the step it found. *)
Definition machine_edges (s : string) : list string :=
  if String.eqb s "ask_email_phone" then ["ask_email_phone"; "confirm_contact"]
  else if String.eqb s "confirm_contact"
       then ["ask_email_phone"; "ask_time"; "confirm_contact"]
  else if String.eqb s "ask_time" then ["ask_time"; "ask_title"]
  else if String.eqb s "ask_title" then ["confirm_all"]
  else if String.eqb s "confirm_all" then ["ask_time"; "confirm_all"]
  else [s].

(** The steps that a whole turn can leave the stored state in: a turn
    that is not connected, or whose planner raises, stores the state as it
    was, and a turn that ends at confirm_all may go on to done. *)
Definition turn_edges (s : string) : list string :=
  if String.eqb s "ask_title" then ["ask_title"; "confirm_all"; "done"]
  else if String.eqb s "confirm_all" then ["ask_time"; "confirm_all"; "done"]
  else machine_edges s.

(** The steps that the step-field engine can leave a state in. *)
Definition agent_edges (s : string) : list string :=
  if String.eqb s "ask_email" then ["ask_email"; "ask_phone"]
  else if String.eqb s "ask_phone" then ["ask_phone"; "confirm"]
  else if String.eqb s "confirm" then ["confirm"; "ask_email"; "done"]
  else [s].

(** A non-empty string that [_parse_iso_datetime] parses. *)
Definition parses (cfg : Chat.Config) (v : value) : bool :=
  match v with
  | Some s =>
      PyStr.nonempty s
      && match Chat._parse_iso_datetime cfg s with Some _ => true | None => false end
  | None => false
  end.

(** The fields that each step of the chat engine relies on: a known step;
    from confirm_contact on, an email and a phone; from ask_title on, a
    start time that parses; from confirm_all on, a title. *)
Definition well_formed (cfg : Chat.Config) (st : Chat.BookingState) : bool :=
  match Chat.step st with
  | None => false
  | Some s =>
      PyStr.member s ["ask_email_phone"; "confirm_contact"; "ask_time"; "ask_title";
                      "confirm_all"; "done"]
      && (if PyStr.member s ["confirm_contact"; "ask_time"; "ask_title";
                             "confirm_all"; "done"]
          then PyStr.truthy (Chat.email st) && PyStr.truthy (Chat.phone st)
          else true)
      && (if PyStr.member s ["ask_title"; "confirm_all"; "done"]
          then parses cfg (Chat.start_iso st) else true)
      && (if PyStr.member s ["confirm_all"; "done"]
          then match Chat.title st with Some _ => true | None => false end
          else true)
  end.

(** The text that the title step works on. *)
Definition title_text (user_text : string) (ex : Chat.Extracted) : string :=
  PyStr.strip (PyStr.or_else (Chat.ex_title ex) user_text).

(** The utterance of a voice request. *)
Definition voice_user_text (payload : Voice.Payload) : string :=
  PyStr.strip
    (match last (Voice.p_messages payload) with
     | Some c => PyStr.or_else c EmptyString
     | None => PyStr.or_else (Voice.p_text payload) EmptyString
     end).

(** *** Sample data *)

Definition sample_env : OAuth.Env :=
  OAuth.mkEnv (Some "client-id") (Some "client-secret")
    (Some "https://agent.example/google/callback").

Definition sample_url (flow : OAuth.Flow) : string :=
  "https://accounts.google.com/o/oauth2/auth?state=" +:+ OAuth.flow_state flow.

Definition sample_fetch (flow : OAuth.Flow) (code : string) : result OAuth.Credentials :=
  Return (OAuth.mkCredentials "ya29.token" None).

Definition empty_store : OAuth.Store Chat.BookingState := OAuth.mkStore ∅ ∅.

(** An assistant that answers with the given text, in two pieces. *)
Definition assistant_says (a b : string) (history : list App.Message) : App.Stream :=
  App.mkStream [a; EmptyString; b] None.

Definition booking_ok (history : list App.Message) (tokens : App.Tokens)
  : result Voice.Booked :=
  Return (Voice.mkBooked (Some "https://meet.example/abc") None "john.doe@example.com").

Definition booking_down (history : list App.Message) (tokens : App.Tokens)
  : result Voice.Booked :=
  Raise "Create event failed: 503 unavailable".

(** A store with one connected session, [v1], with the given history. *)
Definition voice_store (h : list App.Message)
  : gmap string (App.Session Chat.BookingState) :=
  {[ "v1" := App.mkSession (Some Props.sample_tokens) None h ]}.

Definition user_says (text : string) : Voice.Payload :=
  Voice.mkPayload [Some text] None.

Definition msg (n : nat) : App.Message :=
  App.mkMessage "user" (String (ascii_of_nat (48 + n)) EmptyString).

(** A speaker whose stream breaks after two pieces. *)
Definition speaker_breaks (u : string) (st : Chat.BookingState) (planned : string)
  : App.Stream :=
  App.mkStream ["Got it"; EmptyString; " — "] (Some "APIConnectionError: stream reset").

End Inv.


(** Splits the goal along the tests of the step machine. *)
Ltac split_branches :=
  repeat match goal with
         | |- context [match Chat.accepted ?b ?v with _ => _ end] =>
             destruct (Chat.accepted b v) eqn:?
         | |- context [match Chat._parse_iso_datetime ?c ?s with _ => _ end] =>
             destruct (Chat._parse_iso_datetime c s) eqn:?
         | |- context [if ?b then _ else _] => destruct b eqn:?
         end.

(** * Properties *)

(** ** A booking from start to end *)

Example run_timed_state :
  Chat.stored_state Props.run_timed "s1"
  = Some (Chat.mkBookingState (Some "ask_title") (Some "john.doe@example.com")
            (Some "+14155552671") (Some "2026-02-16T14:00:00-08:00") None).
Proof. vm_compute. reflexivity. Qed.

Example run_titled_state :
  Chat.stored_state Props.run_titled "s1"
  = Some (Chat.mkBookingState (Some "confirm_all") (Some "john.doe@example.com")
            (Some "+14155552671") (Some "2026-02-16T14:00:00-08:00")
            (Some "Scheduled Meeting")).
Proof. vm_compute. reflexivity. Qed.

Example run_booked_state :
  Chat.stored_state Props.run_booked "s1"
  = Some (Chat.mkBookingState (Some "done") (Some "john.doe@example.com")
            (Some "+14155552671") (Some "2026-02-16T14:00:00-08:00")
            (Some "Scheduled Meeting")).
Proof. vm_compute. reflexivity. Qed.

(** ** Strings *)

Lemma member_true_iff (t : string) (l : list string) :
  PyStr.member t l = true <-> In t l.
Proof.
  unfold PyStr.member. rewrite existsb_exists. split.
  - intros (x & Hx & Heq). apply String.eqb_eq in Heq. now subst.
  - intros Hin. exists t. split; [assumption | apply String.eqb_refl].
Qed.

Lemma lower_char_idem (c : ascii) :
  PyStr.lower_char (PyStr.lower_char c) = PyStr.lower_char c.
Proof. destruct c as [[] [] [] [] [] [] [] []]; reflexivity. Qed.

Lemma isspace_lower_char (c : ascii) :
  PyStr.isspace (PyStr.lower_char c) = PyStr.isspace c.
Proof. destruct c as [[] [] [] [] [] [] [] []]; reflexivity. Qed.

Lemma lower_idem (s : string) : PyStr.lower (PyStr.lower s) = PyStr.lower s.
Proof.
  induction s as [|c s IH]; simpl; [reflexivity|].
  now rewrite lower_char_idem, IH.
Qed.

Lemma lstrip_lower (s : string) :
  PyStr.lstrip (PyStr.lower s) = PyStr.lower (PyStr.lstrip s).
Proof.
  induction s as [|c s IH]; simpl; [reflexivity|].
  rewrite isspace_lower_char. destruct (PyStr.isspace c); [assumption | reflexivity].
Qed.

Lemma rstrip_lower (s : string) :
  PyStr.rstrip (PyStr.lower s) = PyStr.lower (PyStr.rstrip s).
Proof.
  induction s as [|c s IH]; simpl; [reflexivity|].
  rewrite IH, isspace_lower_char.
  destruct (PyStr.rstrip s); simpl; [destruct (PyStr.isspace c)|]; reflexivity.
Qed.

Lemma strip_lower (s : string) :
  PyStr.strip (PyStr.lower s) = PyStr.lower (PyStr.strip s).
Proof. unfold PyStr.strip. now rewrite rstrip_lower, lstrip_lower. Qed.

Lemma lstrip_idem (s : string) : PyStr.lstrip (PyStr.lstrip s) = PyStr.lstrip s.
Proof.
  induction s as [|c s IH]; simpl; [reflexivity|].
  destruct (PyStr.isspace c) eqn:Hc; [assumption|].
  simpl. now rewrite Hc.
Qed.

Lemma rstrip_idem (s : string) : PyStr.rstrip (PyStr.rstrip s) = PyStr.rstrip s.
Proof.
  induction s as [|c s IH]; simpl; [reflexivity|].
  destruct (PyStr.rstrip s) as [|a r] eqn:Hr.
  - destruct (PyStr.isspace c) eqn:Hc; simpl; [reflexivity | now rewrite Hc].
  - change (PyStr.rstrip (String c (String a r)))
      with (match PyStr.rstrip (String a r) with
            | EmptyString => if PyStr.isspace c then EmptyString else String c EmptyString
            | r0 => String c r0
            end).
    now rewrite IH.
Qed.

Lemma rstrip_lstrip (s : string) :
  PyStr.rstrip (PyStr.lstrip s) = PyStr.lstrip (PyStr.rstrip s).
Proof.
  induction s as [|c s IH]; [reflexivity|].
  cbn [PyStr.lstrip PyStr.rstrip].
  destruct (PyStr.isspace c) eqn:Hc.
  - rewrite IH. destruct (PyStr.rstrip s) as [|a r]; [reflexivity|].
    cbn [PyStr.lstrip]. now rewrite Hc.
  - cbn [PyStr.rstrip].
    destruct (PyStr.rstrip s) as [|a r]; cbn [PyStr.lstrip]; now rewrite Hc.
Qed.

Lemma strip_idem (s : string) : PyStr.strip (PyStr.strip s) = PyStr.strip s.
Proof.
  unfold PyStr.strip.
  now rewrite rstrip_lstrip, rstrip_idem, lstrip_idem.
Qed.

Section Filter.

Variable p : ascii -> bool.
Hypothesis p_not_space : forall c, p c = true -> PyStr.isspace c = false.

Lemma forallb_filter (s : string) : PyStr.forallb p (PyStr.filter p s) = true.
Proof.
  induction s as [|c s IH]; simpl; [reflexivity|].
  destruct (p c) eqn:Hc; simpl; [now rewrite Hc | assumption].
Qed.

Lemma filter_id (s : string) : PyStr.forallb p s = true -> PyStr.filter p s = s.
Proof.
  induction s as [|c s IH]; simpl; [reflexivity|].
  intros [Hc Hs]%andb_prop. rewrite Hc. now rewrite IH.
Qed.

Lemma filter_lstrip (s : string) : PyStr.filter p (PyStr.lstrip s) = PyStr.filter p s.
Proof.
  induction s as [|c s IH]; simpl; [reflexivity|].
  destruct (PyStr.isspace c) eqn:Hc; [|reflexivity].
  destruct (p c) eqn:Hp; [|assumption].
  apply p_not_space in Hp. congruence.
Qed.

Lemma filter_rstrip (s : string) : PyStr.filter p (PyStr.rstrip s) = PyStr.filter p s.
Proof.
  induction s as [|c s IH]; simpl; [reflexivity|].
  destruct (PyStr.rstrip s) as [|a r] eqn:Hr.
  - simpl in IH. destruct (PyStr.isspace c) eqn:Hc; simpl.
    + destruct (p c) eqn:Hp; [|assumption].
      apply p_not_space in Hp. congruence.
    + now rewrite <- IH.
  - change (PyStr.filter p (String c (String a r)))
      with (if p c then String c (PyStr.filter p (String a r))
            else PyStr.filter p (String a r)).
    now rewrite IH.
Qed.

Lemma filter_strip (s : string) : PyStr.filter p (PyStr.strip s) = PyStr.filter p s.
Proof. unfold PyStr.strip. now rewrite filter_lstrip, filter_rstrip. Qed.


End Filter.

(** ** Equations of the matcher *)

Lemma matches_Alt (r1 r2 : Re.regex) (s : string) :
  Re.matches (Re.Alt r1 r2) s = Re.matches r1 s || Re.matches r2 s.
Proof.
  revert r1 r2. induction s as [|c s IH]; intros r1 r2; simpl; [reflexivity | apply IH].
Qed.

Lemma matches_Cat_Void (r : Re.regex) (s : string) :
  Re.matches (Re.Cat Re.Void r) s = false.
Proof. induction s as [|c s IH]; simpl; [reflexivity | assumption]. Qed.

Lemma matches_Cat_Eps (r : Re.regex) (s : string) :
  Re.matches (Re.Cat Re.Eps r) s = Re.matches r s.
Proof.
  destruct s as [|c s]; simpl; [reflexivity|].
  now rewrite matches_Alt, matches_Cat_Void.
Qed.

Lemma matches_Cat_Class (p : ascii -> bool) (r : Re.regex) (s : string) :
  Re.matches (Re.Cat (Re.Class p) r) s =
  match s with
  | EmptyString => false
  | String c s' => p c && Re.matches r s'
  end.
Proof.
  destruct s as [|c s]; simpl; [reflexivity|].
  destruct (p c); [apply matches_Cat_Eps | apply matches_Cat_Void].
Qed.


Lemma matches_Star_Class (p : ascii -> bool) (s : string) :
  Re.matches (Re.Star (Re.Class p)) s = PyStr.forallb p s.
Proof.
  induction s as [|c s IH]; simpl; [reflexivity|].
  destruct (p c); simpl; [now rewrite matches_Cat_Eps | apply matches_Cat_Void].
Qed.


(** ** The phone grammar on normalized strings *)

Lemma digit_or_plus_not_space (c : ascii) :
  AgentState.digit_or_plus c = true -> PyStr.isspace c = false.
Proof. destruct c as [[] [] [] [] [] [] [] []]; simpl; intros H; (reflexivity || discriminate). Qed.





Lemma normalize_phone_filter (s : string) :
  AgentState.normalize_phone s = PyStr.filter AgentState.digit_or_plus s.
Proof.
  unfold AgentState.normalize_phone.
  apply filter_strip. exact digit_or_plus_not_space.
Qed.

Lemma normalize_phone_chars (s : string) :
  PyStr.forallb AgentState.digit_or_plus (AgentState.normalize_phone s) = true.
Proof. rewrite normalize_phone_filter. apply forallb_filter. Qed.

Lemma normalize_phone_idem (s : string) :
  AgentState.normalize_phone (AgentState.normalize_phone s) = AgentState.normalize_phone s.
Proof.
  rewrite (normalize_phone_filter (AgentState.normalize_phone s)).
  apply filter_id, normalize_phone_chars.
Qed.






Lemma is_valid_email_strip (u : string) :
  AgentState.is_valid_email (PyStr.strip u) = AgentState.is_valid_email u.
Proof. unfold AgentState.is_valid_email. now rewrite strip_idem. Qed.

Lemma is_valid_phone_strip (u : string) :
  AgentState.is_valid_phone (PyStr.strip u) = AgentState.is_valid_phone u.
Proof.
  unfold AgentState.is_valid_phone, AgentState.normalize_phone. now rewrite strip_idem.
Qed.

Lemma at_step_eq (st : AgentState.BookingState) (name : string) :
  AgentState.step st = Some name -> AgentState.at_step st name = true.
Proof. unfold AgentState.at_step. intros ->. apply String.eqb_refl. Qed.

Lemma at_step_ne (st : AgentState.BookingState) (name other : string) :
  AgentState.step st = Some name -> name <> other -> AgentState.at_step st other = false.
Proof. unfold AgentState.at_step. intros -> Hne. now apply String.eqb_neq. Qed.

(** ** The step-field engine *)



(** At confirm, a yes moves the returned state to done at once and asks the
    caller for the meeting. *)
Lemma handle_confirm_yes (st : AgentState.BookingState) (u : string) :
  AgentState.step st = Some "confirm" ->
  AgentState.parse_yes_no (PyStr.strip u) = Some true ->
  AgentState.handle_user_message st u
  = AgentState.mkOutcome (AgentState.set_step st (Some "done"))
      "Great — creating your meeting now…" (Some AgentState.create_meeting).
Proof.
  intros Hstep Hyes. unfold AgentState.handle_user_message.
  rewrite !(at_step_ne _ _ _ Hstep) by discriminate.
  now rewrite (at_step_eq _ _ Hstep), Hyes.
Qed.

(** ** The dictionary of a state *)

Lemma find_none_all {A : Type} (f : A -> bool) (l : list A) :
  (forall x, In x l -> f x = false) -> List.find f l = None.
Proof.
  induction l as [|a l IH]; simpl; [reflexivity|].
  intros H. rewrite (H a) by now left. apply IH. intros x Hx. apply H. now right.
Qed.

Lemma state_to_dict_keys (s : AgentState.BookingState) (k : string) (v : value) :
  AgentState.state_to_dict s !! k = Some v -> In k AgentState.field_names.
Proof.
  unfold AgentState.state_to_dict, AgentState.field_names.
  rewrite !lookup_insert_Some, lookup_empty. simpl.
  intros [[<- _]|[_ [[<- _]|[_ [[<- _]|[_ [[<- _]|[_ H]]]]]]]];
    [tauto | tauto | tauto | tauto | discriminate H].
Qed.

Lemma state_to_dict_no_stray_key (s : AgentState.BookingState) :
  List.find (fun k => negb (PyStr.member k AgentState.field_names))
    (map fst (map_to_list (AgentState.state_to_dict s))) = None.
Proof.
  apply find_none_all. intros k Hk.
  apply list_elem_of_In, list_elem_of_fmap in Hk as ([k' v] & -> & Hkv).
  apply elem_of_map_to_list, state_to_dict_keys in Hkv.
  cbn [fst]. apply negb_false_iff, member_true_iff. assumption.
Qed.

(** C10. Converting a state of the step-field engine to a dictionary and
    back gives the state again; from no dictionary, or from an empty one,
    [dict_to_state] builds the default state, whose step is ask_email. *)
Theorem state_dict_roundtrip :
  (forall s : AgentState.BookingState,
      AgentState.dict_to_state (Some (AgentState.state_to_dict s)) = Return s)
  /\ AgentState.dict_to_state None = Return AgentState.default_state
  /\ AgentState.dict_to_state (Some ∅) = Return AgentState.default_state
  /\ AgentState.step AgentState.default_state = Some "ask_email".
Proof.
  split; [|repeat split].
  intros s. unfold AgentState.dict_to_state.
  change (default ∅ (Some (AgentState.state_to_dict s))) with (AgentState.state_to_dict s).
  cbv zeta. rewrite state_to_dict_no_stray_key.
  unfold AgentState.state_to_dict.
  rewrite lookup_insert_eq.
  rewrite lookup_insert_ne, lookup_insert_eq by discriminate.
  rewrite !lookup_insert_ne, lookup_insert_eq by discriminate.
  rewrite !lookup_insert_ne, lookup_insert_eq by discriminate.
  now destruct s.
Qed.

(** ** The history window of the voice front-end *)

Lemma length_last20 (h : list App.Message) :
  List.length (Voice.last20 h) = Nat.min 20 (List.length h).
Proof. unfold Voice.last20. rewrite length_drop. lia. Qed.

Lemma length_append_bounded (h : list App.Message) (m : App.Message) :
  List.length (Voice.append_bounded h m) <= 20.
Proof. unfold Voice.append_bounded. rewrite length_last20. lia. Qed.

Lemma last_append_bounded (h : list App.Message) (m : App.Message) :
  last (Voice.append_bounded h m) = Some m.
Proof.
  unfold Voice.append_bounded, Voice.last20.
  rewrite drop_app_le by (rewrite length_app; simpl; lia).
  apply last_snoc.
Qed.

Section VoiceStore.

Context {BS : Type}.
Implicit Types (sessions : gmap string (App.Session BS)) (sid : string).

Lemma get_session_insert sessions sid (sess : App.Session BS) :
  App.get_session (<[sid := sess]> sessions) sid = sess.
Proof. unfold App.get_session. now rewrite lookup_insert_eq. Qed.

Lemma stored_set_history sessions sid (h : list App.Message) :
  Voice.stored_history (Voice.set_history sessions sid h) sid = h.
Proof. unfold Voice.stored_history, Voice.set_history. now rewrite get_session_insert. Qed.

Lemma voice_sse_bounded assistant booking tokens sessions sid (h : list App.Message) :
  List.length (Voice.stored_history sessions sid) <= 20 ->
  List.length
    (Voice.stored_history
       (App.sessions_after (Voice.sse assistant booking tokens sessions sid h)) sid) <= 20.
Proof.
  intros Hlen. unfold Voice.sse.
  destruct (App.stream_error (assistant h)); [exact Hlen|].
  destruct (PyStr.contains _ _); [destruct (booking _ tokens)|];
    cbn [App.sessions_after]; rewrite ?stored_set_history;
    solve [apply length_append_bounded | simpl; lia].
Qed.

Lemma voice_turn_bounded assistant booking sessions sid (payload : Voice.Payload) :
  let r := Voice.voice_chat_stream assistant booking sessions sid payload in
  App.sessions_after r = sessions
  \/ List.length (Voice.stored_history (App.sessions_after r) sid) <= 20.
Proof.
  unfold Voice.voice_chat_stream. cbv zeta.
  destruct (negb (PyStr.nonempty _)); [now left | right].
  unfold Voice._get_history.
  destruct (App._get_tokens _ sid) as [tokens|].
  - apply voice_sse_bounded. rewrite stored_set_history. apply length_append_bounded.
  - cbn [App.sessions_after]. rewrite stored_set_history. apply length_append_bounded.
Qed.

End VoiceStore.

(** ** The store of the chat engine *)

Section ChatStore.

Implicit Types (sessions : gmap string (App.Session Chat.BookingState)) (sid : string).
Implicit Types (st : Chat.BookingState) (sess : App.Session Chat.BookingState).

Lemma chat_at_step_eq st (name : string) :
  Chat.step st = Some name -> Chat.at_step st name = true.
Proof. unfold Chat.at_step. intros ->. apply String.eqb_refl. Qed.

Lemma chat_at_step_ne st (name other : string) :
  Chat.step st = Some name -> name <> other -> Chat.at_step st other = false.
Proof. unfold Chat.at_step. intros -> Hne. now apply String.eqb_neq. Qed.

Lemma get_session_lookup sessions sid sess :
  sessions !! sid = Some sess -> App.get_session sessions sid = sess.
Proof. unfold App.get_session. now intros ->. Qed.

Lemma load_state_stored sessions sid sess st :
  sessions !! sid = Some sess -> App.booking_state sess = Some st ->
  Chat._load_state sessions sid = (sessions, st).
Proof.
  intros Hs Hb. unfold Chat._load_state.
  rewrite (get_session_lookup _ _ _ Hs), Hb. now rewrite insert_id.
Qed.

Lemma save_state_same sessions sid sess st :
  sessions !! sid = Some sess -> App.booking_state sess = Some st ->
  Chat._save_state sessions sid st = sessions.
Proof.
  intros Hs Hb. unfold Chat._save_state, Chat.set_booking_state.
  rewrite (get_session_lookup _ _ _ Hs). apply insert_id.
  rewrite Hs. f_equal. destruct sess; simpl in *. now subst.
Qed.

Lemma stored_save_state sessions sid st :
  Chat.stored_state (Chat._save_state sessions sid st) sid = Some st.
Proof.
  unfold Chat.stored_state, Chat._save_state. now rewrite get_session_insert.
Qed.

Lemma load_after_save sessions sid st :
  Chat._load_state (Chat._save_state sessions sid st) sid
  = (Chat._save_state sessions sid st, st).
Proof.
  eapply load_state_stored; [apply lookup_insert_eq | reflexivity].
Qed.

Lemma stored_load_state sessions sid :
  Chat.stored_state (Chat._load_state sessions sid).1 sid
  = Some (Chat._load_state sessions sid).2.
Proof.
  unfold Chat._load_state, Chat.stored_state.
  destruct (App.booking_state (App.get_session sessions sid)) eqn:Hb;
    cbn [fst snd]; rewrite get_session_insert; [assumption | reflexivity].
Qed.

Lemma get_tokens_lookup sessions sid sess :
  sessions !! sid = Some sess -> App._get_tokens sessions sid = App.google_tokens sess.
Proof. unfold App._get_tokens. now intros ->%get_session_lookup. Qed.

End ChatStore.

(** ** The turn of the chat engine *)

Section ChatTurn.

Variable cfg : Chat.Config.
Variable planner : string -> Chat.BookingState -> Chat.PlannerResponse.
Variable speaker : string -> Chat.BookingState -> string -> App.Stream.
Variable calendar : Chat.EventRequest -> result Chat.Created.

Implicit Types (sessions : gmap string (App.Session Chat.BookingState)) (sid : string).
Implicit Types (st : Chat.BookingState) (sess : App.Session Chat.BookingState).

(** The turn of a session that is stored and connected. *)
Lemma chat_stream_connected sessions sid sess tokens st messages :
  sessions !! sid = Some sess ->
  App.google_tokens sess = Some tokens ->
  App.booking_state sess = Some st ->
  Chat.chat_stream cfg planner speaker calendar sessions sid messages =
  let user_text := Chat.last_user_text messages in
  match Chat.llm_extract_and_validate planner user_text st with
  | Raise e => App.mkResponse sessions [] (Some e)
  | Return (Chat.not_a_plan j) => App.mkResponse sessions [] (Some (Chat.no_get j))
  | Return (Chat.a_plan plan) =>
      let confirm := Chat.resolve_confirm user_text (Chat.extracted plan) in
      let r := Chat.step_machine cfg user_text st (Chat.extracted plan)
                 (Chat.notes plan) confirm in
      Chat.sse cfg speaker calendar tokens (Chat._save_state sessions sid r.1) sid
        user_text r.1 r.2 confirm
  end.
Proof.
  intros Hs Ht Hb. unfold Chat.chat_stream.
  rewrite (load_state_stored _ _ _ _ Hs Hb), (get_tokens_lookup _ _ _ Hs), Ht.
  cbv zeta.
  destruct (Chat.llm_extract_and_validate _ _ _) as [[plan|j]|e]; [|reflexivity..].
  now destruct (Chat.step_machine _ _ _ _ _ _).
Qed.

(** The generator after the state of the turn was saved. *)
Lemma sse_after_save tokens sessions sid user_text st planned confirm :
  Chat.sse cfg speaker calendar tokens (Chat._save_state sessions sid st) sid
    user_text st planned confirm =
  let saved := Chat._save_state sessions sid st in
  let reply := Chat.llm_stream_reply speaker user_text st planned in
  let sent := map App.ev_delta (App.deltas reply) in
  match App.stream_error reply with
  | Some e => App.mkResponse saved sent (Some e)
  | None =>
      if Chat.at_step st "confirm_all" && Chat.is_str confirm "yes"
         && PyStr.truthy (Chat.start_iso st) && PyStr.truthy (Chat.email st)
         && PyStr.truthy (Chat.phone st)
      then
        match Chat._parse_iso_datetime cfg (PyStr.or_else (Chat.start_iso st) EmptyString) with
        | None =>
            App.mkResponse saved
              (sent ++ [App.ev_delta Chat.invalid_start_msg; App.ev_done]) None
        | Some start_dt =>
            match calendar (Chat.event_request cfg tokens st start_dt) with
            | Return created =>
                let st2 := Chat.set_step st (Some "done") in
                App.mkResponse (Chat._save_state saved sid st2)
                  (sent ++ [App.ev_delta (Chat.created_msg created st2); App.ev_done]) None
            | Raise e =>
                App.mkResponse saved
                  (sent ++ [App.ev_delta (Chat.failed_msg e); App.ev_done]) None
            end
        end
      else App.mkResponse saved (sent ++ [App.ev_done]) None
  end.
Proof.
  unfold Chat.sse. cbv zeta.
  destruct (App.stream_error _); [reflexivity|].
  now rewrite load_after_save.
Qed.

End ChatTurn.

(** ** The branches of the step machine *)

Section StepMachine.

Variable cfg : Chat.Config.
Implicit Types (st : Chat.BookingState) (ex : Chat.Extracted) (nt : Chat.Notes).


Lemma step_machine_confirm_all user_text st ex nt (confirm : value) :
  Chat.step st = Some "confirm_all" ->
  Chat.step_machine cfg user_text st ex nt confirm =
  if Chat.is_str confirm "no" then
    (Chat.set_start_iso (Chat.set_step st (Some "ask_time")) None,
     "Okay. Let’s pick a new time. What date and time would you like?")
  else if Chat.is_str confirm "yes" then (st, Chat.creating_msg)
  else (st, "Please reply 'yes' to create the event or 'no' to change the time.").
Proof.
  intros Hstep. unfold Chat.step_machine.
  rewrite !(chat_at_step_ne _ _ _ Hstep) by discriminate.
  now rewrite (chat_at_step_eq _ _ Hstep).
Qed.

Lemma step_machine_confirm_contact user_text st ex nt (confirm : value) :
  Chat.step st = Some "confirm_contact" ->
  Chat.step_machine cfg user_text st ex nt confirm =
  if Chat.is_str confirm "no" then (Chat.initial_state, Chat.restart_contact_msg)
  else if Chat.is_str confirm "yes" then
    (Chat.set_step st (Some "ask_time"),
     "Great. What date and time would you like to schedule the meeting?")
  else (st, "Please reply 'yes' to confirm or 'no' to re-enter your email and phone.").
Proof.
  intros Hstep. unfold Chat.step_machine.
  rewrite !(chat_at_step_ne _ _ _ Hstep) by discriminate.
  now rewrite (chat_at_step_eq _ _ Hstep).
Qed.

End StepMachine.



(** ** Texts that contain a given piece *)

Lemma append_cons (c : ascii) (p s : string) :
  String c p +:+ s = String c (p +:+ s).
Proof. reflexivity. Qed.

Lemma startswith_app (p s : string) : PyStr.startswith p (p +:+ s) = true.
Proof.
  induction p as [|c p IH]; [reflexivity|].
  rewrite append_cons. simpl. now rewrite Ascii.eqb_refl, IH.
Qed.

Lemma contains_startswith (p s : string) :
  PyStr.startswith p s = true -> PyStr.contains p s = true.
Proof. destruct s; simpl; intros ->; reflexivity. Qed.

Lemma contains_here (p s : string) : PyStr.contains p (p +:+ s) = true.
Proof. apply contains_startswith, startswith_app. Qed.

Lemma append_empty_r (p : string) : p +:+ EmptyString = p.
Proof. induction p as [|c p IH]; [reflexivity | now rewrite append_cons, IH]. Qed.

Lemma contains_self (p : string) : PyStr.contains p p = true.
Proof.
  pose proof (contains_here p EmptyString) as H.
  now rewrite append_empty_r in H.
Qed.

Lemma contains_app_r (p s1 s2 : string) :
  PyStr.contains p s2 = true -> PyStr.contains p (s1 +:+ s2) = true.
Proof.
  intros H. induction s1 as [|c s1 IH]; [assumption|].
  rewrite append_cons. simpl. rewrite IH. apply orb_true_r.
Qed.

Lemma startswith_app_l (p s1 s2 : string) :
  PyStr.startswith p s1 = true -> PyStr.startswith p (s1 +:+ s2) = true.
Proof.
  revert s1. induction p as [|c p IH]; intros s1; [reflexivity|].
  destruct s1 as [|d s1]; [discriminate|].
  rewrite append_cons. simpl. intros [-> H]%andb_prop. now rewrite IH.
Qed.

Lemma contains_app_l (p s1 s2 : string) :
  PyStr.contains p s1 = true -> PyStr.contains p (s1 +:+ s2) = true.
Proof.
  induction s1 as [|c s1 IH].
  - simpl. rewrite orb_false_r. intros H. destruct p; [|discriminate].
    apply contains_startswith. reflexivity.
  - rewrite append_cons. simpl. intros [H|H]%orb_prop.
    + pose proof (startswith_app_l _ (String c s1) s2 H) as H'.
      rewrite append_cons in H'. now rewrite H'.
    + rewrite (IH H). apply orb_true_r.
Qed.

Lemma failed_msg_relays (e : string) : PyStr.contains e (Chat.failed_msg e) = true.
Proof. unfold Chat.failed_msg. apply contains_app_r, contains_self. Qed.

Lemma created_msg_meet_link (created : Chat.Created) (st : Chat.BookingState) (l : string) :
  Chat.hangoutLink created = Some l -> PyStr.nonempty l = true ->
  PyStr.contains l (Chat.created_msg created st) = true.
Proof.
  intros Hl Hne. unfold Chat.created_msg. rewrite Hl. cbn [PyStr.truthy PyStr.fmt].
  rewrite Hne. do 4 apply contains_app_r.
  apply contains_app_l, contains_app_r, contains_here.
Qed.

Lemma created_msg_calendar_link (created : Chat.Created) (st : Chat.BookingState) (l : string) :
  Chat.htmlLink created = Some l -> PyStr.nonempty l = true ->
  PyStr.contains l (Chat.created_msg created st) = true.
Proof.
  intros Hl Hne. unfold Chat.created_msg. rewrite Hl. cbn [PyStr.truthy PyStr.fmt].
  rewrite Hne. do 5 apply contains_app_r.
  apply contains_app_l, contains_app_r, contains_here.
Qed.

(** ** The commit *)

Lemma stream_error_reply speaker (user_text : string) (st : Chat.BookingState)
    (planned : string) :
  App.stream_error (Chat.llm_stream_reply speaker user_text st planned)
  = App.stream_error (speaker user_text st planned).
Proof. reflexivity. Qed.

Lemma stored_lookup (sessions : gmap string (App.Session Chat.BookingState))
    (sid : string) sess st :
  sessions !! sid = Some sess -> App.booking_state sess = Some st ->
  Chat.stored_state sessions sid = Some st.
Proof. intros Hs Hb. unfold Chat.stored_state. now rewrite (get_session_lookup _ _ _ Hs). Qed.

(** C1. At confirm_all the stored step becomes done only through a commit
    that was attempted and succeeded: whatever the planner, the speaker and
    the calendar do, a stored step done after the turn means that the
    calendar returned an event for the request of the stored state, and that
    the text of the created event was sent.  When the user confirms and the
    commit is attempted, a failing commit leaves the store as it was (the
    step stays confirm_all, so confirming again attempts the commit again)
    and sends a text that contains the failure reason; a succeeding commit
    stores the step done and sends a text that contains the links. *)
Theorem commit_before_done :
  forall cfg planner speaker calendar
         (sessions : gmap string (App.Session Chat.BookingState))
         (sid : string) sess tokens st messages,
    sessions !! sid = Some sess ->
    App.google_tokens sess = Some tokens ->
    App.booking_state sess = Some st ->
    Chat.step st = Some "confirm_all" ->
    let r := Chat.chat_stream cfg planner speaker calendar sessions sid messages in
    let user_text := Chat.last_user_text messages in
    let sent :=
      map App.ev_delta
        (App.deltas (Chat.llm_stream_reply speaker user_text st Chat.creating_msg)) in
    (forall st',
        Chat.stored_state (App.sessions_after r) sid = Some st' ->
        Chat.step st' = Some "done" ->
        exists dt created,
          Chat._parse_iso_datetime cfg (PyStr.or_else (Chat.start_iso st) EmptyString) = Some dt
          /\ calendar (Chat.event_request cfg tokens st dt) = Return created
          /\ st' = Chat.set_step st (Some "done")
          /\ App.events r
             = (sent ++ [App.ev_delta (Chat.created_msg created st'); App.ev_done])%list)
    /\ (forall plan dt,
        Chat.llm_extract_and_validate planner user_text st = Return (Chat.a_plan plan) ->
        Chat.resolve_confirm user_text (Chat.extracted plan) = Some "yes" ->
        App.stream_error (speaker user_text st Chat.creating_msg) = None ->
        PyStr.truthy (Chat.start_iso st) = true ->
        PyStr.truthy (Chat.email st) = true ->
        PyStr.truthy (Chat.phone st) = true ->
        Chat._parse_iso_datetime cfg (PyStr.or_else (Chat.start_iso st) EmptyString) = Some dt ->
        match calendar (Chat.event_request cfg tokens st dt) with
        | Raise e =>
            App.sessions_after r = sessions
            /\ Chat.stored_state (App.sessions_after r) sid = Some st
            /\ App.events r = (sent ++ [App.ev_delta (Chat.failed_msg e); App.ev_done])%list
            /\ PyStr.contains e (Chat.failed_msg e) = true
        | Return created =>
            let st' := Chat.set_step st (Some "done") in
            Chat.stored_state (App.sessions_after r) sid = Some st'
            /\ App.events r
               = (sent ++ [App.ev_delta (Chat.created_msg created st'); App.ev_done])%list
            /\ (forall l, Chat.hangoutLink created = Some l -> PyStr.nonempty l = true ->
                          PyStr.contains l (Chat.created_msg created st') = true)
            /\ (forall l, Chat.htmlLink created = Some l -> PyStr.nonempty l = true ->
                          PyStr.contains l (Chat.created_msg created st') = true)
        end).
Proof.
  intros cfg planner speaker calendar sessions sid sess tokens st messages
         Hs Ht Hb Hstep r user_text sent.
  subst r. rewrite (chat_stream_connected _ _ _ _ _ _ _ _ _ _ Hs Ht Hb). cbv zeta.
  fold user_text.
  pose proof (stored_lookup _ _ _ _ Hs Hb) as Hst.
  split.
  - intros st' Hst' Hdone.
    assert (Hkeep : forall s0 : Chat.BookingState,
               Chat.stored_state (Chat._save_state sessions sid s0) sid = Some st' ->
               Chat.step s0 = Some "done").
    { intros s0 H0. rewrite stored_save_state in H0. now injection H0 as ->. }
    destruct (Chat.llm_extract_and_validate planner user_text st) as [[plan|j]|e];
      [|cbn [App.sessions_after] in Hst'; congruence..].
    rewrite (step_machine_confirm_all _ _ _ _ _ _ Hstep) in Hst' |- *.
    destruct (Chat.is_str _ "no").
    { cbn [fst snd] in Hst'. rewrite sse_after_save in Hst'. cbv zeta in Hst'.
      destruct (App.stream_error _); cbn [App.sessions_after] in Hst';
        apply Hkeep in Hst'; discriminate Hst'. }
    destruct (Chat.is_str _ "yes") eqn:Hyes; cbn [fst snd] in Hst' |- *;
      rewrite sse_after_save in Hst' |- *; cbv zeta in Hst' |- *.
    + destruct (App.stream_error _).
      { cbn [App.sessions_after] in Hst'. apply Hkeep in Hst'. congruence. }
      destruct (_ && _).
      2:{ cbn [App.sessions_after] in Hst'. apply Hkeep in Hst'. congruence. }
      destruct (Chat._parse_iso_datetime _ _) as [dt|].
      2:{ cbn [App.sessions_after] in Hst'. apply Hkeep in Hst'. congruence. }
      destruct (calendar _) as [created|e] eqn:Hcal.
      2:{ cbn [App.sessions_after] in Hst'. apply Hkeep in Hst'. congruence. }
      cbn [App.sessions_after App.events] in Hst' |- *.
      rewrite stored_save_state in Hst'. injection Hst' as <-.
      exists dt, created. repeat split; assumption.
    + rewrite Hyes, andb_false_r in Hst'. cbn [andb] in Hst'.
      destruct (App.stream_error _); cbn [App.sessions_after] in Hst';
        apply Hkeep in Hst'; congruence.
  - intros plan dt Hplan Hyes Hstream Hstart Hemail Hphone Hparse.
    rewrite Hplan, (step_machine_confirm_all _ _ _ _ _ _ Hstep), Hyes.
    cbn [Chat.is_str String.eqb Ascii.eqb Bool.eqb fst snd].
    rewrite sse_after_save. cbv zeta.
    rewrite stream_error_reply, Hstream, (chat_at_step_eq _ _ Hstep).
    rewrite Hstart, Hemail, Hphone, Hparse.
    cbn [andb Chat.is_str String.eqb Ascii.eqb Bool.eqb].
    rewrite (save_state_same _ _ _ _ Hs Hb).
    destruct (calendar _) as [created|e]; cbn [App.sessions_after App.events].
    + rewrite stored_save_state. repeat split.
      * intros l. apply created_msg_meet_link.
      * intros l. apply created_msg_calendar_link.
    + repeat split; [assumption | apply failed_msg_relays].
Qed.

(** The theorem at a confirmed turn, with a calendar that fails and with one
    that succeeds. *)
Lemma commit_before_done_witness :
  App.sessions_after
    (Chat.chat_stream Chat.default_config (Props.planner_confirm None)
       Props.speaker_echo Props.calendar_down
       (Props.store_with (Props.full_state "confirm_all")) "s1" (Props.say "yes"))
  = Props.store_with (Props.full_state "confirm_all")
  /\ Chat.stored_state
       (App.sessions_after
          (Chat.chat_stream Chat.default_config (Props.planner_confirm None)
             Props.speaker_echo Props.calendar_ok
             (Props.store_with (Props.full_state "confirm_all")) "s1" (Props.say "yes")))
       "s1"
     = Some (Props.full_state "done").
Proof.
  split.
  - pose proof (commit_before_done Chat.default_config (Props.planner_confirm None)
                  Props.speaker_echo Props.calendar_down
                  (Props.store_with (Props.full_state "confirm_all")) "s1" _ _ _
                  (Props.say "yes") (lookup_singleton_eq _ _) eq_refl eq_refl eq_refl)
      as [_ H].
    exact (proj1 (H _ _ eq_refl eq_refl eq_refl eq_refl eq_refl eq_refl eq_refl)).
  - pose proof (commit_before_done Chat.default_config (Props.planner_confirm None)
                  Props.speaker_echo Props.calendar_ok
                  (Props.store_with (Props.full_state "confirm_all")) "s1" _ _ _
                  (Props.say "yes") (lookup_singleton_eq _ _) eq_refl eq_refl eq_refl)
      as [_ H].
    exact (proj1 (H _ _ eq_refl eq_refl eq_refl eq_refl eq_refl eq_refl eq_refl)).
Defined.

(** ** The confirmation of a turn *)

Lemma yes_no_disjoint (t : string) : In t Chat.yes_tokens -> In t Chat.no_tokens -> False.
Proof.
  unfold Chat.yes_tokens, Chat.no_tokens. simpl.
  intros Hy Hn.
  repeat (destruct Hy as [<-|Hy]; [repeat (destruct Hn as [Hn|Hn]; [discriminate Hn|]); exact Hn|]).
  exact Hy.
Qed.

Lemma resolve_confirm_yes (user_text : string) (ex : Chat.Extracted) :
  In (PyStr.lower (PyStr.strip user_text)) Chat.yes_tokens ->
  Chat.resolve_confirm user_text ex = Some "yes".
Proof.
  intros H%member_true_iff. unfold Chat.resolve_confirm, Chat._is_yes. now rewrite H.
Qed.

Lemma resolve_confirm_no (user_text : string) (ex : Chat.Extracted) :
  In (PyStr.lower (PyStr.strip user_text)) Chat.no_tokens ->
  Chat.resolve_confirm user_text ex = Some "no".
Proof.
  intros Hn. unfold Chat.resolve_confirm, Chat._is_yes, Chat._is_no.
  destruct (PyStr.member _ Chat.yes_tokens) eqn:Hy.
  - apply member_true_iff in Hy. destruct (yes_no_disjoint _ Hy Hn).
  - apply member_true_iff in Hn. now rewrite Hn.
Qed.

(** The state stored after a turn that started at confirm_contact and
    resolved to no. *)
Lemma rejected_contact_stored cfg planner speaker calendar
    (sessions : gmap string (App.Session Chat.BookingState)) (sid : string)
    sess tokens st messages plan :
  sessions !! sid = Some sess ->
  App.google_tokens sess = Some tokens ->
  App.booking_state sess = Some st ->
  Chat.step st = Some "confirm_contact" ->
  Chat.llm_extract_and_validate planner (Chat.last_user_text messages) st = Return (Chat.a_plan plan) ->
  Chat.resolve_confirm (Chat.last_user_text messages) (Chat.extracted plan) = Some "no" ->
  Chat.stored_state
    (App.sessions_after
       (Chat.chat_stream cfg planner speaker calendar sessions sid messages)) sid
  = Some Chat.initial_state.
Proof.
  intros Hs Ht Hb Hstep Hplan Hno.
  rewrite (chat_stream_connected _ _ _ _ _ _ _ _ _ _ Hs Ht Hb). cbv zeta.
  rewrite Hplan, (step_machine_confirm_contact _ _ _ _ _ _ Hstep), Hno.
  cbn [Chat.is_str String.eqb Ascii.eqb Bool.eqb fst snd].
  rewrite sse_after_save. cbv zeta.
  destruct (App.stream_error _); cbn [App.sessions_after]; apply stored_save_state.
Qed.

(** C2 (counterexample). The utterance no thanks contains the token no, yet
    with a planner that inferred yes the confirmation resolves to yes, and
    the turn at confirm_contact moves on to ask_time with the contact kept. *)
Lemma no_thanks_resolves_to_planner :
  Chat.resolve_confirm "no thanks" (Props.only_confirm (Some "yes")) = Some "yes"
  /\ Chat.stored_state
       (App.sessions_after
          (Chat.chat_stream Chat.default_config (Props.planner_confirm (Some "yes"))
             Props.speaker_echo Props.calendar_ok
             (Props.store_with (Props.contact_state "confirm_contact")) "s1"
             (Props.say "no thanks"))) "s1"
     = Some (Props.contact_state "ask_time").
Proof. split; vm_compute; reflexivity. Qed.

(** C2 (amended). When the utterance, trimmed and lowercased, is one of the
    tokens yes, y, yeah, yep, confirm, ok, okay, sure, the confirmation of
    the turn is yes, and when it is one of no, n, nope, cancel, restart, it
    is no, whatever the planner inferred; any other utterance leaves the
    confirmation to the planner.  Such a no at confirm_contact resets the
    state to the initial one (step ask_email_phone, no field), in the step
    machine and in the store after the turn. *)
Theorem explicit_token_wins :
  forall (user_text : string) (ex : Chat.Extracted),
    (In (PyStr.lower (PyStr.strip user_text)) Chat.yes_tokens ->
     Chat.resolve_confirm user_text ex = Some "yes")
    /\ (In (PyStr.lower (PyStr.strip user_text)) Chat.no_tokens ->
        Chat.resolve_confirm user_text ex = Some "no")
    /\ (~ In (PyStr.lower (PyStr.strip user_text)) Chat.yes_tokens ->
        ~ In (PyStr.lower (PyStr.strip user_text)) Chat.no_tokens ->
        Chat.resolve_confirm user_text ex = Chat.ex_confirm ex)
    /\ (forall cfg (st : Chat.BookingState) nt,
        In (PyStr.lower (PyStr.strip user_text)) Chat.no_tokens ->
        Chat.step st = Some "confirm_contact" ->
        Chat.step_machine cfg user_text st ex nt (Chat.resolve_confirm user_text ex)
        = (Chat.initial_state, Chat.restart_contact_msg))
    /\ (forall cfg planner speaker calendar
               (sessions : gmap string (App.Session Chat.BookingState)) (sid : string)
               sess tokens st messages nt,
        user_text = Chat.last_user_text messages ->
        In (PyStr.lower (PyStr.strip user_text)) Chat.no_tokens ->
        sessions !! sid = Some sess ->
        App.google_tokens sess = Some tokens ->
        App.booking_state sess = Some st ->
        Chat.step st = Some "confirm_contact" ->
        Chat.llm_extract_and_validate planner user_text st = Return (Chat.a_plan (Chat.mkPlan ex nt)) ->
        Chat.stored_state
          (App.sessions_after
             (Chat.chat_stream cfg planner speaker calendar sessions sid messages)) sid
        = Some Chat.initial_state).
Proof.
  intros user_text ex. split; [|split; [|split; [|split]]].
  - apply resolve_confirm_yes.
  - apply resolve_confirm_no.
  - intros Hy Hn. unfold Chat.resolve_confirm, Chat._is_yes, Chat._is_no.
    destruct (PyStr.member _ Chat.yes_tokens) eqn:Ey;
      [now apply member_true_iff in Ey|].
    destruct (PyStr.member _ Chat.no_tokens) eqn:En;
      [now apply member_true_iff in En | reflexivity].
  - intros cfg st nt Hno Hstep.
    rewrite (step_machine_confirm_contact _ _ _ _ _ _ Hstep), (resolve_confirm_no _ _ Hno).
    reflexivity.
  - intros cfg planner speaker calendar sessions sid sess tokens st messages nt
           -> Hno Hs Ht Hb Hstep Hplan.
    eapply rejected_contact_stored; eauto.
    now apply resolve_confirm_no.
Qed.

(** The theorem at the utterances No, between blanks, and OK. *)
Lemma explicit_token_wins_witness :
  Chat.resolve_confirm " No " (Props.only_confirm (Some "yes")) = Some "no"
  /\ Chat.resolve_confirm "OK" (Props.only_confirm (Some "no")) = Some "yes"
  /\ Chat.stored_state
       (App.sessions_after
          (Chat.chat_stream Chat.default_config (Props.planner_confirm (Some "yes"))
             Props.speaker_echo Props.calendar_ok
             (Props.store_with (Props.contact_state "confirm_contact")) "s1"
             (Props.say " No "))) "s1"
     = Some Chat.initial_state.
Proof.
  split; [|split].
  - destruct (explicit_token_wins " No " (Props.only_confirm (Some "yes")))
      as (_ & Hno & _).
    apply Hno. simpl. tauto.
  - destruct (explicit_token_wins "OK" (Props.only_confirm (Some "no")))
      as (Hyes & _).
    apply Hyes. simpl. tauto.
  - destruct (explicit_token_wins "No" (Props.only_confirm (Some "yes")))
      as (_ & _ & _ & _ & Hturn).
    eapply (Hturn Chat.default_config (Props.planner_confirm (Some "yes"))
              Props.speaker_echo Props.calendar_ok
              (Props.store_with (Props.contact_state "confirm_contact")) "s1" _
              Props.sample_tokens (Props.contact_state "confirm_contact")
              (Props.say " No ") Props.no_notes eq_refl).
    + simpl. tauto.
    + apply lookup_singleton_eq.
    + reflexivity.
    + reflexivity.
    + reflexivity.
    + reflexivity.
Defined.

(** ** What a turn does to the fields *)

Section Fields.

Variable cfg : Chat.Config.
Implicit Types (st : Chat.BookingState) (ex : Chat.Extracted) (nt : Chat.Notes).

Lemma machine_email user_text st ex nt (confirm : value) :
  Chat.email (Chat.step_machine cfg user_text st ex nt confirm).1 =
  if Chat.at_step st "ask_email_phone" then
    match Chat.accepted (Chat.email_ok ex) (Chat.ex_email ex) with
    | Some e => Some (PyStr.lower (PyStr.strip e))
    | None => Chat.email st
    end
  else if Chat.at_step st "confirm_contact" && Chat.is_str confirm "no" then None
  else Chat.email st.
Proof.
  unfold Chat.step_machine.
  destruct (Chat.at_step st "ask_email_phone").
  - destruct (Chat.accepted (Chat.email_ok ex) _), (Chat.accepted (Chat.phone_ok ex) _);
      cbn [Chat.email Chat.phone Chat.set_email Chat.set_phone Chat.set_step];
      split_branches; reflexivity.
  - destruct (Chat.at_step st "confirm_contact"); cbn [andb].
    + split_branches; reflexivity.
    + split_branches; reflexivity.
Qed.

Lemma machine_phone user_text st ex nt (confirm : value) :
  Chat.phone (Chat.step_machine cfg user_text st ex nt confirm).1 =
  if Chat.at_step st "ask_email_phone" then
    match Chat.accepted (Chat.phone_ok ex) (Chat.ex_phone ex) with
    | Some p => Some (PyStr.take 40 (PyStr.strip p))
    | None => Chat.phone st
    end
  else if Chat.at_step st "confirm_contact" && Chat.is_str confirm "no" then None
  else Chat.phone st.
Proof.
  unfold Chat.step_machine.
  destruct (Chat.at_step st "ask_email_phone").
  - destruct (Chat.accepted (Chat.email_ok ex) _), (Chat.accepted (Chat.phone_ok ex) _);
      cbn [Chat.email Chat.phone Chat.set_email Chat.set_phone Chat.set_step];
      split_branches; reflexivity.
  - destruct (Chat.at_step st "confirm_contact"); cbn [andb].
    + split_branches; reflexivity.
    + split_branches; reflexivity.
Qed.

End Fields.

Lemma accepted_Some (ok : bool) (v : value) (s : string) :
  Chat.accepted ok v = Some s <-> ok = true /\ v = Some s /\ s <> EmptyString.
Proof.
  unfold Chat.accepted. destruct v as [x|]; [|now split; [|intros (_ & ? & _)]].
  destruct ok, x; cbn [andb PyStr.nonempty]; split;
    try discriminate; try (intros (? & ? & ?); congruence).
  intros [= <-]. repeat split. discriminate.
Qed.

Lemma accepted_None (ok : bool) (v : value) :
  Chat.accepted ok v = None <-> ok = false \/ v = None \/ v = Some EmptyString.
Proof.
  unfold Chat.accepted. destruct v as [x|]; [|now split; auto].
  destruct ok, x; cbn [andb PyStr.nonempty]; split; auto; try discriminate.
  intros [H|[H|H]]; discriminate H.
Qed.

(** ** The state stored after any turn *)

Section AnyTurn.

Variable cfg : Chat.Config.
Variable planner : string -> Chat.BookingState -> Chat.PlannerResponse.
Variable speaker : string -> Chat.BookingState -> string -> App.Stream.
Variable calendar : Chat.EventRequest -> result Chat.Created.

Implicit Types (sessions : gmap string (App.Session Chat.BookingState)) (sid : string).

(** After a turn the session holds the state it had, or the state the step
    machine made of it, or that state moved to done. *)
Lemma chat_stream_stored sessions sid messages :
  let st0 := (Chat._load_state sessions sid).2 in
  let user_text := Chat.last_user_text messages in
  exists stf,
    Chat.stored_state
      (App.sessions_after
         (Chat.chat_stream cfg planner speaker calendar sessions sid messages)) sid
    = Some stf
    /\ (stf = st0
        \/ exists plan,
            Chat.llm_extract_and_validate planner user_text st0 = Return (Chat.a_plan plan)
            /\ let st1 := (Chat.step_machine cfg user_text st0 (Chat.extracted plan)
                             (Chat.notes plan)
                             (Chat.resolve_confirm user_text (Chat.extracted plan))).1 in
               stf = st1 \/ stf = Chat.set_step st1 (Some "done")).
Proof.
  cbv zeta. unfold Chat.chat_stream.
  pose proof (stored_load_state sessions sid) as Hst0.
  destruct (Chat._load_state sessions sid) as [s0 st0]. cbn [fst snd] in *.
  destruct (App._get_tokens s0 sid) as [tokens|].
  2:{ exists st0. split; [exact Hst0 | now left]. }
  destruct (Chat.llm_extract_and_validate _ _ _) as [[plan|j]|e] eqn:Hplan;
    [|exists st0; split; [exact Hst0 | now left]..].
  destruct (Chat.step_machine _ _ _ _ _ _) as [st1 planned] eqn:Hm.
  rewrite sse_after_save. cbv zeta.
  assert (Hsaved : Chat.stored_state (Chat._save_state s0 sid st1) sid = Some st1)
    by apply stored_save_state.
  destruct (App.stream_error _).
  { exists st1. split; [exact Hsaved|]. right. exists plan. split; [reflexivity | left; now rewrite Hm]. }
  destruct (_ && _).
  2:{ exists st1. split; [exact Hsaved|]. right. exists plan. split; [reflexivity | left; now rewrite Hm]. }
  destruct (Chat._parse_iso_datetime _ _).
  2:{ exists st1. split; [exact Hsaved|]. right. exists plan. split; [reflexivity | left; now rewrite Hm]. }
  destruct (calendar _).
  2:{ exists st1. split; [exact Hsaved|]. right. exists plan. split; [reflexivity | left; now rewrite Hm]. }
  exists (Chat.set_step st1 (Some "done")). split; [apply stored_save_state|].
  right. exists plan. split; [reflexivity | right; now rewrite Hm].
Qed.

Lemma lookup_load_other sessions sid sid' :
  sid <> sid' -> (Chat._load_state sessions sid).1 !! sid' = sessions !! sid'.
Proof.
  intros Hne. unfold Chat._load_state.
  destruct (App.booking_state _); cbn [fst];
    rewrite lookup_insert_ne by assumption; reflexivity.
Qed.

Lemma lookup_save_other sessions sid sid' st :
  sid <> sid' -> Chat._save_state sessions sid st !! sid' = sessions !! sid'.
Proof.
  intros Hne. unfold Chat._save_state. rewrite lookup_insert_ne by assumption. reflexivity.
Qed.

(** A turn touches the session of its own identifier only. *)
Lemma chat_stream_other sessions sid sid' messages :
  sid <> sid' ->
  App.sessions_after
    (Chat.chat_stream cfg planner speaker calendar sessions sid messages) !! sid'
  = sessions !! sid'.
Proof.
  intros Hne. unfold Chat.chat_stream.
  pose proof (lookup_load_other sessions sid sid' Hne) as Hl.
  destruct (Chat._load_state sessions sid) as [s0 st0]. cbn [fst] in Hl.
  destruct (App._get_tokens s0 sid) as [tokens|]; [|exact Hl].
  destruct (Chat.llm_extract_and_validate _ _ _) as [[plan|j]|e]; [|exact Hl..].
  destruct (Chat.step_machine _ _ _ _ _ _) as [st1 planned].
  rewrite sse_after_save. cbv zeta.
  repeat match goal with
         | |- context [match ?x with _ => _ end] => destruct x
         end;
    cbn [App.sessions_after]; rewrite ?lookup_save_other by assumption; exact Hl.
Qed.

End AnyTurn.

(** C3 (counterexample). The stored state has its email set and the step is
    confirm_contact.  In a turn whose extraction has email_ok false and
    whose utterance is no, the stored email is cleared; and in a turn whose
    extraction carries a new email marked valid and whose utterance is yes,
    the new email is not written. *)
Lemma rejection_clears_email :
  Chat.email (Props.contact_state "confirm_contact") = Some "john.doe@example.com"
  /\ Chat.email_ok (Props.only_confirm None) = false
  /\ Chat.email <$>
       Chat.stored_state
         (App.sessions_after
            (Chat.chat_stream Chat.default_config (Props.planner_confirm None)
               Props.speaker_echo Props.calendar_ok
               (Props.store_with (Props.contact_state "confirm_contact")) "s1"
               (Props.say "no"))) "s1"
     = Some None
  /\ Chat.email <$>
       Chat.stored_state
         (App.sessions_after
            (Chat.chat_stream Chat.default_config
               (Props.planner_of
                  (Props.contact_marked_valid "other@example.org" "+4930123456"))
               Props.speaker_echo Props.calendar_ok
               (Props.store_with (Props.contact_state "confirm_contact")) "s1"
               (Props.say "yes"))) "s1"
     = Some (Some "john.doe@example.com").
Proof. repeat split; vm_compute; reflexivity. Qed.

(** C3 (amended). At ask_email_phone the step machine writes the email
    (trimmed, lowercased) and the phone (trimmed, cut to 40 characters) if
    and only if the extraction marks the field valid and carries a
    non-empty value; otherwise the field keeps the value it had.  At the
    other steps no extraction changes the two fields: they keep their
    values, except that a rejection at confirm_contact resets the state.
    For a whole turn: when the step is not confirm_contact and the
    extraction, if any, has email_ok false, the stored email is unchanged. *)
Theorem contact_fields_frame :
  forall cfg user_text (st : Chat.BookingState) ex nt (confirm : value),
    let st' := (Chat.step_machine cfg user_text st ex nt confirm).1 in
    (Chat.step st = Some "ask_email_phone" ->
     (forall e, Chat.email_ok ex = true -> Chat.ex_email ex = Some e -> e <> EmptyString ->
                Chat.email st' = Some (PyStr.lower (PyStr.strip e)))
     /\ (Chat.email_ok ex = false \/ Chat.ex_email ex = None
         \/ Chat.ex_email ex = Some EmptyString ->
         Chat.email st' = Chat.email st)
     /\ (forall p, Chat.phone_ok ex = true -> Chat.ex_phone ex = Some p -> p <> EmptyString ->
                   Chat.phone st' = Some (PyStr.take 40 (PyStr.strip p)))
     /\ (Chat.phone_ok ex = false \/ Chat.ex_phone ex = None
         \/ Chat.ex_phone ex = Some EmptyString ->
         Chat.phone st' = Chat.phone st))
    /\ (Chat.at_step st "ask_email_phone" = false ->
        Chat.at_step st "confirm_contact" && Chat.is_str confirm "no" = false ->
        Chat.email st' = Chat.email st /\ Chat.phone st' = Chat.phone st)
    /\ (forall planner speaker calendar
               (sessions : gmap string (App.Session Chat.BookingState)) (sid : string)
               sess messages,
        sessions !! sid = Some sess ->
        App.booking_state sess = Some st ->
        Chat.at_step st "confirm_contact" = false ->
        (forall plan,
            Chat.llm_extract_and_validate planner (Chat.last_user_text messages) st
            = Return (Chat.a_plan plan) ->
            Chat.email_ok (Chat.extracted plan) = false) ->
        exists stf,
          Chat.stored_state
            (App.sessions_after
               (Chat.chat_stream cfg planner speaker calendar sessions sid messages)) sid
          = Some stf
          /\ Chat.email stf = Chat.email st).
Proof.
  intros cfg user_text st ex nt confirm st'. subst st'. split; [|split].
  - intros Hstep. rewrite machine_email, machine_phone, (chat_at_step_eq _ _ Hstep).
    repeat split.
    + intros e Hok He Hne.
      now rewrite (proj2 (accepted_Some _ _ e) (conj Hok (conj He Hne))).
    + intros H. now rewrite (proj2 (accepted_None _ _) H).
    + intros p Hok Hp Hne.
      now rewrite (proj2 (accepted_Some _ _ p) (conj Hok (conj Hp Hne))).
    + intros H. now rewrite (proj2 (accepted_None _ _) H).
  - intros Hne Hrej. rewrite machine_email, machine_phone, Hne, Hrej. now split.
  - intros planner speaker calendar sessions sid sess messages Hs Hb Hcc Hok.
    destruct (chat_stream_stored cfg planner speaker calendar sessions sid messages)
      as (stf & Hstf & Hcases).
    rewrite (load_state_stored _ _ _ _ Hs Hb) in Hcases. cbn [snd] in Hcases.
    exists stf. split; [exact Hstf|].
    destruct Hcases as [->|(plan & Hplan & Hst1)]; [reflexivity|].
    assert (Hmail : Chat.email
                      (Chat.step_machine cfg (Chat.last_user_text messages) st
                         (Chat.extracted plan) (Chat.notes plan)
                         (Chat.resolve_confirm (Chat.last_user_text messages)
                            (Chat.extracted plan))).1 = Chat.email st).
    { rewrite machine_email, Hcc, (Hok plan Hplan). cbn [andb].
      rewrite (proj2 (accepted_None false _)) by now left.
      now destruct (Chat.at_step st "ask_email_phone"). }
    cbv zeta in Hst1. destruct Hst1 as [->| ->]; exact Hmail.
Qed.

(** The theorem at an extraction with a valid contact, and at one without. *)
Lemma contact_fields_frame_witness :
  Chat.email
    (Chat.step_machine Chat.default_config "it is John.Doe@Example.COM, +1 415 555 2671"
       Chat.initial_state
       (Props.contact_marked_valid " John.Doe@Example.COM " "+1 415 555 2671")
       Props.no_notes None).1
  = Some "john.doe@example.com"
  /\ Chat.email
       (Chat.step_machine Chat.default_config "my phone is 555"
          (Props.contact_state "ask_email_phone") (Props.only_confirm None)
          Props.no_notes None).1
     = Some "john.doe@example.com"
  /\ exists stf,
       Chat.stored_state
         (App.sessions_after
            (Chat.chat_stream Chat.default_config (Props.planner_confirm None)
               Props.speaker_echo Props.calendar_ok
               (Props.store_with (Props.contact_state "ask_email_phone")) "s1"
               (Props.say "my phone is 555"))) "s1"
       = Some stf
       /\ Chat.email stf = Some "john.doe@example.com".
Proof.
  split; [|split].
  - destruct (contact_fields_frame Chat.default_config
                "it is John.Doe@Example.COM, +1 415 555 2671" Chat.initial_state
                (Props.contact_marked_valid " John.Doe@Example.COM " "+1 415 555 2671")
                Props.no_notes None) as (H & _ & _).
    destruct (H eq_refl) as (Hwrite & _).
    apply (Hwrite " John.Doe@Example.COM " eq_refl eq_refl). discriminate.
  - destruct (contact_fields_frame Chat.default_config "my phone is 555"
                (Props.contact_state "ask_email_phone") (Props.only_confirm None)
                Props.no_notes None) as (H & _ & _).
    destruct (H eq_refl) as (_ & Hkeep & _).
    apply Hkeep. now left.
  - destruct (contact_fields_frame Chat.default_config "my phone is 555"
                (Props.contact_state "ask_email_phone") (Props.only_confirm None)
                Props.no_notes None) as (_ & _ & H).
    apply (H (Props.planner_confirm None) Props.speaker_echo Props.calendar_ok
             (Props.store_with (Props.contact_state "ask_email_phone")) "s1" _
             (Props.say "my phone is 555") (lookup_singleton_eq _ _) eq_refl eq_refl).
    intros plan [= <-]. reflexivity.
Defined.

(** ** Validated values *)

Lemma machine_start_parses cfg user_text (st : Chat.BookingState) ex nt (confirm : value) :
  Props.start_parses cfg st ->
  Props.start_parses cfg (Chat.step_machine cfg user_text st ex nt confirm).1.
Proof.
  intros Hst. unfold Chat.step_machine.
  destruct (Chat.at_step st "ask_email_phone").
  { destruct (Chat.accepted (Chat.email_ok ex) _), (Chat.accepted (Chat.phone_ok ex) _);
      split_branches; exact Hst. }
  destruct (Chat.at_step st "confirm_contact").
  { split_branches; cbn [fst]; [exact I | exact Hst | exact Hst]. }
  destruct (Chat.at_step st "ask_time").
  { destruct (Chat.accepted _ _) as [s|]; [|exact Hst].
    destruct (Chat._parse_iso_datetime cfg s) as [dt|] eqn:Hparse; [|exact Hst].
    cbn [fst]. unfold Props.start_parses. cbn [Chat.start_iso Chat.set_step Chat.set_start_iso].
    rewrite Hparse. now exists dt. }
  destruct (Chat.at_step st "ask_title").
  { split_branches; exact Hst. }
  destruct (Chat.at_step st "confirm_all").
  { split_branches; cbn [fst]; [exact I | exact Hst | exact Hst]. }
  split_branches; exact Hst.
Qed.

Lemma loaded_state_cases (sessions : gmap string (App.Session Chat.BookingState))
    (sid : string) :
  (Chat._load_state sessions sid).2 = Chat.initial_state
  \/ Chat.stored_state sessions sid = Some (Chat._load_state sessions sid).2.
Proof.
  unfold Chat._load_state, Chat.stored_state.
  destruct (App.booking_state _); cbn [snd]; [now right | now left].
Qed.

Section VoiceFrame.

Context {BS : Type}.
Implicit Types (sessions : gmap string (App.Session BS)) (sid : string).

Lemma booking_state_set_history sessions sid sid' (h : list App.Message) :
  App.booking_state (App.get_session (Voice.set_history sessions sid h) sid')
  = App.booking_state (App.get_session sessions sid').
Proof.
  unfold Voice.set_history, App.get_session.
  destruct (decide (sid = sid')) as [->|Hne].
  - now rewrite lookup_insert_eq.
  - now rewrite lookup_insert_ne.
Qed.

Lemma booking_state_get_history sessions sid sid' :
  App.booking_state (App.get_session (Voice._get_history sessions sid).1 sid')
  = App.booking_state (App.get_session sessions sid').
Proof.
  unfold Voice._get_history, App.get_session. cbn [fst].
  destruct (decide (sid = sid')) as [->|Hne].
  - now rewrite lookup_insert_eq.
  - now rewrite lookup_insert_ne.
Qed.

(** A voice turn leaves every booking state alone. *)
Lemma voice_keeps_booking_state assistant booking sessions sid sid' (payload : Voice.Payload) :
  App.booking_state
    (App.get_session
       (App.sessions_after (Voice.voice_chat_stream assistant booking sessions sid payload))
       sid')
  = App.booking_state (App.get_session sessions sid').
Proof.
  unfold Voice.voice_chat_stream. cbv zeta.
  destruct (negb _); [reflexivity|].
  pose proof (booking_state_get_history sessions sid sid') as Hg.
  destruct (Voice._get_history sessions sid) as [s0 h0]. cbn [fst] in Hg.
  destruct (App._get_tokens _ sid) as [tokens|].
  - unfold Voice.sse.
    repeat match goal with
           | |- context [match ?x with _ => _ end] => destruct x
           | |- context [if ?b then _ else _] => destruct b
           end;
      cbn [App.sessions_after]; rewrite ?booking_state_set_history; exact Hg.
  - cbn [App.sessions_after]. now rewrite booking_state_set_history.
Qed.

End VoiceFrame.

Lemma reachable_start_parses cfg (sessions : gmap string (App.Session Chat.BookingState)) :
  Props.reachable cfg sessions ->
  forall sid st, Chat.stored_state sessions sid = Some st -> Props.start_parses cfg st.
Proof.
  induction 1 as [|sessions sid tokens _ IH
                  |planner speaker calendar sessions sid messages _ IH
                  |assistant booking sessions sid payload _ IH];
    intros sid' st Hst.
  - discriminate Hst.
  - apply (IH sid'). revert Hst. unfold Chat.stored_state, App.auth_callback, App.get_session.
    destruct (decide (sid = sid')) as [->|Hne].
    + now rewrite lookup_insert_eq.
    + now rewrite lookup_insert_ne.
  - destruct (decide (sid = sid')) as [<-|Hne].
    + destruct (chat_stream_stored cfg planner speaker calendar sessions sid messages)
        as (stf & Hstf & Hcases).
      rewrite Hstf in Hst. injection Hst as ->.
      assert (H0 : Props.start_parses cfg (Chat._load_state sessions sid).2).
      { destruct (loaded_state_cases sessions sid) as [-> | Hl]; [exact I | now apply (IH sid)]. }
      destruct Hcases as [->|(plan & _ & [->| ->])]; [exact H0 | |];
        apply (machine_start_parses cfg) with (1 := H0).
    + apply (IH sid'). revert Hst. unfold Chat.stored_state, App.get_session.
      now rewrite chat_stream_other.
  - apply (IH sid'). revert Hst. unfold Chat.stored_state.
    now rewrite voice_keeps_booking_state.
Qed.

Lemma stored_email_valid (u : string) :
  AgentState.is_valid_email u = true ->
  AgentState.is_valid_email (PyStr.lower (PyStr.strip u)) = true.
Proof.
  unfold AgentState.is_valid_email.
  now rewrite strip_lower, strip_idem, lower_idem.
Qed.

Lemma stored_phone_valid (u : string) :
  AgentState.is_valid_phone u = true ->
  AgentState.is_valid_phone (AgentState.normalize_phone u) = true.
Proof. unfold AgentState.is_valid_phone. now rewrite normalize_phone_idem. Qed.

Lemma handle_keeps_contact_valid (st : AgentState.BookingState) (u : string) :
  Props.contact_valid st ->
  Props.contact_valid (AgentState.state (AgentState.handle_user_message st u)).
Proof.
  intros [He Hp]. unfold AgentState.handle_user_message.
  destruct (AgentState.at_step st "ask_email").
  { destruct (AgentState.is_valid_email (PyStr.strip u)) eqn:Hv; cbn [negb AgentState.state].
    - split; [|exact Hp]. cbn. now apply stored_email_valid.
    - now split. }
  destruct (AgentState.at_step st "ask_phone").
  { destruct (AgentState.is_valid_phone (PyStr.strip u)) eqn:Hv; cbn [negb AgentState.state].
    - split; [exact He|]. cbn. now apply stored_phone_valid.
    - now split. }
  destruct (AgentState.at_step st "confirm").
  { destruct (AgentState.parse_yes_no _) as [[]|]; cbn [AgentState.state]; now split. }
  destruct (AgentState.at_step st "done"); now split.
Qed.

(** C4 (counterexample). The planner marks the email not an email and the
    phone call me as valid; neither passes the validators of the
    repository, and the turn at ask_email_phone stores both and moves on to
    confirm_contact. *)
Lemma planner_contact_not_revalidated :
  AgentState.is_valid_email "not an email" = false
  /\ AgentState.is_valid_phone "call me" = false
  /\ Chat.stored_state
       (App.sessions_after
          (Chat.chat_stream Chat.default_config
             (Props.planner_of (Props.contact_marked_valid "not an email" "call me"))
             Props.speaker_echo Props.calendar_ok
             (Props.store_with Chat.initial_state) "s1"
             (Props.say "not an email, call me"))) "s1"
     = Some (Chat.mkBookingState (Some "confirm_contact") (Some "not an email")
               (Some "call me") None None).
Proof. repeat split; vm_compute; reflexivity. Qed.

(** C4 (amended). In the chat engine a start time held in the state has been
    parsed by the engine's own [_parse_iso_datetime], whatever the flags of
    the planner: the step machine keeps this property, and it holds of every
    state in every store that the endpoints produce from the empty store.
    (Email and phone are written there on the flags of the planner alone.)
    In the step-field engine an email or a phone held in the state has
    passed [is_valid_email], respectively [is_valid_phone]: the default
    state has the property and [handle_user_message] keeps it. *)
Theorem state_values_validated :
  (forall cfg user_text (st : Chat.BookingState) ex nt (confirm : value),
      Props.start_parses cfg st ->
      Props.start_parses cfg (Chat.step_machine cfg user_text st ex nt confirm).1)
  /\ (forall cfg (sessions : gmap string (App.Session Chat.BookingState)),
      Props.reachable cfg sessions ->
      forall sid st, Chat.stored_state sessions sid = Some st -> Props.start_parses cfg st)
  /\ Props.contact_valid AgentState.default_state
  /\ (forall (st : AgentState.BookingState) (u : string),
      Props.contact_valid st ->
      Props.contact_valid (AgentState.state (AgentState.handle_user_message st u))).
Proof.
  split; [|split; [|split]].
  - apply machine_start_parses.
  - apply reachable_start_parses.
  - now split.
  - apply handle_keeps_contact_valid.
Qed.

(** The theorem at a turn of each engine and at a store reached in three
    turns. *)
Lemma state_values_validated_witness :
  Props.start_parses Chat.default_config
    (Chat.step_machine Chat.default_config "tomorrow at two"
       (Props.contact_state "ask_time")
       (Props.start_marked_valid "2026-02-16T14:00:00-08:00") Props.no_notes None).1
  /\ Props.start_parses Chat.default_config
       (Chat.mkBookingState (Some "ask_title") (Some "john.doe@example.com")
          (Some "+14155552671") (Some "2026-02-16T14:00:00-08:00") None)
  /\ Props.contact_valid
       (AgentState.state
          (AgentState.handle_user_message AgentState.default_state " John.Doe@Example.COM ")).
Proof.
  split; [|split].
  - apply (proj1 state_values_validated). exact I.
  - apply (proj1 (proj2 state_values_validated) Chat.default_config Props.run_timed)
      with (sid := "s1").
    + apply Props.reach_chat, Props.reach_chat, Props.reach_chat,
        Props.reach_oauth, Props.reach_empty.
    + vm_compute. reflexivity.
  - apply (proj2 (proj2 (proj2 state_values_validated))). now split.
Defined.

(** ** The extraction adapter *)






(** ** The start time *)

(** A turn whose step machine does not end at confirm_all stores the state
    that the step machine returns. *)
Lemma chat_stream_plain_turn cfg planner speaker calendar
    (sessions : gmap string (App.Session Chat.BookingState)) (sid : string)
    sess tokens st messages plan :
  sessions !! sid = Some sess ->
  App.google_tokens sess = Some tokens ->
  App.booking_state sess = Some st ->
  Chat.llm_extract_and_validate planner (Chat.last_user_text messages) st = Return (Chat.a_plan plan) ->
  let r := Chat.step_machine cfg (Chat.last_user_text messages) st (Chat.extracted plan)
             (Chat.notes plan)
             (Chat.resolve_confirm (Chat.last_user_text messages) (Chat.extracted plan)) in
  Chat.at_step r.1 "confirm_all" = false ->
  Chat.stored_state
    (App.sessions_after
       (Chat.chat_stream cfg planner speaker calendar sessions sid messages)) sid
  = Some r.1.
Proof.
  intros Hs Ht Hb Hplan r Hstep. subst r.
  rewrite (chat_stream_connected _ _ _ _ _ _ _ _ _ _ Hs Ht Hb). cbv zeta.
  rewrite Hplan, sse_after_save. cbv zeta. rewrite Hstep. cbn [andb].
  destruct (App.stream_error _); cbn [App.sessions_after]; apply stored_save_state.
Qed.

(** C6 (counterexample). The bare local date-time 2026-02-16T14:00:00 has
    no offset and no trailing Z; it parses, as a naive datetime, and the
    turn at ask_time stores it and moves on to ask_title. *)
Lemma bare_local_time_accepted :
  Datetime.tzinfo <$> Chat._parse_iso_datetime Chat.default_config "2026-02-16T14:00:00" = Some None
  /\ Chat.stored_state
       (App.sessions_after
          (Chat.chat_stream Chat.default_config
             (Props.planner_of (Props.start_marked_valid "2026-02-16T14:00:00"))
             Props.speaker_echo Props.calendar_ok
             (Props.store_with (Props.contact_state "ask_time")) "s1"
             (Props.say "Feb 16 2pm"))) "s1"
     = Some (Chat.mkBookingState (Some "ask_title") (Some "john.doe@example.com")
               (Some "+14155552671") (Some "2026-02-16T14:00:00") None).
Proof. split; vm_compute; reflexivity. Qed.

Lemma step_machine_ask_time cfg user_text (st : Chat.BookingState) ex nt (confirm : value) :
  Chat.step st = Some "ask_time" ->
  Chat.step_machine cfg user_text st ex nt confirm =
  match Chat.accepted (Chat.start_ok ex) (Chat.ex_start_iso ex) with
  | Some s =>
      match Chat._parse_iso_datetime cfg s with
      | None =>
          (st, "Sorry — I couldn’t parse that time. Please try again (e.g., 'Feb 16 2pm').")
      | Some _ =>
          (Chat.set_step (Chat.set_start_iso st (Some s)) (Some "ask_title"),
           "Optional: what’s the meeting title? You can say 'skip'.")
      end
  | None =>
      (st, "Sorry, I couldn’t understand the date/time." +:+ NL +:+
           "Try: 'Feb 16 2pm' or 'next Monday 3pm'." +:+ NL +:+
           "(Details: " +:+ PyStr.or_else (Chat.time_reason nt) "missing/ambiguous" +:+ ")")
  end.
Proof.
  intros Hstep. unfold Chat.step_machine.
  rewrite !(chat_at_step_ne _ _ _ Hstep) by discriminate.
  now rewrite (chat_at_step_eq _ _ Hstep).
Qed.

(** C6 (amended). At ask_time the step machine stores the extracted start
    time and moves to ask_title exactly when the planner marked it valid,
    it is not empty and [_parse_iso_datetime] parses it, that is, when
    [fromisoformat] of the running interpreter reads it (after the
    replacement of a final Z); the parsed value is not inspected, so no
    offset is required.  In every other case the state, start time and step
    included, is unchanged and the planned reply is guidance: the request to
    try again when the text did not parse, and the request with examples and
    the planner's reason when nothing valid was extracted.  The whole turn
    stores the state of the step machine and streams the speaker's reply to
    the planned text. *)
Theorem start_time_accepted_iff_parsed :
  forall cfg user_text (st : Chat.BookingState) ex nt (confirm : value),
    Chat.step st = Some "ask_time" ->
    let r := Chat.step_machine cfg user_text st ex nt confirm in
    (forall s dt,
        Chat.start_ok ex = true -> Chat.ex_start_iso ex = Some s -> s <> EmptyString ->
        Chat._parse_iso_datetime cfg s = Some dt ->
        r = (Chat.set_step (Chat.set_start_iso st (Some s)) (Some "ask_title"),
             "Optional: what’s the meeting title? You can say 'skip'."))
    /\ (forall s,
        Chat.start_ok ex = true -> Chat.ex_start_iso ex = Some s -> s <> EmptyString ->
        Chat._parse_iso_datetime cfg s = None ->
        r = (st, "Sorry — I couldn’t parse that time. Please try again (e.g., 'Feb 16 2pm')."))
    /\ (Chat.start_ok ex = false \/ Chat.ex_start_iso ex = None
        \/ Chat.ex_start_iso ex = Some EmptyString ->
        r = (st, "Sorry, I couldn’t understand the date/time." +:+ NL +:+
                 "Try: 'Feb 16 2pm' or 'next Monday 3pm'." +:+ NL +:+
                 "(Details: " +:+ PyStr.or_else (Chat.time_reason nt) "missing/ambiguous"
                 +:+ ")"))
    /\ (Chat.start_ok ex = false \/ Chat.ex_start_iso ex = None
        \/ Chat.ex_start_iso ex = Some EmptyString
        \/ (exists s, Chat.ex_start_iso ex = Some s /\ Chat._parse_iso_datetime cfg s = None) ->
        r.1 = st)
    /\ (Chat.step r.1 = Some "ask_title"
        <-> exists s dt,
            Chat.start_ok ex = true /\ Chat.ex_start_iso ex = Some s /\ s <> EmptyString
            /\ Chat._parse_iso_datetime cfg s = Some dt)
    /\ (Chat.step r.1 = Some "ask_title" \/ r.1 = st)
    /\ (forall planner speaker calendar
               (sessions : gmap string (App.Session Chat.BookingState)) (sid : string)
               sess tokens messages,
        sessions !! sid = Some sess ->
        App.google_tokens sess = Some tokens ->
        App.booking_state sess = Some st ->
        user_text = Chat.last_user_text messages ->
        confirm = Chat.resolve_confirm user_text ex ->
        Chat.llm_extract_and_validate planner user_text st
        = Return (Chat.a_plan (Chat.mkPlan ex nt)) ->
        let resp := Chat.chat_stream cfg planner speaker calendar sessions sid messages in
        let reply := Chat.llm_stream_reply speaker user_text r.1 r.2 in
        Chat.stored_state (App.sessions_after resp) sid = Some r.1
        /\ App.error resp = App.stream_error reply
        /\ App.events resp
           = (map App.ev_delta (App.deltas reply)
                ++ match App.stream_error reply with
                   | None => [App.ev_done]
                   | Some _ => []
                   end)%list).
Proof.
  intros cfg user_text st ex nt confirm Hstep r.
  assert (Hr : r = _) by exact (step_machine_ask_time cfg user_text st ex nt confirm Hstep).
  assert (Hturn : Chat.step r.1 = Some "ask_title" \/ r.1 = st).
  { rewrite Hr. destruct (Chat.accepted _ _) as [s|]; [|now right].
    destruct (Chat._parse_iso_datetime cfg s); [now left | now right]. }
  split; [|split; [|split; [|split; [|split; [|split; [exact Hturn|]]]]]].
  - intros s dt Hok Hs Hne Hparse.
    now rewrite Hr, (proj2 (accepted_Some _ _ s) (conj Hok (conj Hs Hne))), Hparse.
  - intros s Hok Hs Hne Hparse.
    now rewrite Hr, (proj2 (accepted_Some _ _ s) (conj Hok (conj Hs Hne))), Hparse.
  - intros H. now rewrite Hr, (proj2 (accepted_None _ _) H).
  - intros H. rewrite Hr. destruct (Chat.accepted _ _) as [s|] eqn:Hacc; [|reflexivity].
    apply accepted_Some in Hacc as (Hok & Hs & Hne).
    destruct H as [H|[H|[H|(s' & Hs' & Hparse)]]]; try congruence.
    assert (s' = s) as -> by congruence. now rewrite Hparse.
  - rewrite Hr. destruct (Chat.accepted _ _) as [s|] eqn:Hacc.
    + apply accepted_Some in Hacc as (Hok & Hs & Hne).
      destruct (Chat._parse_iso_datetime cfg s) as [dt|] eqn:Hparse; cbn [fst]; split.
      * intros _. now exists s, dt.
      * reflexivity.
      * rewrite Hstep. discriminate.
      * intros (s' & dt & _ & Hs' & _ & Hp). congruence.
    + cbn [fst]. split; [rewrite Hstep; discriminate|].
      intros (s & dt & Hok & Hs & Hne & _).
      rewrite (proj2 (accepted_Some _ _ s) (conj Hok (conj Hs Hne))) in Hacc.
      discriminate.
  - intros planner speaker calendar sessions sid sess tokens messages
           Hs Ht Hb -> -> Hplan resp reply.
    assert (Hnot : Chat.at_step r.1 "confirm_all" = false).
    { destruct Hturn as [H|H].
      - now apply (chat_at_step_ne _ _ _ H).
      - rewrite H. now apply (chat_at_step_ne _ _ _ Hstep). }
    subst resp. rewrite (chat_stream_connected _ _ _ _ _ _ _ _ _ _ Hs Ht Hb). cbv zeta.
    rewrite Hplan. cbn [Chat.extracted Chat.notes]. fold r.
    rewrite sse_after_save. cbv zeta. fold reply. rewrite Hnot. cbn [andb].
    destruct (App.stream_error reply); cbn [App.sessions_after App.error App.events];
      rewrite stored_save_state, ?app_nil_r; repeat split.
Qed.

(** The theorem at a time that parses and at one that does not. *)
Lemma start_time_accepted_iff_parsed_witness :
  (Chat.step_machine Chat.default_config "Feb 16 2pm" (Props.contact_state "ask_time")
     (Props.start_marked_valid "2026-02-16T14:00:00") Props.no_notes None).1
  = Chat.mkBookingState (Some "ask_title") (Some "john.doe@example.com")
      (Some "+14155552671") (Some "2026-02-16T14:00:00") None
  /\ Chat.step_machine Chat.default_config "some time next week"
       (Props.contact_state "ask_time")
       (Props.start_marked_valid "next week") Props.no_notes None
     = (Props.contact_state "ask_time",
        "Sorry — I couldn’t parse that time. Please try again (e.g., 'Feb 16 2pm').").
Proof.
  split.
  - rewrite (proj1 (start_time_accepted_iff_parsed Chat.default_config "Feb 16 2pm"
                      (Props.contact_state "ask_time")
                      (Props.start_marked_valid "2026-02-16T14:00:00") Props.no_notes None
                      eq_refl) "2026-02-16T14:00:00"
               (Datetime.mkDatetime 2026 2 16 14 0 0 0 None));
      [reflexivity | reflexivity | reflexivity | discriminate | vm_compute; reflexivity].
  - apply (proj1 (proj2 (start_time_accepted_iff_parsed Chat.default_config
                           "some time next week" (Props.contact_state "ask_time")
                           (Props.start_marked_valid "next week") Props.no_notes None
                           eq_refl)) "next week");
      [reflexivity | reflexivity | discriminate | vm_compute; reflexivity].
Defined.

(** ** Normalization of the contact *)




(** * Further properties *)

(** ** The step-field engine, turn by turn *)

Lemma agent_at_step (st : AgentState.BookingState) (s name : string) :
  AgentState.step st = Some s -> AgentState.at_step st name = String.eqb s name.
Proof. unfold AgentState.at_step. now intros ->. Qed.

Lemma parse_yes_no_strip (u : string) :
  AgentState.parse_yes_no (PyStr.strip u) = AgentState.parse_yes_no u.
Proof. unfold AgentState.parse_yes_no. now rewrite strip_idem. Qed.

(** X1. A turn of the step-field engine never changes the title, and it
    moves the step along the edges of a fixed graph only: from ask_email to
    ask_email or ask_phone, from ask_phone to ask_phone or confirm, from
    confirm to confirm, ask_email or done, and from any other step (done
    included) nowhere; a state without a step is returned as it is. *)
Theorem agent_step_graph :
  forall (st : AgentState.BookingState) (u : string),
    let st' := AgentState.state (AgentState.handle_user_message st u) in
    AgentState.title st' = AgentState.title st
    /\ match AgentState.step st with
       | Some s => exists s', AgentState.step st' = Some s' /\ In s' (Inv.agent_edges s)
       | None => st' = st
       end.
Proof.
  intros st u st'. subst st'. unfold AgentState.handle_user_message.
  destruct (AgentState.step st) as [s|] eqn:Hs.
  2:{ unfold AgentState.at_step. rewrite Hs. now split. }
  rewrite !(agent_at_step _ _ _ Hs). unfold Inv.agent_edges.
  destruct (String.eqb s "ask_email") eqn:E1.
  { destruct (negb _); cbn; split; try reflexivity.
    - exists s. split; [assumption|]. apply String.eqb_eq in E1. subst s. now left.
    - exists "ask_phone". split; [reflexivity | right; now left]. }
  destruct (String.eqb s "ask_phone") eqn:E2.
  { destruct (negb _); cbn; split; try reflexivity.
    - exists s. split; [assumption|]. apply String.eqb_eq in E2. subst s. now left.
    - exists "confirm". split; [reflexivity | right; now left]. }
  destruct (String.eqb s "confirm") eqn:E3.
  { apply String.eqb_eq in E3. subst s.
    destruct (AgentState.parse_yes_no _) as [[]|]; cbn; split; try reflexivity.
    - exists "done". split; [reflexivity | right; right; now left].
    - exists "ask_email". split; [reflexivity | right; now left].
    - exists "confirm". split; [assumption | now left]. }
  destruct (String.eqb s "done"); cbn; (split; [reflexivity|]);
    exists s; (split; [assumption | now left]).
Qed.

(** X2. The step-field engine asks for the meeting to be created exactly
    when the step is confirm and the utterance is an affirmative token; the
    returned state is then the given one with the step done.  In every
    other turn there is no action. *)
Theorem agent_action_iff :
  forall (st : AgentState.BookingState) (u : string),
    (AgentState.act (AgentState.handle_user_message st u) = Some AgentState.create_meeting
     <-> AgentState.step st = Some "confirm"
         /\ AgentState.parse_yes_no u = Some true)
    /\ (AgentState.act (AgentState.handle_user_message st u) = Some AgentState.create_meeting ->
        AgentState.state (AgentState.handle_user_message st u)
        = AgentState.set_step st (Some "done")).
Proof.
  intros st u. rewrite <- (parse_yes_no_strip u).
  unfold AgentState.handle_user_message.
  destruct (AgentState.step st) as [s|] eqn:Hs.
  2:{ unfold AgentState.at_step. rewrite Hs. cbn. repeat split; try discriminate.
      now intros [? _]. }
  rewrite !(agent_at_step _ _ _ Hs).
  destruct (String.eqb s "ask_email") eqn:E1.
  { apply String.eqb_eq in E1. subst s.
    destruct (negb _); cbn; repeat split; try discriminate; now intros [? _]. }
  destruct (String.eqb s "ask_phone") eqn:E2.
  { apply String.eqb_eq in E2. subst s.
    destruct (negb _); cbn; repeat split; try discriminate; now intros [? _]. }
  destruct (String.eqb s "confirm") eqn:E3.
  { apply String.eqb_eq in E3. subst s.
    destruct (AgentState.parse_yes_no _) as [[]|]; cbn; repeat split;
      try discriminate; now intros [_ ?]. }
  apply String.eqb_neq in E3.
  destruct (String.eqb s "done"); cbn; repeat split; try discriminate;
    intros [[= ->] _]; now destruct E3.
Qed.

Lemma agent_action_iff_witness :
  AgentState.state
    (AgentState.handle_user_message
       (AgentState.mkBookingState (Some "confirm") (Some "john.doe@example.com")
          (Some "+14155552671") (Some "Scheduled Meeting")) " Yes ")
  = Props.agent_done.
Proof.
  apply (proj2 (agent_action_iff
                  (AgentState.mkBookingState (Some "confirm") (Some "john.doe@example.com")
                     (Some "+14155552671") (Some "Scheduled Meeting")) " Yes ")).
  reflexivity.
Defined.

(** X3. The step-field engine takes no partial update: an invalid email at
    ask_email, an invalid phone at ask_phone and an utterance that is
    neither yes nor no at confirm all return the state as it was, with no
    action; a no at confirm returns a fresh state at ask_email that keeps
    the title only. *)
Theorem agent_rejects_and_restarts :
  forall (st : AgentState.BookingState) (u : string),
    (AgentState.step st = Some "ask_email" -> AgentState.is_valid_email u = false ->
     AgentState.state (AgentState.handle_user_message st u) = st
     /\ AgentState.act (AgentState.handle_user_message st u) = None)
    /\ (AgentState.step st = Some "ask_phone" -> AgentState.is_valid_phone u = false ->
        AgentState.state (AgentState.handle_user_message st u) = st
        /\ AgentState.act (AgentState.handle_user_message st u) = None)
    /\ (AgentState.step st = Some "confirm" -> AgentState.parse_yes_no u = None ->
        AgentState.state (AgentState.handle_user_message st u) = st
        /\ AgentState.act (AgentState.handle_user_message st u) = None)
    /\ (AgentState.step st = Some "confirm" -> AgentState.parse_yes_no u = Some false ->
        AgentState.state (AgentState.handle_user_message st u)
        = AgentState.mkBookingState (Some "ask_email") None None (AgentState.title st)
        /\ AgentState.act (AgentState.handle_user_message st u) = None).
Proof.
  intros st u. unfold AgentState.handle_user_message.
  rewrite is_valid_email_strip, is_valid_phone_strip, parse_yes_no_strip.
  split; [|split; [|split]]; intros Hstep H.
  all: rewrite ?(at_step_ne _ _ "ask_email" Hstep) by discriminate.
  all: rewrite ?(at_step_ne _ _ "ask_phone" Hstep) by discriminate.
  all: rewrite (at_step_eq _ _ Hstep), H; now split.
Qed.

Lemma agent_rejects_and_restarts_witness :
  AgentState.state
    (AgentState.handle_user_message (Props.agent_at "ask_email") "john.doe at example")
  = Props.agent_at "ask_email"
  /\ AgentState.state
       (AgentState.handle_user_message
          (AgentState.mkBookingState (Some "confirm") (Some "john.doe@example.com")
             (Some "+14155552671") (Some "Scheduled Meeting")) "nope")
     = Props.agent_at "ask_email".
Proof.
  split.
  - destruct (agent_rejects_and_restarts (Props.agent_at "ask_email") "john.doe at example")
      as (H & _).
    apply H; reflexivity.
  - destruct (agent_rejects_and_restarts
                (AgentState.mkBookingState (Some "confirm") (Some "john.doe@example.com")
                   (Some "+14155552671") (Some "Scheduled Meeting")) "nope")
      as (_ & _ & _ & H).
    apply H; reflexivity.
Defined.

(** X4. A whole booking with the step-field engine: from the default state,
    any valid email, then any valid phone, then yes lead to the step done
    with the email trimmed and lowercased and the phone normalized; the
    second reply is the confirmation of exactly these values, and the
    action is asked for in the last turn only. *)
Theorem agent_booking_path :
  forall (e p : string),
    AgentState.is_valid_email e = true ->
    AgentState.is_valid_phone p = true ->
    let o1 := AgentState.handle_user_message AgentState.default_state e in
    let o2 := AgentState.handle_user_message (AgentState.state o1) p in
    let o3 := AgentState.handle_user_message (AgentState.state o2) "yes" in
    AgentState.state o3
    = AgentState.mkBookingState (Some "done") (Some (PyStr.lower (PyStr.strip e)))
        (Some (AgentState.normalize_phone p)) AgentState.default_title
    /\ AgentState.reply o2 = AgentState.build_confirmation (AgentState.state o2)
    /\ AgentState.act o1 = None /\ AgentState.act o2 = None
    /\ AgentState.act o3 = Some AgentState.create_meeting.
Proof.
  intros e p He Hp o1 o2 o3.
  assert (H1 : o1 = AgentState.mkOutcome
                      (AgentState.mkBookingState (Some "ask_phone")
                         (Some (PyStr.lower (PyStr.strip e))) None AgentState.default_title)
                      "Thanks! Now please provide your phone number (digits, may include +)."
                      None).
  { subst o1. unfold AgentState.handle_user_message.
    rewrite is_valid_email_strip, He. cbn. now rewrite strip_idem. }
  assert (H2 : AgentState.state o2
               = AgentState.mkBookingState (Some "confirm")
                   (Some (PyStr.lower (PyStr.strip e)))
                   (Some (AgentState.normalize_phone p)) AgentState.default_title
               /\ AgentState.reply o2 = AgentState.build_confirmation (AgentState.state o2)
               /\ AgentState.act o2 = None).
  { subst o2. rewrite H1. unfold AgentState.handle_user_message.
    cbn [AgentState.state AgentState.at_step AgentState.step].
    rewrite is_valid_phone_strip, Hp. cbn.
    unfold AgentState.normalize_phone. now rewrite strip_idem. }
  destruct H2 as (H2 & Hr & Ha).
  assert (H3 : o3 = AgentState.mkOutcome
                      (AgentState.mkBookingState (Some "done")
                         (Some (PyStr.lower (PyStr.strip e)))
                         (Some (AgentState.normalize_phone p)) AgentState.default_title)
                      "Great — creating your meeting now…" (Some AgentState.create_meeting)).
  { subst o3. rewrite H2. unfold AgentState.handle_user_message.
    cbn [AgentState.at_step AgentState.step String.eqb Ascii.eqb Bool.eqb].
    change (AgentState.parse_yes_no (PyStr.strip "yes")) with (Some true).
    reflexivity. }
  rewrite H3. split; [reflexivity|]. split; [exact Hr|]. split; [now rewrite H1|].
  split; [exact Ha | reflexivity].
Qed.

Lemma agent_booking_path_witness :
  AgentState.state
    (AgentState.handle_user_message
       (AgentState.state
          (AgentState.handle_user_message
             (AgentState.state
                (AgentState.handle_user_message AgentState.default_state
                   " John.Doe@Example.COM "))
             "+1 (415) 555-2671"))
       "yes")
  = Props.agent_done.
Proof.
  apply (proj1 (agent_booking_path " John.Doe@Example.COM " "+1 (415) 555-2671"
                  eq_refl eq_refl)).
Defined.

(** ** Yes and no in the two engines *)

Lemma member_false_iff (t : string) (l : list string) :
  PyStr.member t l = false <-> ~ In t l.
Proof. rewrite <- member_true_iff. now destruct (PyStr.member t l). Qed.


(** ** Normalizing twice *)

(** X6. Normalization is idempotent and validity does not see it: the
    normalized form of a normalized phone, or email, is itself, and a
    string is a valid phone, or email, exactly when its normalized form
    is. *)
Theorem normalization_idempotent :
  forall s : string,
    AgentState.normalize_phone (AgentState.normalize_phone s) = AgentState.normalize_phone s
    /\ AgentState.is_valid_phone (AgentState.normalize_phone s) = AgentState.is_valid_phone s
    /\ PyStr.lower (PyStr.strip (PyStr.lower (PyStr.strip s))) = PyStr.lower (PyStr.strip s)
    /\ AgentState.is_valid_email (PyStr.lower (PyStr.strip s)) = AgentState.is_valid_email s.
Proof.
  intros s. repeat split.
  - apply normalize_phone_idem.
  - unfold AgentState.is_valid_phone. now rewrite normalize_phone_idem.
  - now rewrite strip_lower, strip_idem, lower_idem.
  - unfold AgentState.is_valid_email. now rewrite strip_lower, strip_idem, lower_idem.
Qed.

(** ** The matcher against the languages *)

Lemma append_eq_empty (s1 s2 : string) :
  s1 +:+ s2 = EmptyString -> s1 = EmptyString /\ s2 = EmptyString.
Proof. destruct s1; [now split | rewrite append_cons; discriminate]. Qed.

Lemma append_eq_cons (s1 s2 s : string) (c : ascii) :
  s1 +:+ s2 = String c s ->
  (s1 = EmptyString /\ s2 = String c s)
  \/ exists s1', s1 = String c s1' /\ s = s1' +:+ s2.
Proof.
  destruct s1 as [|d s1]; [now left|].
  rewrite append_cons. intros [= -> <-]. right. now exists s1.
Qed.

Lemma nullable_lang (r : Re.regex) :
  Re.nullable r = true <-> ReLang.lang r EmptyString.
Proof.
  induction r as [| |p|r1 IH1 r2 IH2|r1 IH1 r2 IH2|r IH]; simpl.
  - split; [discriminate | inversion 1].
  - split; [constructor | reflexivity].
  - split; [discriminate | inversion 1].
  - rewrite andb_true_iff, IH1, IH2. split.
    + intros [H1 H2]. change EmptyString with (EmptyString +:+ EmptyString).
      now constructor.
    + inversion 1 as [| |? ? s1 s2 H1 H2 E1 E2| | | |]. subst.
      apply append_eq_empty in E2 as [-> ->]. now split.
  - rewrite orb_true_iff, IH1, IH2. split.
    + intros [H|H]; [now apply ReLang.lang_alt_l | now apply ReLang.lang_alt_r].
    + inversion 1; subst; [now left | now right].
  - split; [constructor | reflexivity].
Qed.

Lemma star_cons_inv (r : Re.regex) (c : ascii) (s : string) :
  ReLang.lang (Re.Star r) (String c s) ->
  exists s1 s2, s = s1 +:+ s2 /\ ReLang.lang r (String c s1) /\ ReLang.lang (Re.Star r) s2.
Proof.
  intros H. remember (Re.Star r) as r' eqn:Hr. remember (String c s) as w eqn:Hw.
  revert s Hw.
  induction H as [| | | | | |r0 s1 s2 H1 _ H2 IH2]; intros t Hw; try discriminate.
  injection Hr as ->.
  apply append_eq_cons in Hw as [[-> ->]|(s1' & -> & ->)].
  - now apply IH2.
  - now exists s1', s2.
Qed.

Lemma deriv_lang (c : ascii) (r : Re.regex) (s : string) :
  ReLang.lang (Re.deriv c r) s <-> ReLang.lang r (String c s).
Proof.
  revert s.
  induction r as [| |p|r1 IH1 r2 IH2|r1 IH1 r2 IH2|r IH]; intros s; simpl.
  - split; inversion 1.
  - split; inversion 1.
  - destruct (p c) eqn:Hp; split.
    + inversion 1; subst. now constructor.
    + inversion 1; subst. constructor.
    + inversion 1.
    + inversion 1; subst. congruence.
  - assert (Hcat : ReLang.lang (Re.Cat (Re.deriv c r1) r2) s ->
                   ReLang.lang (Re.Cat r1 r2) (String c s)).
    { inversion 1 as [| |? ? s1 s2 H1 H2 E1 E2| | | |]. subst.
      rewrite <- append_cons. constructor; [now apply IH1 | assumption]. }
    assert (Hinv : ReLang.lang (Re.Cat r1 r2) (String c s) ->
                   ReLang.lang (Re.Cat (Re.deriv c r1) r2) s
                   \/ (Re.nullable r1 = true /\ ReLang.lang (Re.deriv c r2) s)).
    { inversion 1 as [| |? ? s1 s2 H1 H2 E1 E2| | | |]. subst.
      apply append_eq_cons in E2 as [[-> ->]|(s1' & -> & ->)].
      - right. split; [now apply nullable_lang | now apply IH2].
      - left. constructor; [now apply IH1 | assumption]. }
    destruct (Re.nullable r1) eqn:Hn; split.
    + inversion 1; subst; [now apply Hcat|].
      change (String c s) with (EmptyString +:+ String c s).
      constructor; [now apply nullable_lang | now apply IH2].
    + intros H. destruct (Hinv H) as [H'|[_ H']];
        [now apply ReLang.lang_alt_l | now apply ReLang.lang_alt_r].
    + apply Hcat.
    + intros H. destruct (Hinv H) as [H'|[H' _]]; [assumption | discriminate].
  - split.
    + inversion 1; subst;
        [apply ReLang.lang_alt_l; now apply IH1 | apply ReLang.lang_alt_r; now apply IH2].
    + inversion 1; subst;
        [apply ReLang.lang_alt_l; now apply IH1 | apply ReLang.lang_alt_r; now apply IH2].
  - split.
    + inversion 1 as [| |? ? s1 s2 H1 H2 E1 E2| | | |]. subst.
      rewrite <- append_cons. constructor; [now apply IH | assumption].
    + intros H. apply star_cons_inv in H as (s1 & s2 & -> & H1 & H2).
      constructor; [now apply IH | assumption].
Qed.

(** The matcher decides the language. *)
Lemma matches_lang (r : Re.regex) (s : string) :
  Re.matches r s = true <-> ReLang.lang r s.
Proof.
  revert r. induction s as [|c s IH]; intros r; simpl.
  - apply nullable_lang.
  - rewrite IH. apply deriv_lang.
Qed.

(** ** The shape of a valid email *)

Lemma last_char_rstrip (s : string) (c : ascii) :
  PyStr.last_char (PyStr.rstrip s) = Some c -> PyStr.isspace c = false.
Proof.
  induction s as [|a s IH]; simpl; [discriminate|].
  destruct (PyStr.rstrip s) as [|b r].
  - destruct (PyStr.isspace a) eqn:Ha; simpl; [discriminate | now intros [= <-]].
  - exact IH.
Qed.

Lemma last_char_lstrip (t : string) (c : ascii) :
  PyStr.last_char (PyStr.lstrip t) = Some c -> PyStr.last_char t = Some c.
Proof.
  induction t as [|a t IH]; simpl; [discriminate|].
  destruct (PyStr.isspace a); [|trivial].
  intros H%IH. destruct t; [discriminate | exact H].
Qed.

Lemma strip_no_final_newline (s : string) :
  PyStr.endswith_char (PyStr.strip s) (ascii_of_nat 10) = false.
Proof.
  unfold PyStr.endswith_char, PyStr.strip.
  destruct (PyStr.last_char _) as [c|] eqn:Hl; [|reflexivity].
  apply last_char_lstrip, last_char_rstrip in Hl.
  destruct (Ascii.eqb c (ascii_of_nat 10)) eqn:Heq; [|reflexivity].
  apply Ascii.eqb_eq in Heq. subst c. discriminate Hl.
Qed.

Lemma is_valid_email_matches (u : string) :
  AgentState.is_valid_email u
  = Re.matches AgentState.EMAIL_RE (PyStr.lower (PyStr.strip u)).
Proof.
  unfold AgentState.is_valid_email, Re.match_anchored.
  rewrite <- strip_lower, strip_no_final_newline. apply orb_false_r.
Qed.

Lemma lang_plus_class (p : ascii -> bool) (s : string) :
  ReLang.lang (Re.Plus (Re.Class p)) s
  <-> PyStr.nonempty s = true /\ PyStr.forallb p s = true.
Proof.
  rewrite <- matches_lang. unfold Re.Plus.
  rewrite matches_Cat_Class. destruct s as [|c s]; simpl.
  - split; [discriminate | now intros [? _]].
  - rewrite matches_Star_Class. split; [now split | now intros [_ ?]].
Qed.

Lemma lang_chr (c : ascii) (s : string) :
  ReLang.lang (Re.Chr c) s <-> s = String c EmptyString.
Proof.
  unfold Re.Chr. split.
  - inversion 1 as [|? d Hd| | | | |]; subst. apply Ascii.eqb_eq in Hd. now subst.
  - intros ->. constructor. apply Ascii.eqb_refl.
Qed.

Lemma lang_EMAIL_RE (s : string) :
  ReLang.lang AgentState.EMAIL_RE s <-> ReLang.email_shape s.
Proof.
  unfold AgentState.EMAIL_RE, ReLang.email_shape, ReLang.email_part. split.
  - inversion 1 as [| |? ? a r1 Ha H1 E1 E2| | | |]; subst.
    inversion H1 as [| |? ? x r2 Hx H2 E1 E2| | | |]; subst.
    inversion H2 as [| |? ? b r3 Hb H3 E1 E2| | | |]; subst.
    inversion H3 as [| |? ? y c Hy Hc E1 E2| | | |]; subst.
    apply lang_chr in Hx, Hy. subst x y.
    apply lang_plus_class in Ha, Hb, Hc.
    now exists a, b, c.
  - intros (a & b & c & -> & Ha & Hb & Hc).
    apply lang_plus_class in Ha, Hb, Hc.
    repeat (constructor; [try assumption; now apply lang_chr|]). assumption.
Qed.

Lemma filter_append (p : ascii -> bool) (a b : string) :
  PyStr.filter p (a +:+ b) = PyStr.filter p a +:+ PyStr.filter p b.
Proof.
  induction a as [|c a IH]; [reflexivity|].
  rewrite append_cons. simpl. rewrite IH. now destruct (p c).
Qed.

Lemma no_at_in_part (a : string) :
  PyStr.forallb AgentState.not_at_space a = true ->
  PyStr.filter (Ascii.eqb "@") a = EmptyString.
Proof.
  induction a as [|c a IH]; [reflexivity|].
  cbn [PyStr.filter PyStr.forallb].
  intros [Hc Ha]%andb_prop. rewrite (IH Ha).
  unfold AgentState.not_at_space in Hc.
  rewrite Ascii.eqb_sym. now destruct (Ascii.eqb c "@").
Qed.

(** X7. An email is valid exactly when, trimmed and lowercased, it is a
    local part, an at sign, a domain, a dot and a top level, each of the
    three parts being a non-empty run of characters that are neither an at
    sign nor whitespace (dots are allowed in any part).  A valid email
    therefore holds exactly one at sign. *)
Theorem valid_email_shape :
  forall u : string,
    (AgentState.is_valid_email u = true
     <-> ReLang.email_shape (PyStr.lower (PyStr.strip u)))
    /\ (AgentState.is_valid_email u = true ->
        ReLang.count_at (PyStr.lower (PyStr.strip u)) = 1).
Proof.
  intros u. rewrite is_valid_email_matches, matches_lang, lang_EMAIL_RE.
  split; [reflexivity|].
  intros (a & b & c & -> & [_ Ha] & [_ Hb] & [_ Hc]).
  unfold ReLang.count_at.
  rewrite !filter_append, (no_at_in_part _ Ha), (no_at_in_part _ Hb), (no_at_in_part _ Hc).
  reflexivity.
Qed.

Lemma valid_email_shape_witness :
  ReLang.count_at "john.doe@example.com" = 1.
Proof.
  apply (proj2 (valid_email_shape " John.Doe@Example.COM ")). reflexivity.
Defined.

(** ** The title step *)

Lemma length_take (n : nat) (s : string) : String.length (PyStr.take n s) <= n.
Proof.
  revert s. induction n as [|n IH]; intros [|c s]; simpl; try lia.
  specialize (IH s). lia.
Qed.

Lemma startswith_take (n : nat) (s : string) : PyStr.startswith (PyStr.take n s) s = true.
Proof.
  revert s. induction n as [|n IH]; intros [|c s]; simpl; try reflexivity.
  now rewrite Ascii.eqb_refl, IH.
Qed.

Lemma step_machine_ask_title cfg user_text (st : Chat.BookingState) ex nt (confirm : value) :
  Chat.step st = Some "ask_title" ->
  (Chat.step_machine cfg user_text st ex nt confirm).1 =
  Chat.set_step
    (Chat.set_title st
       (Some (if PyStr.member (PyStr.lower (Inv.title_text user_text ex)) ["skip"; "no"; "none"]
              then Chat.DEFAULT_TITLE cfg
              else if PyStr.nonempty (Inv.title_text user_text ex)
                   then PyStr.take 120 (Inv.title_text user_text ex)
                   else Chat.DEFAULT_TITLE cfg)))
    (Some "confirm_all").
Proof.
  intros Hstep. unfold Chat.step_machine, Inv.title_text.
  rewrite !(chat_at_step_ne _ _ _ Hstep) by discriminate.
  rewrite (chat_at_step_eq _ _ Hstep).
  now destruct (PyStr.member _ _).
Qed.

(** X8. The title step has no failure path: at ask_title the step machine
    always moves to confirm_all and leaves email, phone and start time as
    they were.  The text it works on is the extracted title, or the
    utterance when none was extracted, trimmed.  When that text is empty or,
    lowercased, one of skip, no, none, the title is the configured default;
    otherwise the title is the first 120 characters of the text. *)
Theorem title_step_always_advances :
  forall cfg user_text (st : Chat.BookingState) ex nt (confirm : value),
    Chat.step st = Some "ask_title" ->
    let st' := (Chat.step_machine cfg user_text st ex nt confirm).1 in
    let t := Inv.title_text user_text ex in
    Chat.step st' = Some "confirm_all"
    /\ Chat.email st' = Chat.email st
    /\ Chat.phone st' = Chat.phone st
    /\ Chat.start_iso st' = Chat.start_iso st
    /\ (In (PyStr.lower t) ["skip"; "no"; "none"] \/ t = EmptyString ->
        Chat.title st' = Some (Chat.DEFAULT_TITLE cfg))
    /\ (~ In (PyStr.lower t) ["skip"; "no"; "none"] -> t <> EmptyString ->
        Chat.title st' = Some (PyStr.take 120 t)
        /\ String.length (PyStr.take 120 t) <= 120
        /\ PyStr.startswith (PyStr.take 120 t) t = true).
Proof.
  intros cfg user_text st ex nt confirm Hstep st' t. subst st'.
  rewrite (step_machine_ask_title _ _ _ _ _ _ Hstep). fold t.
  cbn [Chat.step Chat.email Chat.phone Chat.start_iso Chat.title Chat.set_step
       Chat.set_title].
  repeat split.
  - intros [Hskip| ->].
    + apply member_true_iff in Hskip. now rewrite Hskip.
    + reflexivity.
  - apply member_false_iff in H. rewrite H. destruct t; [congruence | reflexivity].
  - apply length_take.
  - apply startswith_take.
Qed.

Lemma title_step_always_advances_witness :
  Chat.title
    (Chat.step_machine Chat.default_config " Skip " (Props.full_state "ask_title")
       (Props.only_confirm None) Props.no_notes None).1
  = Some "Scheduled Meeting"
  /\ Chat.title
       (Chat.step_machine Chat.default_config "Quarterly review"
          (Props.full_state "ask_title") (Props.only_confirm None) Props.no_notes None).1
     = Some "Quarterly review".
Proof.
  split.
  - destruct (title_step_always_advances Chat.default_config " Skip "
                (Props.full_state "ask_title") (Props.only_confirm None) Props.no_notes None
                eq_refl) as (_ & _ & _ & _ & H & _).
    apply H. left. simpl. tauto.
  - destruct (title_step_always_advances Chat.default_config "Quarterly review"
                (Props.full_state "ask_title") (Props.only_confirm None) Props.no_notes None
                eq_refl) as (_ & _ & _ & _ & _ & H).
    apply H.
    + simpl. intros [H'|[H'|[H'|[]]]]; discriminate H'.
    + discriminate.
Defined.

(** ** The step graph of the chat engine *)

Lemma chat_at_step (st : Chat.BookingState) (s name : string) :
  Chat.step st = Some s -> Chat.at_step st name = String.eqb s name.
Proof. unfold Chat.at_step. now intros ->. Qed.

Lemma machine_step_graph cfg user_text (st : Chat.BookingState) ex nt (confirm : value) :
  match Chat.step st with
  | Some s =>
      exists s', Chat.step (Chat.step_machine cfg user_text st ex nt confirm).1 = Some s'
                 /\ In s' (Inv.machine_edges s)
  | None => (Chat.step_machine cfg user_text st ex nt confirm).1 = st
  end.
Proof.
  destruct (Chat.step st) as [s|] eqn:Hs.
  2:{ unfold Chat.step_machine, Chat.at_step. now rewrite Hs. }
  unfold Chat.step_machine. rewrite !(chat_at_step _ _ _ Hs).
  unfold Inv.machine_edges.
  destruct (String.eqb_spec s "ask_email_phone") as [->|N1].
  { destruct (Chat.accepted (Chat.email_ok ex) _), (Chat.accepted (Chat.phone_ok ex) _);
      split_branches; cbn; rewrite ?Hs; eauto 6. }
  destruct (String.eqb_spec s "confirm_contact") as [->|N2].
  { split_branches; cbn; rewrite ?Hs; eauto 6. }
  destruct (String.eqb_spec s "ask_time") as [->|N3].
  { split_branches; cbn; rewrite ?Hs; eauto 6. }
  destruct (String.eqb_spec s "ask_title") as [->|N4].
  { split_branches; cbn; eauto 6. }
  destruct (String.eqb_spec s "confirm_all") as [->|N5].
  { split_branches; cbn; rewrite ?Hs; eauto 6. }
  split_branches; cbn; rewrite ?Hs; eauto.
Qed.

Lemma machine_keeps_well_formed cfg user_text (st : Chat.BookingState) ex nt
    (confirm : value) :
  Inv.well_formed cfg st = true ->
  Inv.well_formed cfg (Chat.step_machine cfg user_text st ex nt confirm).1 = true.
Proof.
  intros Hwf. pose proof Hwf as Hwf0. unfold Inv.well_formed in Hwf.
  destruct (Chat.step st) as [s|] eqn:Hs; [|discriminate].
  unfold Chat.step_machine. rewrite !(chat_at_step _ _ _ Hs).
  destruct (String.eqb_spec s "ask_email_phone") as [->|N1].
  { set (st1 := match Chat.accepted (Chat.email_ok ex) _ with
                | Some e => _ | None => st end).
    set (st2 := match Chat.accepted (Chat.phone_ok ex) _ with
                | Some p => _ | None => st1 end).
    assert (H2 : Chat.step st2 = Some "ask_email_phone"
                 /\ Chat.start_iso st2 = Chat.start_iso st
                 /\ Chat.title st2 = Chat.title st).
    { subst st2 st1.
      destruct (Chat.accepted (Chat.email_ok ex) _), (Chat.accepted (Chat.phone_ok ex) _);
        cbn; auto. }
    destruct H2 as (H2 & _ & _).
    destruct (negb (PyStr.truthy (Chat.email st2)) || negb (PyStr.truthy (Chat.phone st2)))
      eqn:T.
    - split_branches; cbn [fst]; unfold Inv.well_formed; rewrite H2; reflexivity.
    - apply orb_false_elim in T as [Te Tp].
      apply negb_false_iff in Te, Tp.
      cbn [fst]. unfold Inv.well_formed.
      cbn [Chat.step Chat.set_step Chat.email Chat.phone]. now rewrite Te, Tp. }
  destruct (String.eqb_spec s "confirm_contact") as [->|N2].
  { cbn in Hwf. split_branches; cbn [fst]; [reflexivity | | exact Hwf0].
    unfold Inv.well_formed. cbn. cbn in Hwf. exact Hwf. }
  destruct (String.eqb_spec s "ask_time") as [->|N3].
  { cbn in Hwf. rewrite andb_true_r in Hwf.
    destruct (Chat.accepted _ _) as [x|] eqn:Hacc; [|exact Hwf0].
    destruct (Chat._parse_iso_datetime cfg x) as [dt|] eqn:Hparse; [|exact Hwf0].
    apply accepted_Some in Hacc as (_ & _ & Hne).
    cbn [fst]. unfold Inv.well_formed, Inv.parses. cbn.
    rewrite Hparse. destruct x; [congruence|]. cbn. now rewrite Hwf. }
  destruct (String.eqb_spec s "ask_title") as [->|N4].
  { cbn in Hwf. rewrite andb_true_r in Hwf.
    destruct (PyStr.member (PyStr.lower _) ["skip"; "no"; "none"]);
      cbn [fst]; unfold Inv.well_formed; cbn; now rewrite Hwf. }
  destruct (String.eqb_spec s "confirm_all") as [->|N5].
  { cbn in Hwf. apply andb_prop in Hwf as [Hwf Ht]. apply andb_prop in Hwf as [Hc Hp].
    split_branches; cbn [fst]; [| exact Hwf0 | exact Hwf0].
    unfold Inv.well_formed. cbn. now rewrite Hc. }
  split_branches; exact Hwf0.
Qed.

(** ** Every outcome of a turn *)

Lemma get_tokens_load_state (sessions : gmap string (App.Session Chat.BookingState))
    (sid : string) :
  App._get_tokens (Chat._load_state sessions sid).1 sid = App._get_tokens sessions sid.
Proof.
  unfold Chat._load_state, App._get_tokens.
  destruct (App.booking_state (App.get_session sessions sid));
    cbn [fst]; now rewrite get_session_insert.
Qed.

Section Outcome.

Variable cfg : Chat.Config.
Variable planner : string -> Chat.BookingState -> Chat.PlannerResponse.
Variable speaker : string -> Chat.BookingState -> string -> App.Stream.
Variable calendar : Chat.EventRequest -> result Chat.Created.

Implicit Types (sessions : gmap string (App.Session Chat.BookingState)) (sid : string).

(** After a turn the session holds the state it had, or the state the step
    machine made of it, or, when that state is at confirm_all and the
    calendar returned an event for it, that state moved to done. *)
Lemma chat_stream_outcome sessions sid messages :
  let st0 := (Chat._load_state sessions sid).2 in
  let user_text := Chat.last_user_text messages in
  exists stf,
    Chat.stored_state
      (App.sessions_after
         (Chat.chat_stream cfg planner speaker calendar sessions sid messages)) sid
    = Some stf
    /\ (stf = st0
        \/ exists plan,
            Chat.llm_extract_and_validate planner user_text st0 = Return (Chat.a_plan plan)
            /\ let st1 := (Chat.step_machine cfg user_text st0 (Chat.extracted plan)
                             (Chat.notes plan)
                             (Chat.resolve_confirm user_text (Chat.extracted plan))).1 in
               stf = st1
               \/ (stf = Chat.set_step st1 (Some "done")
                   /\ Chat.step st1 = Some "confirm_all"
                   /\ exists tokens dt created,
                       App._get_tokens sessions sid = Some tokens
                       /\ Chat._parse_iso_datetime cfg
                            (PyStr.or_else (Chat.start_iso st1) EmptyString) = Some dt
                       /\ calendar (Chat.event_request cfg tokens st1 dt) = Return created)).
Proof.
  cbv zeta. unfold Chat.chat_stream.
  pose proof (stored_load_state sessions sid) as Hst0.
  pose proof (get_tokens_load_state sessions sid) as Htok.
  destruct (Chat._load_state sessions sid) as [s0 st0]. cbn [fst snd] in *.
  destruct (App._get_tokens s0 sid) as [tokens|].
  2:{ exists st0. split; [exact Hst0 | now left]. }
  destruct (Chat.llm_extract_and_validate _ _ _) as [[plan|j]|e] eqn:Hplan;
    [|exists st0; split; [exact Hst0 | now left]..].
  destruct (Chat.step_machine _ _ _ _ _ _) as [st1 planned] eqn:Hm.
  rewrite sse_after_save. cbv zeta.
  assert (Hsaved : Chat.stored_state (Chat._save_state s0 sid st1) sid = Some st1)
    by apply stored_save_state.
  assert (Hplain : exists stf,
             Some st1 = Some stf
             /\ (stf = st0
                 \/ exists plan0,
                     Return (Chat.a_plan plan) = Return (Chat.a_plan plan0)
                     /\ (stf = (Chat.step_machine cfg (Chat.last_user_text messages) st0
                                  (Chat.extracted plan0) (Chat.notes plan0)
                                  (Chat.resolve_confirm (Chat.last_user_text messages)
                                     (Chat.extracted plan0))).1
                         \/ (stf = Chat.set_step
                                     (Chat.step_machine cfg (Chat.last_user_text messages) st0
                                        (Chat.extracted plan0) (Chat.notes plan0)
                                        (Chat.resolve_confirm (Chat.last_user_text messages)
                                           (Chat.extracted plan0))).1 (Some "done")
                             /\ Chat.step
                                  (Chat.step_machine cfg (Chat.last_user_text messages) st0
                                     (Chat.extracted plan0) (Chat.notes plan0)
                                     (Chat.resolve_confirm (Chat.last_user_text messages)
                                        (Chat.extracted plan0))).1 = Some "confirm_all"
                             /\ exists tokens0 dt created,
                                 App._get_tokens sessions sid = Some tokens0
                                 /\ Chat._parse_iso_datetime cfg
                                      (PyStr.or_else
                                         (Chat.start_iso
                                            (Chat.step_machine cfg
                                               (Chat.last_user_text messages) st0
                                               (Chat.extracted plan0) (Chat.notes plan0)
                                               (Chat.resolve_confirm
                                                  (Chat.last_user_text messages)
                                                  (Chat.extracted plan0))).1) EmptyString)
                                    = Some dt
                                 /\ calendar
                                      (Chat.event_request cfg tokens0
                                         (Chat.step_machine cfg
                                            (Chat.last_user_text messages) st0
                                            (Chat.extracted plan0) (Chat.notes plan0)
                                            (Chat.resolve_confirm
                                               (Chat.last_user_text messages)
                                               (Chat.extracted plan0))).1 dt)
                                    = Return created)))).
  { exists st1. split; [reflexivity|]. right. exists plan. split; [reflexivity|].
    left. now rewrite Hm. }
  destruct (App.stream_error _);
    [cbn [App.sessions_after]; rewrite Hsaved; exact Hplain|].
  destruct (_ && _) eqn:Hguard; [|cbn [App.sessions_after]; rewrite Hsaved; exact Hplain].
  destruct (Chat._parse_iso_datetime _ _) as [dt|] eqn:Hparse;
    [|cbn [App.sessions_after]; rewrite Hsaved; exact Hplain].
  destruct (calendar _) as [created|e] eqn:Hcal;
    [|cbn [App.sessions_after]; rewrite Hsaved; exact Hplain].
  cbn [App.sessions_after]. rewrite stored_save_state.
  exists (Chat.set_step st1 (Some "done")). split; [reflexivity|].
  right. exists plan. split; [reflexivity|]. right. rewrite Hm. cbn [fst].
  repeat split.
  - apply andb_prop in Hguard as [Hguard _]. apply andb_prop in Hguard as [Hguard _].
    apply andb_prop in Hguard as [Hguard _]. apply andb_prop in Hguard as [Hguard _].
    unfold Chat.at_step in Hguard. destruct (Chat.step st1) as [x|]; [|discriminate].
    apply String.eqb_eq in Hguard. now subst.
  - exists tokens, dt, created. now rewrite <- Htok.
Qed.

End Outcome.

Lemma machine_edges_in_turn_edges (s s' : string) :
  In s' (Inv.machine_edges s) -> In s' (Inv.turn_edges s).
Proof.
  unfold Inv.turn_edges, Inv.machine_edges.
  destruct (String.eqb_spec s "ask_email_phone") as [->|N1]; [trivial|].
  destruct (String.eqb_spec s "confirm_contact") as [->|N2]; [trivial|].
  destruct (String.eqb_spec s "ask_time") as [->|N3]; [trivial|].
  destruct (String.eqb_spec s "ask_title") as [->|N4]; [simpl; tauto|].
  destruct (String.eqb_spec s "confirm_all") as [->|N5]; [simpl; tauto | trivial].
Qed.

Lemma self_in_turn_edges (s : string) : In s (Inv.turn_edges s).
Proof.
  unfold Inv.turn_edges, Inv.machine_edges.
  destruct (String.eqb_spec s "ask_title") as [->|N4]; [now left|].
  destruct (String.eqb_spec s "confirm_all") as [->|N5]; [simpl; tauto|].
  destruct (String.eqb_spec s "ask_email_phone") as [->|N1]; [now left|].
  destruct (String.eqb_spec s "confirm_contact") as [->|N2]; [simpl; tauto|].
  destruct (String.eqb_spec s "ask_time") as [->|N3]; now left.
Qed.

Lemma done_in_turn_edges (s : string) :
  In "confirm_all" (Inv.machine_edges s) -> In "done" (Inv.turn_edges s).
Proof.
  unfold Inv.turn_edges, Inv.machine_edges.
  destruct (String.eqb_spec s "ask_email_phone") as [->|N1];
    [simpl; intros [H|[H|[]]]; discriminate H|].
  destruct (String.eqb_spec s "confirm_contact") as [->|N2];
    [simpl; intros [H|[H|[H|[]]]]; discriminate H|].
  destruct (String.eqb_spec s "ask_time") as [->|N3];
    [simpl; intros [H|[H|[]]]; discriminate H|].
  destruct (String.eqb_spec s "ask_title") as [->|N4]; [simpl; tauto|].
  destruct (String.eqb_spec s "confirm_all") as [->|N5]; [simpl; tauto|].
  simpl. intros [H|[]]. congruence.
Qed.

(** X9. The step of the chat engine moves along the edges of a fixed graph.
    The step machine goes from ask_email_phone to itself or
    confirm_contact; from confirm_contact to itself, ask_time or back to
    ask_email_phone; from ask_time to itself or ask_title; from ask_title to
    confirm_all; from confirm_all to itself or back to ask_time; and it
    leaves done, and any unknown step, where it is: it never writes done.
    A whole turn adds two edges, both into done, from confirm_all and from
    ask_title, and may leave any step where it is. *)
Theorem chat_step_graph :
  (forall cfg user_text (st : Chat.BookingState) ex nt (confirm : value) s,
      Chat.step st = Some s ->
      exists s',
        Chat.step (Chat.step_machine cfg user_text st ex nt confirm).1 = Some s'
        /\ In s' (Inv.machine_edges s))
  /\ (forall cfg planner speaker calendar
             (sessions : gmap string (App.Session Chat.BookingState)) (sid : string)
             sess st s messages,
      sessions !! sid = Some sess ->
      App.booking_state sess = Some st ->
      Chat.step st = Some s ->
      exists stf s',
        Chat.stored_state
          (App.sessions_after
             (Chat.chat_stream cfg planner speaker calendar sessions sid messages)) sid
        = Some stf
        /\ Chat.step stf = Some s' /\ In s' (Inv.turn_edges s)).
Proof.
  split.
  - intros cfg user_text st ex nt confirm s Hs.
    pose proof (machine_step_graph cfg user_text st ex nt confirm) as H.
    now rewrite Hs in H.
  - intros cfg planner speaker calendar sessions sid sess st s messages Hs Hb Hstep.
    destruct (chat_stream_outcome cfg planner speaker calendar sessions sid messages)
      as (stf & Hstf & Hcases).
    rewrite (load_state_stored _ _ _ _ Hs Hb) in Hcases. cbn [snd] in Hcases.
    exists stf. destruct Hcases as [->|(plan & _ & Hcases)].
    { exists s. repeat split; [assumption.. | apply self_in_turn_edges]. }
    cbv zeta in Hcases.
    pose proof (machine_step_graph cfg (Chat.last_user_text messages) st
                  (Chat.extracted plan) (Chat.notes plan)
                  (Chat.resolve_confirm (Chat.last_user_text messages)
                     (Chat.extracted plan))) as Hg.
    rewrite Hstep in Hg. destruct Hg as (s' & Hs' & Hin).
    destruct Hcases as [->|(-> & Hca & _)].
    + exists s'. repeat split; [assumption.. | now apply machine_edges_in_turn_edges].
    + exists "done". repeat split; [assumption|].
      apply done_in_turn_edges. rewrite Hca in Hs'. now injection Hs' as <-.
Qed.

Lemma chat_step_graph_witness :
  exists s',
    Chat.step
      (Chat.step_machine Chat.default_config "yes" (Props.contact_state "confirm_contact")
         (Props.only_confirm None) Props.no_notes (Some "yes")).1 = Some s'
    /\ In s' ["ask_email_phone"; "ask_time"; "confirm_contact"].
Proof.
  exact (proj1 chat_step_graph Chat.default_config "yes"
           (Props.contact_state "confirm_contact") (Props.only_confirm None)
           Props.no_notes (Some "yes") "confirm_contact" eq_refl).
Defined.

(** ** Done, and nothing but a created event leads there *)

Lemma done_in_machine_edges (s : string) :
  In "done" (Inv.machine_edges s) -> s = "done".
Proof.
  unfold Inv.machine_edges.
  destruct (String.eqb_spec s "ask_email_phone") as [->|N1];
    [simpl; intros [H|[H|[]]]; discriminate H|].
  destruct (String.eqb_spec s "confirm_contact") as [->|N2];
    [simpl; intros [H|[H|[H|[]]]]; discriminate H|].
  destruct (String.eqb_spec s "ask_time") as [->|N3];
    [simpl; intros [H|[H|[]]]; discriminate H|].
  destruct (String.eqb_spec s "ask_title") as [->|N4];
    [simpl; intros [H|[]]; discriminate H|].
  destruct (String.eqb_spec s "confirm_all") as [->|N5];
    [simpl; intros [H|[H|[]]]; discriminate H|].
  simpl. now intros [H|[]].
Qed.

(** X10. Whatever the step a turn starts from, whatever the planner, the
    speaker and the calendar do: when the session was not at done before
    the turn and is at done after it, the session is connected, the step
    machine left the state at confirm_all, the start time of that state
    parsed and the calendar returned an event for the request built from
    that state; the stored state is that state with the step done. *)
Theorem done_only_through_commit :
  forall cfg planner speaker calendar
         (sessions : gmap string (App.Session Chat.BookingState)) (sid : string)
         messages st',
    (forall st, Chat.stored_state sessions sid = Some st -> Chat.step st <> Some "done") ->
    Chat.stored_state
      (App.sessions_after
         (Chat.chat_stream cfg planner speaker calendar sessions sid messages)) sid
    = Some st' ->
    Chat.step st' = Some "done" ->
    exists tokens st1 dt created,
      App._get_tokens sessions sid = Some tokens
      /\ Chat.step st1 = Some "confirm_all"
      /\ Chat._parse_iso_datetime cfg (PyStr.or_else (Chat.start_iso st1) EmptyString) = Some dt
      /\ calendar (Chat.event_request cfg tokens st1 dt) = Return created
      /\ st' = Chat.set_step st1 (Some "done").
Proof.
  intros cfg planner speaker calendar sessions sid messages st' Hnot Hst' Hdone.
  destruct (chat_stream_outcome cfg planner speaker calendar sessions sid messages)
    as (stf & Hstf & Hcases).
  rewrite Hstf in Hst'. injection Hst' as ->.
  assert (H0 : Chat.step (Chat._load_state sessions sid).2 <> Some "done").
  { destruct (loaded_state_cases sessions sid) as [-> | Hl]; [discriminate | now apply Hnot]. }
  destruct Hcases as [->|(plan & _ & Hcases)]; [contradiction|].
  cbv zeta in Hcases.
  destruct Hcases as [->|(-> & Hca & tokens & dt & created & Ht & Hp & Hc)].
  - exfalso.
    pose proof (machine_step_graph cfg (Chat.last_user_text messages)
                  (Chat._load_state sessions sid).2
                  (Chat.extracted plan) (Chat.notes plan)
                  (Chat.resolve_confirm (Chat.last_user_text messages)
                     (Chat.extracted plan))) as Hg.
    destruct (Chat.step (Chat._load_state sessions sid).2) as [s|] eqn:Hs.
    + destruct Hg as (s' & Hs' & Hin). rewrite Hdone in Hs'. injection Hs' as <-.
      apply done_in_machine_edges in Hin. subst s. now apply H0.
    + rewrite Hg, Hs in Hdone. discriminate.
  - eexists tokens, _, dt, created. repeat split; eassumption.
Qed.

(** The theorem at the last turn of the sample booking. *)
Lemma done_only_through_commit_witness :
  exists tokens st1 dt created,
    App._get_tokens Props.run_titled "s1" = Some tokens
    /\ Chat.step st1 = Some "confirm_all"
    /\ Chat._parse_iso_datetime Chat.default_config
         (PyStr.or_else (Chat.start_iso st1) EmptyString) = Some dt
    /\ Props.calendar_ok (Chat.event_request Chat.default_config tokens st1 dt)
       = Return created
    /\ Chat.mkBookingState (Some "done") (Some "john.doe@example.com")
         (Some "+14155552671") (Some "2026-02-16T14:00:00-08:00")
         (Some "Scheduled Meeting")
       = Chat.set_step st1 (Some "done").
Proof.
  apply (done_only_through_commit Chat.default_config (Props.planner_confirm None)
           Props.speaker_echo Props.calendar_ok Props.run_titled "s1" (Props.say "Yes")).
  - intros st. rewrite run_titled_state. now intros [= <-].
  - exact run_booked_state.
  - reflexivity.
Defined.

(** X11. The confirmation of a turn is read after the title step too.  At
    ask_title, with the contact and a start time that parses in the state,
    a turn whose confirmation resolves to yes (the utterance sure, for one)
    sets the title and, in the same turn, calls the calendar for the state
    it has just moved to confirm_all; when the calendar returns an event the
    session is stored at done, without a turn at confirm_all. *)
Theorem title_turn_commits_on_yes :
  forall cfg planner speaker calendar
         (sessions : gmap string (App.Session Chat.BookingState)) (sid : string)
         sess tokens st messages plan dt created,
    sessions !! sid = Some sess ->
    App.google_tokens sess = Some tokens ->
    App.booking_state sess = Some st ->
    Chat.step st = Some "ask_title" ->
    PyStr.truthy (Chat.email st) = true ->
    PyStr.truthy (Chat.phone st) = true ->
    PyStr.truthy (Chat.start_iso st) = true ->
    Chat._parse_iso_datetime cfg (PyStr.or_else (Chat.start_iso st) EmptyString) = Some dt ->
    let user_text := Chat.last_user_text messages in
    Chat.llm_extract_and_validate planner user_text st = Return (Chat.a_plan plan) ->
    Chat.resolve_confirm user_text (Chat.extracted plan) = Some "yes" ->
    let r1 := Chat.step_machine cfg user_text st (Chat.extracted plan) (Chat.notes plan)
                (Some "yes") in
    App.stream_error (speaker user_text r1.1 r1.2) = None ->
    calendar (Chat.event_request cfg tokens r1.1 dt) = Return created ->
    Chat.step r1.1 = Some "confirm_all"
    /\ Chat.stored_state
         (App.sessions_after
            (Chat.chat_stream cfg planner speaker calendar sessions sid messages)) sid
       = Some (Chat.set_step r1.1 (Some "done")).
Proof.
  intros cfg planner speaker calendar sessions sid sess tokens st messages plan dt created
         Hs Ht Hb Hstep He Hp Hstart Hparse user_text Hplan Hyes r1 Hstream Hcal.
  pose proof (step_machine_ask_title cfg user_text st (Chat.extracted plan)
                (Chat.notes plan) (Some "yes") Hstep) as Hr1.
  fold r1 in Hr1.
  split; [now rewrite Hr1|].
  rewrite (chat_stream_connected _ _ _ _ _ _ _ _ _ _ Hs Ht Hb). cbv zeta.
  fold user_text. rewrite Hplan, Hyes. fold r1.
  rewrite sse_after_save. cbv zeta.
  rewrite stream_error_reply, Hstream.
  assert (Hguard : Chat.at_step r1.1 "confirm_all" && Chat.is_str (Some "yes") "yes"
                   && PyStr.truthy (Chat.start_iso r1.1) && PyStr.truthy (Chat.email r1.1)
                   && PyStr.truthy (Chat.phone r1.1) = true).
  { rewrite Hr1. cbn. now rewrite Hstart, He, Hp. }
  rewrite Hguard.
  assert (Hstart1 : Chat.start_iso r1.1 = Chat.start_iso st) by now rewrite Hr1.
  rewrite Hstart1, Hparse, Hcal. cbn [App.sessions_after].
  apply stored_save_state.
Qed.

(** The theorem at the utterance sure. *)
Lemma title_turn_commits_on_yes_witness :
  Chat.stored_state
    (App.sessions_after
       (Chat.chat_stream Chat.default_config (Props.planner_confirm None)
          Props.speaker_echo Props.calendar_ok
          (Props.store_with (Props.full_state "ask_title")) "s1" (Props.say "sure"))) "s1"
  = Some (Chat.mkBookingState (Some "done") (Some "john.doe@example.com")
            (Some "+14155552671") (Some "2026-02-16T14:00:00-08:00") (Some "sure")).
Proof.
  refine (proj2 (title_turn_commits_on_yes Chat.default_config (Props.planner_confirm None)
                   Props.speaker_echo Props.calendar_ok
                   (Props.store_with (Props.full_state "ask_title")) "s1" _
                   Props.sample_tokens (Props.full_state "ask_title") (Props.say "sure")
                   _ _ _ (lookup_singleton_eq _ _) eq_refl eq_refl eq_refl eq_refl eq_refl
                   eq_refl eq_refl eq_refl eq_refl eq_refl eq_refl)).
Defined.

(** ** The fields each step relies on *)

Lemma reachable_keeps_well_formed cfg
    (sessions : gmap string (App.Session Chat.BookingState)) :
  Props.reachable cfg sessions ->
  forall sid st, Chat.stored_state sessions sid = Some st -> Inv.well_formed cfg st = true.
Proof.
  induction 1 as [|sessions sid tokens _ IH
                  |planner speaker calendar sessions sid messages _ IH
                  |assistant booking sessions sid payload _ IH];
    intros sid' st Hst.
  - discriminate Hst.
  - apply (IH sid'). revert Hst. unfold Chat.stored_state, App.auth_callback, App.get_session.
    destruct (decide (sid = sid')) as [->|Hne].
    + now rewrite lookup_insert_eq.
    + now rewrite lookup_insert_ne.
  - destruct (decide (sid = sid')) as [<-|Hne].
    + destruct (chat_stream_outcome cfg planner speaker calendar sessions sid messages)
        as (stf & Hstf & Hcases).
      rewrite Hstf in Hst. injection Hst as ->.
      assert (H0 : Inv.well_formed cfg (Chat._load_state sessions sid).2 = true).
      { destruct (loaded_state_cases sessions sid) as [-> | Hl];
          [reflexivity | now apply (IH sid)]. }
      destruct Hcases as [->|(plan & _ & Hcases)]; [exact H0|].
      cbv zeta in Hcases.
      pose proof (machine_keeps_well_formed cfg (Chat.last_user_text messages) _
                    (Chat.extracted plan) (Chat.notes plan)
                    (Chat.resolve_confirm (Chat.last_user_text messages)
                       (Chat.extracted plan)) H0) as H1.
      destruct Hcases as [->|(-> & Hca & _)]; [exact H1|].
      revert H1. unfold Inv.well_formed. cbn [Chat.step Chat.set_step Chat.email Chat.phone
                                               Chat.start_iso Chat.title].
      now rewrite Hca.
    + apply (IH sid'). revert Hst. unfold Chat.stored_state, App.get_session.
      now rewrite chat_stream_other.
  - apply (IH sid'). revert Hst. unfold Chat.stored_state.
    now rewrite voice_keeps_booking_state.
Qed.

(** X12. In every store that the endpoints produce from the empty store,
    every stored state has a known step and the fields its step relies on:
    from confirm_contact on a non-empty email and phone, from ask_title on a
    non-empty start time that parses, from confirm_all on a title.  So the
    guards of the commit never fail there: at confirm_all, in a connected
    session, a turn that resolves to yes and whose reply is streamed to its
    end always parses the stored start time and enters the block that
    computes the end time and calls the calendar.  When the block returns
    an event, done is stored; when it raises (an end time past the year
    9999, or a call that fails) the store is as it was and the failure text
    is sent. *)
Theorem reachable_states_well_formed :
  (forall cfg (sessions : gmap string (App.Session Chat.BookingState)),
      Props.reachable cfg sessions ->
      forall sid st, Chat.stored_state sessions sid = Some st -> Inv.well_formed cfg st = true)
  /\ (forall cfg planner speaker calendar
             (sessions : gmap string (App.Session Chat.BookingState)) (sid : string)
             sess tokens st messages plan,
      Props.reachable cfg sessions ->
      sessions !! sid = Some sess ->
      App.google_tokens sess = Some tokens ->
      App.booking_state sess = Some st ->
      Chat.step st = Some "confirm_all" ->
      let user_text := Chat.last_user_text messages in
      Chat.llm_extract_and_validate planner user_text st = Return (Chat.a_plan plan) ->
      Chat.resolve_confirm user_text (Chat.extracted plan) = Some "yes" ->
      App.stream_error (speaker user_text st Chat.creating_msg) = None ->
      let r := Chat.chat_stream cfg planner speaker calendar sessions sid messages in
      exists dt,
        Chat._parse_iso_datetime cfg (PyStr.or_else (Chat.start_iso st) EmptyString) = Some dt
        /\ match calendar (Chat.event_request cfg tokens st dt) with
           | Return created =>
               Chat.stored_state (App.sessions_after r) sid
               = Some (Chat.set_step st (Some "done"))
           | Raise e =>
               App.sessions_after r = sessions
               /\ In (App.ev_delta (Chat.failed_msg e)) (App.events r)
           end).
Proof.
  split; [apply reachable_keeps_well_formed|].
  intros cfg planner speaker calendar sessions sid sess tokens st messages plan
         Hreach Hs Ht Hb Hstep user_text Hplan Hyes Hstream r.
  pose proof (reachable_keeps_well_formed cfg sessions Hreach sid st
                (stored_lookup _ _ _ _ Hs Hb)) as Hwf.
  unfold Inv.well_formed in Hwf. rewrite Hstep in Hwf. cbn in Hwf.
  apply andb_prop in Hwf as [Hwf _]. apply andb_prop in Hwf as [Hc Hp].
  apply andb_prop in Hc as [He Hph].
  unfold Inv.parses in Hp. destruct (Chat.start_iso st) as [x|] eqn:Hx; [|discriminate].
  apply andb_prop in Hp as [Hne Hparse].
  destruct (Chat._parse_iso_datetime cfg x) as [dt|] eqn:Hdt; [|discriminate].
  assert (Hor : PyStr.or_else (Some x) EmptyString = x).
  { unfold PyStr.or_else. now rewrite Hne. }
  exists dt. rewrite Hor. split; [exact Hdt|].
  subst r. rewrite (chat_stream_connected _ _ _ _ _ _ _ _ _ _ Hs Ht Hb). cbv zeta.
  fold user_text.
  rewrite Hplan, (step_machine_confirm_all _ _ _ _ _ _ Hstep), Hyes.
  cbn [Chat.is_str String.eqb Ascii.eqb Bool.eqb fst snd].
  rewrite sse_after_save. cbv zeta.
  rewrite stream_error_reply, Hstream, (chat_at_step_eq _ _ Hstep), Hx.
  cbn [PyStr.truthy]. rewrite Hne, He, Hph, Hor, Hdt.
  cbn [andb Chat.is_str String.eqb Ascii.eqb Bool.eqb].
  rewrite (save_state_same _ _ _ _ Hs Hb).
  destruct (calendar (Chat.event_request cfg tokens st dt)) as [created|e];
    cbn [App.sessions_after App.events].
  - apply stored_save_state.
  - split; [reflexivity|]. apply in_or_app. right. now left.
Qed.

(** The theorem at the store of the sample booking before its last turn. *)
Lemma reachable_states_well_formed_witness :
  Inv.well_formed Chat.default_config
    (Chat.mkBookingState (Some "confirm_all") (Some "john.doe@example.com")
       (Some "+14155552671") (Some "2026-02-16T14:00:00-08:00")
       (Some "Scheduled Meeting")) = true.
Proof.
  apply (proj1 reachable_states_well_formed Chat.default_config Props.run_titled)
    with (sid := "s1").
  - apply Props.reach_chat, Props.reach_chat, Props.reach_chat, Props.reach_chat,
      Props.reach_oauth, Props.reach_empty.
  - exact run_titled_state.
Defined.

(** ** The session store *)

Section StoreLaws.

Implicit Types (sessions : gmap string (App.Session Chat.BookingState)) (sid : string).
Implicit Types (st : Chat.BookingState).


Lemma session_frame_save sessions sid st :
  App.google_tokens (App.get_session (Chat._save_state sessions sid st) sid)
  = App.google_tokens (App.get_session sessions sid)
  /\ App.voice_history (App.get_session (Chat._save_state sessions sid st) sid)
     = App.voice_history (App.get_session sessions sid).
Proof. unfold Chat._save_state. rewrite get_session_insert. now split. Qed.

Lemma session_frame_load sessions sid :
  App.google_tokens (App.get_session (Chat._load_state sessions sid).1 sid)
  = App.google_tokens (App.get_session sessions sid)
  /\ App.voice_history (App.get_session (Chat._load_state sessions sid).1 sid)
     = App.voice_history (App.get_session sessions sid).
Proof.
  unfold Chat._load_state.
  destruct (App.booking_state _); cbn [fst]; rewrite get_session_insert; now split.
Qed.


End StoreLaws.



(** ** Turns that are not connected *)

(** X14. Without tokens a turn of the chat endpoint processes nothing: it
    sends the fixed text about the missing connection and the terminal
    event, whatever the utterance, and the planner, the speaker and the
    calendar are not consulted.  The session then holds the state it had,
    or the initial state when the session or its state did not exist
    before; a store that held a state for the session is left as it was. *)
Theorem not_connected_gate :
  forall cfg planner speaker calendar
         (sessions : gmap string (App.Session Chat.BookingState)) (sid : string) messages,
    App._get_tokens sessions sid = None ->
    let r := Chat.chat_stream cfg planner speaker calendar sessions sid messages in
    App.events r = [App.ev_delta Chat.not_connected_msg; App.ev_done]
    /\ App.error r = None
    /\ Chat.stored_state (App.sessions_after r) sid
       = Some (default Chat.initial_state (Chat.stored_state sessions sid))
    /\ App._get_tokens (App.sessions_after r) sid = None
    /\ (forall sess st, sessions !! sid = Some sess -> App.booking_state sess = Some st ->
                        App.sessions_after r = sessions).
Proof.
  intros cfg planner speaker calendar sessions sid messages Htok r. subst r.
  unfold Chat.chat_stream.
  pose proof (stored_load_state sessions sid) as Hst.
  pose proof (get_tokens_load_state sessions sid) as Ht.
  pose proof (loaded_state_cases sessions sid) as Hc.
  destruct (Chat._load_state sessions sid) as [s0 st0] eqn:Hl. cbn [fst snd] in *.
  rewrite Ht, Htok. cbn [App.events App.error App.sessions_after].
  repeat split.
  - rewrite Hst. f_equal. unfold Chat._load_state, Chat.stored_state in *.
    destruct (App.booking_state (App.get_session sessions sid)); now injection Hl as <- <-.
  - now rewrite Ht.
  - intros sess st Hs Hb. rewrite (load_state_stored _ _ _ _ Hs Hb) in Hl.
    now injection Hl as <- <-.
Qed.

(** The theorem at the first turn of a session that was never seen. *)
Lemma not_connected_gate_witness :
  App.events
    (Chat.chat_stream Chat.default_config Props.planner_timeout Props.speaker_echo
       Props.calendar_down ∅ "s9" (Props.say "hello"))
  = [App.ev_delta Chat.not_connected_msg; App.ev_done].
Proof.
  apply (not_connected_gate Chat.default_config Props.planner_timeout Props.speaker_echo
           Props.calendar_down ∅ "s9" (Props.say "hello")).
  reflexivity.
Defined.

(** ** What a chat turn leaves alone, and the shape of its stream *)

Section TurnFrame.

Variable cfg : Chat.Config.
Variable planner : string -> Chat.BookingState -> Chat.PlannerResponse.
Variable speaker : string -> Chat.BookingState -> string -> App.Stream.
Variable calendar : Chat.EventRequest -> result Chat.Created.

Implicit Types (sessions : gmap string (App.Session Chat.BookingState)) (sid : string).

Lemma chat_stream_session_frame sessions sid messages :
  let r := Chat.chat_stream cfg planner speaker calendar sessions sid messages in
  App.google_tokens (App.get_session (App.sessions_after r) sid)
  = App.google_tokens (App.get_session sessions sid)
  /\ App.voice_history (App.get_session (App.sessions_after r) sid)
     = App.voice_history (App.get_session sessions sid).
Proof.
  cbv zeta. unfold Chat.chat_stream.
  pose proof (session_frame_load sessions sid) as Hl.
  destruct (Chat._load_state sessions sid) as [s0 st0]. cbn [fst] in Hl.
  destruct (App._get_tokens s0 sid) as [tokens|]; [|exact Hl].
  destruct (Chat.llm_extract_and_validate _ _ _) as [[plan|j]|e]; [|exact Hl..].
  destruct (Chat.step_machine _ _ _ _ _ _) as [st1 planned].
  rewrite sse_after_save. cbv zeta.
  pose proof (session_frame_save s0 sid st1) as Hs.
  assert (Hsaved :
            App.google_tokens (App.get_session (Chat._save_state s0 sid st1) sid)
            = App.google_tokens (App.get_session sessions sid)
            /\ App.voice_history (App.get_session (Chat._save_state s0 sid st1) sid)
               = App.voice_history (App.get_session sessions sid)).
  { destruct Hs as [-> ->]. exact Hl. }
  destruct (App.stream_error _); [exact Hsaved|].
  destruct (_ && _); [|exact Hsaved].
  destruct (Chat._parse_iso_datetime _ _); [|exact Hsaved].
  destruct (calendar _); [|exact Hsaved].
  cbn [App.sessions_after].
  destruct (session_frame_save (Chat._save_state s0 sid st1) sid
              (Chat.set_step st1 (Some "done"))) as [-> ->].
  exact Hsaved.
Qed.

Lemma created_msg_nonempty created st :
  PyStr.nonempty (Chat.created_msg created st) = true.
Proof. reflexivity. Qed.

Lemma failed_msg_nonempty e : PyStr.nonempty (Chat.failed_msg e) = true.
Proof. reflexivity. Qed.

Lemma reply_deltas_nonempty user_text st planned :
  Forall (fun t => PyStr.nonempty t = true)
    (App.deltas (Chat.llm_stream_reply speaker user_text st planned)).
Proof.
  unfold Chat.llm_stream_reply. cbn [App.deltas].
  induction (App.deltas (speaker user_text st planned)) as [|t l IH]; [constructor|].
  cbn [List.filter]. destruct (PyStr.nonempty t) eqn:Ht; [now constructor | exact IH].
Qed.

Lemma chat_stream_framing sessions sid messages :
  let r := Chat.chat_stream cfg planner speaker calendar sessions sid messages in
  exists texts,
    Forall (fun t => PyStr.nonempty t = true) texts
    /\ App.events r
       = (map App.ev_delta texts
            ++ match App.error r with None => [App.ev_done] | Some _ => [] end)%list.
Proof.
  cbv zeta. unfold Chat.chat_stream.
  destruct (Chat._load_state sessions sid) as [s0 st0].
  destruct (App._get_tokens s0 sid) as [tokens|].
  2:{ exists [Chat.not_connected_msg]. split; [|reflexivity].
      now repeat constructor. }
  destruct (Chat.llm_extract_and_validate _ _ _) as [[plan|j]|e];
    [|exists []; split; [constructor | reflexivity]..].
  destruct (Chat.step_machine _ _ _ _ _ _) as [st1 planned].
  unfold Chat.sse. cbv zeta.
  pose proof (reply_deltas_nonempty (Chat.last_user_text messages) st1 planned) as Hd.
  set (ds := App.deltas (Chat.llm_stream_reply speaker (Chat.last_user_text messages)
                           st1 planned)) in *.
  destruct (App.stream_error _).
  { exists ds. split; [exact Hd|]. cbn [App.events App.error]. now rewrite app_nil_r. }
  destruct (Chat._load_state _ sid) as [s1 st2].
  destruct (_ && _).
  2:{ exists ds. split; [exact Hd | reflexivity]. }
  destruct (Chat._parse_iso_datetime _ _).
  2:{ exists (ds ++ [Chat.invalid_start_msg])%list. split.
      - apply Forall_app. split; [exact Hd | now repeat constructor].
      - cbn [App.events App.error]. rewrite map_app, <- app_assoc. reflexivity. }
  destruct (calendar _) as [created|e].
  - exists (ds ++ [Chat.created_msg created (Chat.set_step st2 (Some "done"))])%list. split.
    + apply Forall_app. split; [exact Hd|]. constructor; [|constructor].
      apply created_msg_nonempty.
    + cbn [App.events App.error]. rewrite map_app, <- app_assoc. reflexivity.
  - exists (ds ++ [Chat.failed_msg e])%list. split.
    + apply Forall_app. split; [exact Hd|]. constructor; [|constructor].
      apply failed_msg_nonempty.
    + cbn [App.events App.error]. rewrite map_app, <- app_assoc. reflexivity.
Qed.

End TurnFrame.

(** X15. A turn of the chat endpoint changes nothing but the booking state
    of its own session: the tokens and the voice history of that session
    are the ones it had, and every other session is left as it was,
    whatever the planner, the speaker and the calendar do. *)
Theorem chat_turn_frame :
  forall cfg planner speaker calendar
         (sessions : gmap string (App.Session Chat.BookingState)) (sid : string) messages,
    let r := Chat.chat_stream cfg planner speaker calendar sessions sid messages in
    App._get_tokens (App.sessions_after r) sid = App._get_tokens sessions sid
    /\ Voice.stored_history (App.sessions_after r) sid = Voice.stored_history sessions sid
    /\ (forall sid', sid <> sid' -> App.sessions_after r !! sid' = sessions !! sid').
Proof.
  intros cfg planner speaker calendar sessions sid messages r. subst r.
  destruct (chat_stream_session_frame cfg planner speaker calendar sessions sid messages)
    as [Ht Hh].
  split; [exact Ht|]. split; [exact Hh|].
  intros sid' Hne. now apply chat_stream_other.
Qed.

(** X16. The stream of a chat turn is a sequence of text deltas, none of
    them empty, closed by exactly one terminal event when the generator
    ends normally, and by none when the turn ends in an exception (of the
    planner, of the endpoint on a plan that is no dictionary, or of the
    speaker): the terminal event is always the last one and never appears
    twice. *)
Theorem chat_stream_ends_with_done :
  forall cfg planner speaker calendar
         (sessions : gmap string (App.Session Chat.BookingState)) (sid : string) messages,
    let r := Chat.chat_stream cfg planner speaker calendar sessions sid messages in
    exists texts,
      Forall (fun t => PyStr.nonempty t = true) texts
      /\ App.events r
         = (map App.ev_delta texts
              ++ match App.error r with None => [App.ev_done] | Some _ => [] end)%list.
Proof.
  intros cfg planner speaker calendar sessions sid messages.
  apply chat_stream_framing.
Qed.

(** ** Parsing the start time *)

Lemma rstrip_append (t x : string) :
  PyStr.rstrip x <> EmptyString -> PyStr.rstrip (t +:+ x) = t +:+ PyStr.rstrip x.
Proof.
  intros Hx. induction t as [|a t IH]; [reflexivity|].
  rewrite !append_cons. cbn [PyStr.rstrip]. rewrite IH.
  destruct (t +:+ PyStr.rstrip x) eqn:Hr; [|reflexivity].
  apply append_eq_empty in Hr as [_ Hr]. contradiction.
Qed.

Lemma lstrip_append (t : string) (c : ascii) (x : string) :
  PyStr.isspace c = false ->
  PyStr.lstrip (t +:+ String c x) = PyStr.lstrip t +:+ String c x.
Proof.
  intros Hc. induction t as [|a t IH].
  - cbn [PyStr.lstrip]. change (EmptyString +:+ String c x) with (String c x).
    cbn [PyStr.lstrip]. now rewrite Hc.
  - rewrite append_cons. cbn [PyStr.lstrip]. destruct (PyStr.isspace a); [exact IH|].
    now rewrite append_cons.
Qed.

Lemma last_char_append (t : string) (c : ascii) (x : string) :
  PyStr.last_char (t +:+ String c x) = PyStr.last_char (String c x).
Proof.
  induction t as [|a t IH]; [reflexivity|].
  rewrite append_cons. cbn [PyStr.last_char]. rewrite IH.
  destruct (t +:+ String c x) eqn:Ht; [|reflexivity].
  apply append_eq_empty in Ht as [_ Ht]. discriminate.
Qed.

Lemma drop_last_append (t : string) (c : ascii) :
  PyStr.drop_last (t +:+ String c EmptyString) = t.
Proof.
  induction t as [|a t IH]; [reflexivity|].
  rewrite append_cons. cbn [PyStr.drop_last]. rewrite IH.
  destruct (t +:+ String c EmptyString) eqn:Ht; [|reflexivity].
  apply append_eq_empty in Ht as [_ Ht]. discriminate.
Qed.

Lemma strip_append_token (t : string) (c : ascii) (x : string) :
  PyStr.isspace c = false -> PyStr.rstrip (String c x) = String c x ->
  PyStr.strip (t +:+ String c x) = PyStr.lstrip t +:+ String c x.
Proof.
  intros Hc Hr. unfold PyStr.strip.
  rewrite rstrip_append; rewrite Hr; [|discriminate].
  now apply lstrip_append.
Qed.

Lemma nonempty_append_cons (t : string) (c : ascii) (x : string) :
  PyStr.nonempty (t +:+ String c x) = true.
Proof. now destruct t. Qed.

Lemma parse_iso_datetime_Z cfg (t : string) :
  Chat._parse_iso_datetime cfg (t +:+ "Z")
  = Chat.fromisoformat cfg (PyStr.lstrip t +:+ "+00:00").
Proof.
  unfold Chat._parse_iso_datetime. rewrite nonempty_append_cons. cbn [negb].
  rewrite strip_append_token by reflexivity.
  unfold PyStr.endswith_char. rewrite last_char_append. cbn [PyStr.last_char].
  change (Ascii.eqb "Z" "Z") with true. cbv iota.
  now rewrite drop_last_append.
Qed.

Lemma parse_iso_datetime_offset cfg (t : string) :
  Chat._parse_iso_datetime cfg (t +:+ "+00:00")
  = Chat.fromisoformat cfg (PyStr.lstrip t +:+ "+00:00").
Proof.
  unfold Chat._parse_iso_datetime. rewrite nonempty_append_cons. cbn [negb].
  rewrite strip_append_token by reflexivity.
  unfold PyStr.endswith_char. rewrite last_char_append. cbn [PyStr.last_char].
  change (Ascii.eqb "0" "Z") with false. reflexivity.
Qed.

Lemma parse_iso_datetime_strip cfg (s : string) :
  PyStr.strip s <> EmptyString ->
  Chat._parse_iso_datetime cfg (PyStr.strip s) = Chat._parse_iso_datetime cfg s.
Proof.
  intros Hne. unfold Chat._parse_iso_datetime. rewrite strip_idem.
  destruct (PyStr.strip s) eqn:Hs; [contradiction|].
  cbn [PyStr.nonempty negb]. destruct s; [discriminate Hs | reflexivity].
Qed.

Lemma parse_iso_datetime_plain cfg (s : string) (c : ascii) :
  PyStr.last_char (PyStr.strip s) = Some c -> c <> "Z"%char ->
  Chat._parse_iso_datetime cfg s = Chat.fromisoformat cfg (PyStr.strip s).
Proof.
  intros Hc Hne. unfold Chat._parse_iso_datetime.
  destruct s as [|a s']; [discriminate Hc|]. cbn [PyStr.nonempty negb].
  unfold PyStr.endswith_char. rewrite Hc.
  destruct (Ascii.eqb_spec c "Z"); [contradiction | reflexivity].
Qed.

(** X18. What the start-time parser hands to [fromisoformat].  A text
    ending in a capital Z is handed over with +00:00 in place of the Z,
    whatever precedes the Z, so it parses exactly as that text does (after
    a bare date this is not an offset: the sample parser reads
    2026-02-16+00:00 as a naive midnight).  A text that does not end in Z
    is handed over trimmed and otherwise unchanged.  Blanks around the text
    do not matter, and the empty text gives None without the parser being
    consulted. *)
Theorem start_time_spellings :
  forall (cfg : Chat.Config) (s : string),
    Chat._parse_iso_datetime cfg (s +:+ "Z")
    = Chat.fromisoformat cfg (PyStr.lstrip s +:+ "+00:00")
    /\ Chat._parse_iso_datetime cfg (s +:+ "Z")
       = Chat._parse_iso_datetime cfg (s +:+ "+00:00")
    /\ (forall c, PyStr.last_char (PyStr.strip s) = Some c -> c <> "Z"%char ->
                  Chat._parse_iso_datetime cfg s = Chat.fromisoformat cfg (PyStr.strip s))
    /\ (PyStr.strip s <> EmptyString ->
        Chat._parse_iso_datetime cfg (PyStr.strip s) = Chat._parse_iso_datetime cfg s)
    /\ Chat._parse_iso_datetime cfg EmptyString = None.
Proof.
  intros cfg s. split; [apply parse_iso_datetime_Z|].
  split; [now rewrite parse_iso_datetime_Z, parse_iso_datetime_offset|].
  split; [apply parse_iso_datetime_plain|].
  split; [apply parse_iso_datetime_strip | reflexivity].
Qed.

(** The theorem at a time of day followed by Z, which becomes the offset
    zero, and at a bare date followed by Z, which becomes a naive midnight. *)
Lemma start_time_spellings_witness :
  Datetime.tzinfo <$> Chat._parse_iso_datetime Chat.default_config "2026-02-16T14:00:00Z"
  = Some (Some 0%Z)
  /\ Datetime.tzinfo <$> Chat._parse_iso_datetime Chat.default_config "2026-02-16Z"
     = Some None.
Proof.
  split.
  - change "2026-02-16T14:00:00Z" with ("2026-02-16T14:00:00" +:+ "Z").
    rewrite (proj1 (proj2 (start_time_spellings Chat.default_config
                             "2026-02-16T14:00:00"))).
    vm_compute. reflexivity.
  - change "2026-02-16Z" with ("2026-02-16" +:+ "Z").
    rewrite (proj1 (proj2 (start_time_spellings Chat.default_config "2026-02-16"))).
    vm_compute. reflexivity.
Defined.

(** ** Collecting the contact *)

Lemma step_machine_ask_contact cfg user_text (st : Chat.BookingState) ex nt
    (confirm : value) :
  Chat.step st = Some "ask_email_phone" ->
  (Chat.step_machine cfg user_text st ex nt confirm).1 =
  let st1 :=
    match Chat.accepted (Chat.email_ok ex) (Chat.ex_email ex) with
    | Some e => Chat.set_email st (Some (PyStr.lower (PyStr.strip e)))
    | None => st
    end in
  let st2 :=
    match Chat.accepted (Chat.phone_ok ex) (Chat.ex_phone ex) with
    | Some p => Chat.set_phone st1 (Some (PyStr.take 40 (PyStr.strip p)))
    | None => st1
    end in
  if PyStr.truthy (Chat.email st2) && PyStr.truthy (Chat.phone st2)
  then Chat.set_step st2 (Some "confirm_contact") else st2.
Proof.
  intros Hstep. unfold Chat.step_machine. rewrite (chat_at_step_eq _ _ Hstep). cbv zeta.
  set (st2 := match Chat.accepted (Chat.phone_ok ex) _ with Some _ => _ | None => _ end).
  destruct (PyStr.truthy (Chat.email st2)), (PyStr.truthy (Chat.phone st2));
    cbn [negb orb andb]; try reflexivity;
    now destruct (_ || _).
Qed.

(** X19. At ask_email_phone the step advances exactly when, after the
    writes of the turn, both the email and the phone are non-empty, and it
    stays otherwise; the start time and the title are not touched.  The two
    values need not come in one message: an email accepted in one turn is
    kept, and a phone accepted in a later turn then completes the step. *)
Theorem contact_step_advances_iff :
  forall cfg user_text (st : Chat.BookingState) ex nt (confirm : value),
    Chat.step st = Some "ask_email_phone" ->
    let st' := (Chat.step_machine cfg user_text st ex nt confirm).1 in
    (Chat.step st' = Some "confirm_contact"
     <-> PyStr.truthy (Chat.email st') = true /\ PyStr.truthy (Chat.phone st') = true)
    /\ (Chat.step st' <> Some "confirm_contact" -> Chat.step st' = Some "ask_email_phone")
    /\ Chat.start_iso st' = Chat.start_iso st
    /\ Chat.title st' = Chat.title st
    /\ (forall e p user_text2 ex2 nt2 (confirm2 : value),
        Chat.accepted (Chat.email_ok ex) (Chat.ex_email ex) = Some e ->
        Chat.accepted (Chat.phone_ok ex) (Chat.ex_phone ex) = None ->
        PyStr.truthy (Chat.phone st) = false ->
        Chat.accepted (Chat.email_ok ex2) (Chat.ex_email ex2) = None ->
        Chat.accepted (Chat.phone_ok ex2) (Chat.ex_phone ex2) = Some p ->
        PyStr.nonempty (PyStr.lower (PyStr.strip e)) = true ->
        PyStr.nonempty (PyStr.take 40 (PyStr.strip p)) = true ->
        Chat.step st' = Some "ask_email_phone"
        /\ Chat.email st' = Some (PyStr.lower (PyStr.strip e))
        /\ (Chat.step_machine cfg user_text2 st' ex2 nt2 confirm2).1
           = Chat.set_step
               (Chat.set_phone st' (Some (PyStr.take 40 (PyStr.strip p))))
               (Some "confirm_contact")).
Proof.
  intros cfg user_text st ex nt confirm Hstep st'.
  assert (Hst' : st' = _) by exact (step_machine_ask_contact cfg user_text st ex nt
                                      confirm Hstep).
  cbv zeta in Hst'.
  split; [|split; [|split; [|split]]].
  - rewrite Hst'.
    destruct (Chat.accepted (Chat.email_ok ex) _), (Chat.accepted (Chat.phone_ok ex) _);
      cbn [Chat.email Chat.phone Chat.set_email Chat.set_phone];
      match goal with
      | |- context [PyStr.truthy ?a && PyStr.truthy ?b] =>
          destruct (PyStr.truthy a) eqn:Ha, (PyStr.truthy b) eqn:Hb
      end;
      cbn [andb Chat.step Chat.email Chat.phone Chat.set_step Chat.set_email Chat.set_phone];
      rewrite ?Ha, ?Hb, ?Hstep; split; try (intros [? ?]); try intros ?;
      (reflexivity || discriminate || (split; reflexivity)).
  - rewrite Hst'.
    destruct (Chat.accepted (Chat.email_ok ex) _), (Chat.accepted (Chat.phone_ok ex) _);
      destruct (_ && _); cbn [Chat.step Chat.set_step Chat.set_email Chat.set_phone];
      intros H; (exact Hstep || now contradiction H).
  - rewrite Hst'.
    destruct (Chat.accepted (Chat.email_ok ex) _), (Chat.accepted (Chat.phone_ok ex) _);
      destruct (_ && _); reflexivity.
  - rewrite Hst'.
    destruct (Chat.accepted (Chat.email_ok ex) _), (Chat.accepted (Chat.phone_ok ex) _);
      destruct (_ && _); reflexivity.
  - intros e p user_text2 ex2 nt2 confirm2 He Hp Hnop He2 Hp2 Hne Hnp.
    assert (Hone : st' = Chat.set_email st (Some (PyStr.lower (PyStr.strip e)))).
    { rewrite Hst', He, Hp. cbn [Chat.email Chat.phone Chat.set_email].
      rewrite Hnop. now rewrite andb_false_r. }
    assert (Hstep' : Chat.step st' = Some "ask_email_phone") by now rewrite Hone.
    split; [exact Hstep'|]. split; [now rewrite Hone|].
    rewrite (step_machine_ask_contact cfg user_text2 st' ex2 nt2 confirm2 Hstep').
    cbv zeta. rewrite He2, Hp2. cbn [Chat.email Chat.phone Chat.set_phone].
    rewrite Hone at 1. cbn [Chat.email Chat.set_email PyStr.truthy].
    now rewrite Hne, Hnp.
Qed.

(** The theorem at an email given in one message and a phone in the next. *)
Lemma contact_step_advances_iff_witness :
  Chat.step
    (Chat.step_machine Chat.default_config "+1 415 555 2671"
       (Chat.step_machine Chat.default_config "john@example.com" Chat.initial_state
          (Chat.mkExtracted (Some "John@Example.com") true None false None false None None)
          Props.no_notes None).1
       (Chat.mkExtracted None false (Some "+1 415 555 2671") true None false None None)
       Props.no_notes None).1
  = Some "confirm_contact".
Proof.
  destruct (contact_step_advances_iff Chat.default_config "john@example.com"
              Chat.initial_state
              (Chat.mkExtracted (Some "John@Example.com") true None false None false
                 None None)
              Props.no_notes None eq_refl) as (_ & _ & _ & _ & H).
  destruct (H "John@Example.com" "+1 415 555 2671" "+1 415 555 2671"
              (Chat.mkExtracted None false (Some "+1 415 555 2671") true None false
                 None None)
              Props.no_notes None eq_refl eq_refl eq_refl eq_refl eq_refl eq_refl eq_refl)
    as (_ & _ & ->).
  reflexivity.
Defined.

(** ** When the calendar is consulted *)

Lemma is_str_false (v : value) (name : string) :
  v <> Some name -> Chat.is_str v name = false.
Proof.
  unfold Chat.is_str. destruct v as [s|]; [|reflexivity].
  intros Hne. apply String.eqb_neq. congruence.
Qed.

Lemma machine_not_confirm_all cfg user_text (st : Chat.BookingState) ex nt
    (confirm : value) :
  Chat.step st <> Some "ask_title" -> Chat.step st <> Some "confirm_all" ->
  Chat.at_step (Chat.step_machine cfg user_text st ex nt confirm).1 "confirm_all" = false.
Proof.
  intros Ht Hc.
  pose proof (machine_step_graph cfg user_text st ex nt confirm) as Hg.
  destruct (Chat.step st) as [s|] eqn:Hs.
  2:{ rewrite Hg. unfold Chat.at_step. now rewrite Hs. }
  destruct Hg as (s' & Hs' & Hin). rewrite (chat_at_step _ _ _ Hs').
  apply String.eqb_neq. intros ->. unfold Inv.machine_edges in Hin.
  destruct (String.eqb_spec s "ask_email_phone");
    [cbn in Hin; intuition discriminate|].
  destruct (String.eqb_spec s "confirm_contact");
    [cbn in Hin; intuition discriminate|].
  destruct (String.eqb_spec s "ask_time");
    [cbn in Hin; intuition discriminate|].
  destruct (String.eqb_spec s "ask_title") as [->|]; [now contradiction Ht|].
  destruct (String.eqb_spec s "confirm_all") as [->|]; [now contradiction Hc|].
  cbn in Hin. destruct Hin as [->|[]]. now contradiction Hc.
Qed.

(** X20. The calendar is consulted only by a turn that finds the stored
    step at ask_title or confirm_all and whose confirmation resolves to
    yes: for every other turn the response and the store are the same
    whatever the calendar would have answered. *)
Theorem calendar_only_when_confirmed :
  forall cfg planner speaker calendar calendar'
         (sessions : gmap string (App.Session Chat.BookingState)) (sid : string) messages,
    let st0 := (Chat._load_state sessions sid).2 in
    let user_text := Chat.last_user_text messages in
    (Chat.step st0 <> Some "ask_title" /\ Chat.step st0 <> Some "confirm_all")
    \/ (forall plan,
           Chat.llm_extract_and_validate planner user_text st0 = Return (Chat.a_plan plan) ->
           Chat.resolve_confirm user_text (Chat.extracted plan) <> Some "yes") ->
    Chat.chat_stream cfg planner speaker calendar sessions sid messages
    = Chat.chat_stream cfg planner speaker calendar' sessions sid messages.
Proof.
  intros cfg planner speaker calendar calendar' sessions sid messages st0 user_text H.
  subst st0 user_text. unfold Chat.chat_stream.
  destruct (Chat._load_state sessions sid) as [s0 st0]. cbn [snd] in H.
  destruct (App._get_tokens s0 sid) as [tokens|]; [|reflexivity].
  destruct (Chat.llm_extract_and_validate _ _ _) as [[plan|j]|e] eqn:Hplan; [|reflexivity..].
  pose proof (machine_not_confirm_all cfg (Chat.last_user_text messages) st0
                (Chat.extracted plan) (Chat.notes plan)
                (Chat.resolve_confirm (Chat.last_user_text messages) (Chat.extracted plan)))
    as Hstay.
  destruct (Chat.step_machine _ _ _ _ _ _) as [st1 planned]. cbn [fst] in Hstay.
  rewrite !sse_after_save. cbv zeta.
  destruct (App.stream_error _); [reflexivity|].
  assert (Hguard : Chat.at_step st1 "confirm_all"
                   && Chat.is_str (Chat.resolve_confirm (Chat.last_user_text messages)
                                     (Chat.extracted plan)) "yes" = false).
  { destruct H as [[Ht Hc]|Hno].
    - now rewrite (Hstay Ht Hc).
    - rewrite (is_str_false _ _ (Hno plan eq_refl)). apply andb_false_r. }
  rewrite Hguard. reflexivity.
Qed.

(** The theorem at a turn that gives the start time. *)
Lemma calendar_only_when_confirmed_witness :
  Chat.chat_stream Chat.default_config
    (Props.planner_of (Props.start_marked_valid "2026-02-16T14:00:00-08:00"))
    Props.speaker_echo Props.calendar_ok Props.run_contact_confirmed "s1"
    (Props.say "yes, Feb 16 2pm")
  = Chat.chat_stream Chat.default_config
      (Props.planner_of (Props.start_marked_valid "2026-02-16T14:00:00-08:00"))
      Props.speaker_echo Props.calendar_down Props.run_contact_confirmed "s1"
      (Props.say "yes, Feb 16 2pm").
Proof.
  apply calendar_only_when_confirmed. left. vm_compute. split; discriminate.
Defined.

(** X21. The state of a turn is stored before the reply is streamed.  When
    the speaker raises in mid-stream, the store holds the state the step
    machine produced, the deltas sent so far are the only events (there is
    no terminal event), the exception is the speaker's, and no event is
    created, even on a confirmed turn at confirm_all: the step stays there,
    so that a repeated confirmation can still create the event. *)
Theorem speaker_failure_keeps_state :
  forall cfg planner speaker calendar
         (sessions : gmap string (App.Session Chat.BookingState)) (sid : string)
         sess tokens (st : Chat.BookingState) messages plan e,
    sessions !! sid = Some sess ->
    App.google_tokens sess = Some tokens ->
    App.booking_state sess = Some st ->
    let user_text := Chat.last_user_text messages in
    Chat.llm_extract_and_validate planner user_text st = Return (Chat.a_plan plan) ->
    let confirm := Chat.resolve_confirm user_text (Chat.extracted plan) in
    let m := Chat.step_machine cfg user_text st (Chat.extracted plan) (Chat.notes plan)
               confirm in
    App.stream_error (speaker user_text m.1 m.2) = Some e ->
    let r := Chat.chat_stream cfg planner speaker calendar sessions sid messages in
    App.error r = Some e
    /\ App.events r
       = map App.ev_delta
           (List.filter PyStr.nonempty (App.deltas (speaker user_text m.1 m.2)))
    /\ App.sessions_after r = Chat._save_state sessions sid m.1
    /\ Chat.stored_state (App.sessions_after r) sid = Some m.1
    /\ (Chat.step st = Some "confirm_all" -> confirm = Some "yes" ->
        Chat.stored_state (App.sessions_after r) sid = Some st).
Proof.
  intros cfg planner speaker calendar sessions sid sess tokens st messages plan e
         Hs Ht Hb user_text Hplan confirm m Herr r.
  subst r. rewrite (chat_stream_connected _ _ _ _ _ _ _ _ _ _ Hs Ht Hb). cbv zeta.
  fold user_text. rewrite Hplan. fold confirm. fold m.
  unfold Chat.sse. cbv zeta. rewrite stream_error_reply, Herr.
  cbn [App.error App.events App.sessions_after Chat.llm_stream_reply App.deltas].
  split; [reflexivity|]. split; [reflexivity|]. split; [reflexivity|].
  split; [apply stored_save_state|].
  intros Hstep Hyes. rewrite stored_save_state. f_equal. subst m.
  rewrite (step_machine_confirm_all _ _ _ _ _ _ Hstep), Hyes. reflexivity.
Qed.

(** The theorem at a confirmed turn whose reply breaks. *)
Lemma speaker_failure_keeps_state_witness :
  Chat.stored_state
    (App.sessions_after
       (Chat.chat_stream Chat.default_config (Props.planner_confirm None)
          Inv.speaker_breaks Props.calendar_ok
          (Props.store_with (Props.full_state "confirm_all")) "s1" (Props.say "yes")))
    "s1"
  = Some (Props.full_state "confirm_all").
Proof.
  destruct (speaker_failure_keeps_state Chat.default_config (Props.planner_confirm None)
              Inv.speaker_breaks Props.calendar_ok
              (Props.store_with (Props.full_state "confirm_all")) "s1" _
              Props.sample_tokens (Props.full_state "confirm_all") (Props.say "yes")
              (Chat.mkPlan (Props.only_confirm None) Props.no_notes)
              "APIConnectionError: stream reset"
              (lookup_singleton_eq _ _) eq_refl eq_refl eq_refl eq_refl)
    as (_ & _ & _ & _ & H).
  apply H; reflexivity.
Defined.

(** ** The turns of the voice front-end *)

Lemma last20_app (l k : list App.Message) :
  Voice.last20 (Voice.last20 l ++ k) = Voice.last20 (l ++ k).
Proof.
  unfold Voice.last20.
  rewrite <- (drop_app_le l k (List.length l - 20)) by lia.
  rewrite drop_drop. f_equal.
  rewrite length_drop, !length_app. lia.
Qed.

Lemma fold_append_bounded (ms h : list App.Message) :
  fold_left Voice.append_bounded ms (Voice.last20 h) = Voice.last20 (h ++ ms).
Proof.
  revert h. induction ms as [|m ms IH]; intros h.
  - now rewrite app_nil_r.
  - cbn [fold_left]. unfold Voice.append_bounded at 2. rewrite last20_app, IH.
    now rewrite <- app_assoc.
Qed.

Lemma append_bounded_not_nil (h : list App.Message) (m : App.Message) :
  Voice.append_bounded h m <> [].
Proof.
  intros H. pose proof (last_append_bounded h m) as Hl. rewrite H in Hl. discriminate.
Qed.

Section VoiceTurn.

Context {BS : Type}.
Variable assistant : list App.Message -> App.Stream.
Variable booking : list App.Message -> App.Tokens -> result Voice.Booked.

Implicit Types (sessions : gmap string (App.Session BS)) (sid : string).

Lemma set_history_get_history sessions sid (h : list App.Message) :
  Voice.set_history (Voice._get_history sessions sid).1 sid h
  = Voice.set_history sessions sid h.
Proof.
  unfold Voice._get_history, Voice.set_history. cbn [fst].
  now rewrite get_session_insert, insert_insert_eq.
Qed.

Lemma set_history_twice sessions sid (h k : list App.Message) :
  Voice.set_history (Voice.set_history sessions sid h) sid k
  = Voice.set_history sessions sid k.
Proof.
  unfold Voice.set_history. now rewrite get_session_insert, insert_insert_eq.
Qed.

Lemma get_tokens_set_history sessions sid sid' (h : list App.Message) :
  App._get_tokens (Voice.set_history sessions sid h) sid' = App._get_tokens sessions sid'.
Proof.
  unfold App._get_tokens, Voice.set_history, App.get_session.
  destruct (decide (sid = sid')) as [->|Hne].
  - now rewrite lookup_insert_eq.
  - now rewrite lookup_insert_ne.
Qed.

Lemma lookup_set_history sessions sid sid' (h : list App.Message) :
  sid <> sid' -> Voice.set_history sessions sid h !! sid' = sessions !! sid'.
Proof. intros Hne. unfold Voice.set_history. now rewrite lookup_insert_ne. Qed.

(** A turn with an utterance: the user message is recorded, then the
    credentials are looked up. *)
Lemma voice_turn_eq sessions sid (payload : Voice.Payload) :
  PyStr.nonempty (Inv.voice_user_text payload) = true ->
  Voice.voice_chat_stream assistant booking sessions sid payload =
  let h1 := Voice.append_bounded (Voice.stored_history sessions sid)
              (App.mkMessage "user" (Inv.voice_user_text payload)) in
  let s1 := Voice.set_history sessions sid h1 in
  match App._get_tokens sessions sid with
  | None =>
      App.mkResponse s1
        [App.ev_delta Voice.not_connected_msg; App.ev_final_text Voice.not_connected_msg;
         App.ev_done] None
  | Some tokens => Voice.sse assistant booking tokens s1 sid h1
  end.
Proof.
  intros Hu. unfold Voice.voice_chat_stream. cbv zeta.
  fold (Inv.voice_user_text payload). rewrite Hu. cbn [negb].
  pose proof (set_history_get_history sessions sid) as Hset.
  unfold Voice._get_history in *. cbn [fst] in Hset.
  fold (Voice.stored_history sessions sid).
  rewrite Hset, get_tokens_set_history. reflexivity.
Qed.

Lemma voice_turn_tokens sessions sid sid' (payload : Voice.Payload) :
  App._get_tokens
    (App.sessions_after (Voice.voice_chat_stream assistant booking sessions sid payload))
    sid'
  = App._get_tokens sessions sid'.
Proof.
  destruct (PyStr.nonempty (Inv.voice_user_text payload)) eqn:Hu.
  2:{ unfold Voice.voice_chat_stream. cbv zeta.
      fold (Inv.voice_user_text payload). now rewrite Hu. }
  rewrite (voice_turn_eq _ _ _ Hu). cbv zeta.
  destruct (App._get_tokens sessions sid) as [tokens|];
    [|cbn [App.sessions_after]; apply get_tokens_set_history].
  unfold Voice.sse. cbv zeta.
  destruct (App.stream_error _);
    [cbn [App.sessions_after]; apply get_tokens_set_history|].
  destruct (PyStr.contains _ _); [destruct (booking _ tokens)|];
    cbn [App.sessions_after]; now rewrite !get_tokens_set_history.
Qed.

Lemma voice_turn_other sessions sid sid' (payload : Voice.Payload) :
  sid <> sid' ->
  App.sessions_after (Voice.voice_chat_stream assistant booking sessions sid payload) !! sid'
  = sessions !! sid'.
Proof.
  intros Hne.
  destruct (PyStr.nonempty (Inv.voice_user_text payload)) eqn:Hu.
  2:{ unfold Voice.voice_chat_stream. cbv zeta.
      fold (Inv.voice_user_text payload). now rewrite Hu. }
  rewrite (voice_turn_eq _ _ _ Hu). cbv zeta.
  destruct (App._get_tokens sessions sid) as [tokens|];
    [|cbn [App.sessions_after]; now apply lookup_set_history].
  unfold Voice.sse. cbv zeta.
  destruct (App.stream_error _);
    [cbn [App.sessions_after]; now apply lookup_set_history|].
  destruct (PyStr.contains _ _); [destruct (booking _ tokens)|];
    cbn [App.sessions_after]; now rewrite !lookup_set_history.
Qed.

End VoiceTurn.

(** C9. In the voice front-end the history is a sliding window of the 20
    most recent entries.  Every append is followed by the cut: the result
    has at most 20 entries, it is the appended list without its oldest
    entries (those beyond 20), in the same order, and it ends with the new
    entry.  After a turn of the endpoint the stored history is exactly such
    a window: with an utterance, the 20 most recent entries of the old
    history followed by the user message and, when the assistant's reply
    was streamed to its end, by that reply, in this order (only a booking
    that succeeded empties it); without an utterance the store is as it
    was.  So a stored history never has more than 20 entries. *)
Theorem history_sliding_window :
  (forall (history : list App.Message) (m : App.Message),
      let full := (history ++ [m])%list in
      let kept := Voice.append_bounded history m in
      List.length kept = Nat.min 20 (List.length full)
      /\ full = (take (List.length full - 20) full ++ kept)%list
      /\ last kept = Some m)
  /\ (forall (BS : Type) assistant booking
             (sessions : gmap string (App.Session BS)) (sid : string)
             (payload : Voice.Payload),
        let r := Voice.voice_chat_stream assistant booking sessions sid payload in
        let old := Voice.stored_history sessions sid in
        let new := Voice.stored_history (App.sessions_after r) sid in
        let user := App.mkMessage "user" (Inv.voice_user_text payload) in
        let h1 := Voice.append_bounded old user in
        let text :=
          String.concat EmptyString
            (List.filter PyStr.nonempty (App.deltas (assistant h1))) in
        let reply := App.mkMessage "assistant" text in
        let h2 := Voice.append_bounded h1 reply in
        (Inv.voice_user_text payload = EmptyString -> App.sessions_after r = sessions)
        /\ (PyStr.nonempty (Inv.voice_user_text payload) = true ->
            new = match App._get_tokens sessions sid with
                  | None => h1
                  | Some tokens =>
                      match App.stream_error (assistant h1) with
                      | Some _ => h1
                      | None =>
                          if PyStr.contains "CONFIRMED" text then
                            match booking h2 tokens with
                            | Return _ => []
                            | Raise _ => h2
                            end
                          else h2
                      end
                  end)
        /\ (let full := (old ++ [user])%list in
            h1 = drop (List.length full - 20) full
            /\ full = (take (List.length full - 20) full ++ h1)%list
            /\ List.length h1 = Nat.min 20 (List.length full))
        /\ (let full := (old ++ [user; reply])%list in
            h2 = drop (List.length full - 20) full
            /\ full = (take (List.length full - 20) full ++ h2)%list
            /\ List.length h2 = Nat.min 20 (List.length full))
        /\ (App.sessions_after r = sessions \/ List.length new <= 20)).
Proof.
  split.
  - intros history m full kept. subst full kept. repeat split.
    + apply length_last20.
    + unfold Voice.append_bounded, Voice.last20. now rewrite take_drop.
    + apply last_append_bounded.
  - intros BS assistant booking sessions sid payload r old new user h1 text reply h2.
    split; [|split; [|split; [|split]]].
    + intros Hu. subst r. unfold Voice.voice_chat_stream. cbv zeta.
      fold (Inv.voice_user_text payload). now rewrite Hu.
    + intros Hu. subst new r. rewrite (voice_turn_eq _ _ _ _ _ Hu). cbv zeta.
      fold old. fold user. fold h1.
      destruct (App._get_tokens sessions sid) as [tokens|];
        [|cbn [App.sessions_after]; apply stored_set_history].
      unfold Voice.sse. cbv zeta. fold text. fold reply. fold h2.
      destruct (App.stream_error (assistant h1));
        [cbn [App.sessions_after]; apply stored_set_history|].
      destruct (PyStr.contains "CONFIRMED" text); [destruct (booking h2 tokens)|];
        cbn [App.sessions_after]; now rewrite !stored_set_history.
    + cbv zeta. subst h1. unfold Voice.append_bounded, Voice.last20.
      split; [reflexivity|]. split; [now rewrite take_drop|].
      rewrite length_drop. lia.
    + cbv zeta.
      assert (Hh2 : h2 = Voice.last20 (old ++ [user; reply])).
      { subst h2 h1. unfold Voice.append_bounded. rewrite last20_app, <- app_assoc.
        reflexivity. }
      rewrite Hh2. unfold Voice.last20.
      split; [reflexivity|]. split; [now rewrite take_drop|].
      rewrite length_drop. lia.
    + apply voice_turn_bounded.
Qed.

(** The theorem at a full history that receives a turn: the two oldest
    entries leave, the rest keeps its order. *)
Lemma history_sliding_window_witness :
  Voice.stored_history
    (App.sessions_after
       (Voice.voice_chat_stream (Inv.assistant_says "Which " "day?") Inv.booking_ok
          (Inv.voice_store (repeat (Inv.msg 0) 2 ++ repeat (Inv.msg 1) 18)) "v1"
          (Inv.user_says "hello")))
    "v1"
  = (repeat (Inv.msg 1) 18
       ++ [App.mkMessage "user" "hello"; App.mkMessage "assistant" "Which day?"])%list.
Proof.
  destruct (proj2 history_sliding_window Chat.BookingState
              (Inv.assistant_says "Which " "day?") Inv.booking_ok
              (Inv.voice_store (repeat (Inv.msg 0) 2 ++ repeat (Inv.msg 1) 18)) "v1"
              (Inv.user_says "hello")) as (_ & H & _).
  cbv zeta in H. rewrite H; [|reflexivity]. vm_compute. reflexivity.
Defined.

(** X22. Which text a voice request is about: when the body carries a
    non-empty message list, the content of its last message is the
    utterance and the text field is never read; and a request whose
    utterance is empty or blank is answered with the fixed request to
    repeat, without touching the store, creating a session or consulting
    the assistant. *)
Theorem voice_utterance_selection :
  forall (BS : Type) assistant booking (sessions : gmap string (App.Session BS))
         (sid : string) (payload : Voice.Payload),
    (Voice.p_messages payload <> [] ->
     forall t : value,
       Voice.voice_chat_stream assistant booking sessions sid
         (Voice.mkPayload (Voice.p_messages payload) t)
       = Voice.voice_chat_stream assistant booking sessions sid payload)
    /\ (Inv.voice_user_text payload = EmptyString ->
        Voice.voice_chat_stream assistant booking sessions sid payload
        = App.mkResponse sessions
            [App.ev_delta Voice.no_input_msg; App.ev_final_text Voice.no_input_msg;
             App.ev_done] None).
Proof.
  intros BS assistant booking sessions sid payload. split.
  - intros Hne t. unfold Voice.voice_chat_stream. cbn [Voice.p_messages Voice.p_text].
    destruct (last (Voice.p_messages payload)) eqn:Hl; [reflexivity|].
    apply last_None in Hl. contradiction.
  - intros Hu. unfold Voice.voice_chat_stream. cbv zeta.
    fold (Inv.voice_user_text payload). now rewrite Hu.
Qed.

(** The theorem at a body whose last message is blank although its text
    field holds an utterance. *)
Lemma voice_utterance_selection_witness :
  App.events
    (Voice.voice_chat_stream (Inv.assistant_says "Sure." "CONFIRMED") Inv.booking_ok
       (Inv.voice_store []) "v1" (Voice.mkPayload [Some "hello"; Some "  "] (Some "yes")))
  = [App.ev_delta Voice.no_input_msg; App.ev_final_text Voice.no_input_msg; App.ev_done].
Proof.
  destruct (voice_utterance_selection Chat.BookingState
              (Inv.assistant_says "Sure." "CONFIRMED") Inv.booking_ok
              (Inv.voice_store []) "v1"
              (Voice.mkPayload [Some "hello"; Some "  "] (Some "yes"))) as [_ H].
  rewrite H; reflexivity.
Defined.

(** X23. A voice turn without tokens still records the utterance: the
    user message is appended to the history of the session (cut to the
    last 20), the fixed text about the missing connection is sent, and
    neither the assistant nor the booking is consulted. *)
Theorem voice_not_connected_records :
  forall (BS : Type) assistant booking (sessions : gmap string (App.Session BS))
         (sid : string) (payload : Voice.Payload),
    PyStr.nonempty (Inv.voice_user_text payload) = true ->
    App._get_tokens sessions sid = None ->
    let r := Voice.voice_chat_stream assistant booking sessions sid payload in
    App.events r
    = [App.ev_delta Voice.not_connected_msg; App.ev_final_text Voice.not_connected_msg;
       App.ev_done]
    /\ App.error r = None
    /\ Voice.stored_history (App.sessions_after r) sid
       = Voice.append_bounded (Voice.stored_history sessions sid)
           (App.mkMessage "user" (Inv.voice_user_text payload))
    /\ (forall assistant' booking',
           Voice.voice_chat_stream assistant' booking' sessions sid payload = r).
Proof.
  intros BS assistant booking sessions sid payload Hu Htok r. subst r.
  rewrite (voice_turn_eq _ _ _ _ _ Hu). cbv zeta. rewrite Htok.
  cbn [App.events App.error App.sessions_after].
  split; [reflexivity|]. split; [reflexivity|]. split; [apply stored_set_history|].
  intros assistant' booking'. rewrite (voice_turn_eq _ _ _ _ _ Hu). cbv zeta.
  now rewrite Htok.
Qed.

(** The theorem at the first request of an unknown session. *)
Lemma voice_not_connected_records_witness :
  Voice.stored_history
    (App.sessions_after
       (Voice.voice_chat_stream (Inv.assistant_says "Sure." "CONFIRMED") Inv.booking_ok
          (∅ : gmap string (App.Session Chat.BookingState)) "v9"
          (Inv.user_says " Book a meeting ")))
    "v9"
  = [App.mkMessage "user" "Book a meeting"].
Proof.
  assert (Htok : App._get_tokens (∅ : gmap string (App.Session Chat.BookingState)) "v9"
                 = None) by (vm_compute; reflexivity).
  destruct (voice_not_connected_records Chat.BookingState
              (Inv.assistant_says "Sure." "CONFIRMED") Inv.booking_ok ∅ "v9"
              (Inv.user_says " Book a meeting ") eq_refl Htok) as (_ & _ & H & _).
  rewrite H. vm_compute. reflexivity.
Defined.

(** X24. A connected voice turn with an utterance.  When the assistant's
    stream breaks, the history holds the user message but not the partial
    reply, and no final text or terminal event is sent.  Otherwise the
    history becomes the last 20 of the old history followed by the user
    message and the whole reply; the booking is attempted exactly when the
    reply contains CONFIRMED, on that history; a successful booking empties
    the history, a failed one keeps it and relays the reason; and the final
    text and the terminal event close the stream in every case. *)
Theorem voice_booking_outcome :
  forall (BS : Type) assistant booking (sessions : gmap string (App.Session BS))
         (sid : string) (payload : Voice.Payload) tokens,
    PyStr.nonempty (Inv.voice_user_text payload) = true ->
    App._get_tokens sessions sid = Some tokens ->
    let user := App.mkMessage "user" (Inv.voice_user_text payload) in
    let h0 := Voice.stored_history sessions sid in
    let h1 := Voice.last20 (h0 ++ [user]) in
    let chunks := List.filter PyStr.nonempty (App.deltas (assistant h1)) in
    let text := String.concat EmptyString chunks in
    let h2 := Voice.last20 (h0 ++ [user; App.mkMessage "assistant" text]) in
    let r := Voice.voice_chat_stream assistant booking sessions sid payload in
    let closing := [App.ev_final_text text; App.ev_done] in
    App.error r = App.stream_error (assistant h1)
    /\ match App.stream_error (assistant h1) with
       | Some e =>
           Voice.stored_history (App.sessions_after r) sid = h1
           /\ App.events r = map App.ev_delta chunks
       | None =>
           if PyStr.contains "CONFIRMED" text then
             match booking h2 tokens with
             | Return b =>
                 Voice.stored_history (App.sessions_after r) sid = []
                 /\ App.events r
                    = (map App.ev_delta chunks
                         ++ [App.ev_delta Voice.creating_msg;
                             App.ev_delta (Voice.booked_msg b)] ++ closing)%list
             | Raise e =>
                 Voice.stored_history (App.sessions_after r) sid = h2
                 /\ App.events r
                    = (map App.ev_delta chunks
                         ++ [App.ev_delta Voice.creating_msg;
                             App.ev_delta (Voice.failed_msg e)] ++ closing)%list
             end
           else
             Voice.stored_history (App.sessions_after r) sid = h2
             /\ App.events r = (map App.ev_delta chunks ++ closing)%list
             /\ (forall booking',
                    Voice.voice_chat_stream assistant booking' sessions sid payload = r)
       end.
Proof.
  intros BS assistant booking sessions sid payload tokens Hu Htok
         user h0 h1 chunks text h2 r closing.
  assert (Hh2 : Voice.append_bounded h1 (App.mkMessage "assistant" text) = h2).
  { unfold Voice.append_bounded. subst h1 h2. rewrite last20_app, <- app_assoc.
    reflexivity. }
  assert (Hr : forall booking',
             Voice.voice_chat_stream assistant booking' sessions sid payload
             = Voice.sse assistant booking' tokens (Voice.set_history sessions sid h1)
                 sid h1).
  { intros booking'. rewrite (voice_turn_eq _ _ _ _ _ Hu). cbv zeta. now rewrite Htok. }
  subst r. rewrite Hr. unfold Voice.sse. cbv zeta.
  fold chunks. fold text. rewrite Hh2.
  destruct (App.stream_error (assistant h1)) as [e|] eqn:Herr.
  { cbn [App.error App.events App.sessions_after]. split; [reflexivity|].
    split; [apply stored_set_history | reflexivity]. }
  destruct (PyStr.contains "CONFIRMED" text) eqn:Hc.
  - destruct (booking h2 tokens) as [b|e];
      cbn [App.error App.events App.sessions_after];
      (split; [reflexivity|]); rewrite ?stored_set_history; split; reflexivity.
  - cbn [App.error App.events App.sessions_after]. split; [reflexivity|].
    rewrite stored_set_history. split; [reflexivity|]. split; [reflexivity|].
    intros booking'. rewrite Hr. unfold Voice.sse. cbv zeta.
    fold chunks. fold text. rewrite Hh2, Hc, Herr. reflexivity.
Qed.

(** The theorem at a confirmation that books and at one whose booking fails. *)
Lemma voice_booking_outcome_witness :
  Voice.stored_history
    (App.sessions_after
       (Voice.voice_chat_stream (Inv.assistant_says "CONFIR" "MED") Inv.booking_ok
          (Inv.voice_store [Inv.msg 1; Inv.msg 2]) "v1" (Inv.user_says "yes")))
    "v1" = []
  /\ List.length
       (Voice.stored_history
          (App.sessions_after
             (Voice.voice_chat_stream (Inv.assistant_says "CONFIR" "MED") Inv.booking_down
                (Inv.voice_store [Inv.msg 1; Inv.msg 2]) "v1" (Inv.user_says "yes")))
          "v1") = 4.
Proof.
  split.
  - destruct (voice_booking_outcome Chat.BookingState (Inv.assistant_says "CONFIR" "MED")
                Inv.booking_ok (Inv.voice_store [Inv.msg 1; Inv.msg 2]) "v1"
                (Inv.user_says "yes") Props.sample_tokens eq_refl eq_refl) as [_ H].
    cbv zeta in H. cbn in H. exact (proj1 H).
  - destruct (voice_booking_outcome Chat.BookingState (Inv.assistant_says "CONFIR" "MED")
                Inv.booking_down (Inv.voice_store [Inv.msg 1; Inv.msg 2]) "v1"
                (Inv.user_says "yes") Props.sample_tokens eq_refl eq_refl) as [_ H].
    cbv zeta in H. cbn in H. rewrite (proj1 H). reflexivity.
Defined.

(** X25. A voice turn changes nothing but the history of its own session:
    the tokens and the booking state of every session are the ones before
    the turn, and every other session is left as it was. *)
Theorem voice_turn_frame :
  forall (BS : Type) assistant booking (sessions : gmap string (App.Session BS))
         (sid : string) (payload : Voice.Payload),
    let r := Voice.voice_chat_stream assistant booking sessions sid payload in
    (forall sid',
        App._get_tokens (App.sessions_after r) sid' = App._get_tokens sessions sid'
        /\ App.booking_state (App.get_session (App.sessions_after r) sid')
           = App.booking_state (App.get_session sessions sid'))
    /\ (forall sid', sid <> sid' -> App.sessions_after r !! sid' = sessions !! sid').
Proof.
  intros BS assistant booking sessions sid payload r. subst r. split.
  - intros sid'. split; [apply voice_turn_tokens | apply voice_keeps_booking_state].
  - intros sid' Hne. now apply voice_turn_other.
Qed.

(** X26. The cuts of the history compose: appending messages one at a
    time, with the cut to 20 after each, gives the last 20 of everything
    appended, so that no entry is lost that a single cut at the end would
    have kept. *)
Theorem history_window_composes :
  forall (h ms : list App.Message),
    fold_left Voice.append_bounded ms (Voice.last20 h) = Voice.last20 (h ++ ms)
    /\ (List.length h <= 20 ->
        fold_left Voice.append_bounded ms h = Voice.last20 (h ++ ms)).
Proof.
  intros h ms. split; [apply fold_append_bounded|].
  intros Hlen. rewrite <- fold_append_bounded. f_equal.
  unfold Voice.last20. replace (List.length h - 20) with 0 by lia. reflexivity.
Qed.

(** The theorem at a history of 19 entries that receives three more. *)
Lemma history_window_composes_witness :
  fold_left Voice.append_bounded [Inv.msg 1; Inv.msg 2; Inv.msg 3]
    (repeat (Inv.msg 0) 19)
  = (repeat (Inv.msg 0) 17 ++ [Inv.msg 1; Inv.msg 2; Inv.msg 3])%list.
Proof.
  destruct (history_window_composes (repeat (Inv.msg 0) 19)
              [Inv.msg 1; Inv.msg 2; Inv.msg 3]) as [_ H].
  rewrite H; [reflexivity | vm_compute; lia].
Defined.

(** ** The OAuth routes *)

Section OAuthRoutes.

Context {BS : Type}.
Variable env : OAuth.Env.
Variable authorization_url : OAuth.Flow -> string.
Variable fetch_token : OAuth.Flow -> string -> result OAuth.Credentials.

Implicit Types (store : OAuth.Store BS) (sid state code csrf : string).

Lemma state_accepted_iff (saved : value) state :
  negb (PyStr.truthy saved) || negb (Chat.is_str saved state) = false
  <-> saved = Some state /\ state <> EmptyString.
Proof.
  unfold Chat.is_str. destruct saved as [s|]; cbn [PyStr.truthy negb orb].
  2:{ split; [discriminate | now intros [? _]]. }
  destruct (String.eqb_spec s state) as [->|Hne].
  - destruct state as [|c t]; cbn [PyStr.nonempty negb orb].
    + split; [discriminate|]. intros [_ H]. now contradiction H.
    + split; [|reflexivity]. intros _. split; [reflexivity | discriminate].
  - cbn [negb]. rewrite orb_true_r. split; [discriminate|]. intros [[= ->] _]. now contradiction Hne.
Qed.

Lemma callback_mismatch store sid state code :
  ~ (OAuth.oauth_csrf store !! sid = Some state /\ state <> EmptyString) ->
  OAuth.auth_callback env fetch_token store sid state code
  = (store, Return (OAuth.html 400 OAuth.mismatch_page None)).
Proof.
  intros Hno. unfold OAuth.auth_callback. cbv zeta.
  destruct (negb _ || negb _) eqn:Hg; [reflexivity|].
  apply state_accepted_iff in Hg. contradiction.
Qed.

Lemma callback_match store sid state code :
  OAuth.oauth_csrf store !! sid = Some state -> state <> EmptyString ->
  OAuth.auth_callback env fetch_token store sid state code =
  match OAuth._build_flow env state with
  | Raise e => (store, Raise e)
  | Return flow =>
      match fetch_token flow code with
      | Raise e => (store, Raise e)
      | Return creds =>
          (OAuth.mkStore
             (App.auth_callback (OAuth.sessions store) sid
                (App.mkTokens (OAuth.token creds) (OAuth.cred_refresh_token creds)))
             (OAuth.oauth_csrf store),
           Return (OAuth.html 200 OAuth.connected_page (Some sid)))
      end
  end.
Proof.
  intros Hs Hne. unfold OAuth.auth_callback. cbv zeta.
  now rewrite (proj2 (state_accepted_iff _ _) (conj Hs Hne)).
Qed.

End OAuthRoutes.

(** X27. The callback stores tokens only for the state that the login
    request of the same session saved.  When the session holds no saved
    state, or an empty one, or one that differs from the state of the
    request, the answer is the mismatch page with status 400, nothing is
    stored and the code is not exchanged.  Whenever the callback changes the
    store, the state matched, the flow was built and the exchange returned
    credentials.  The saved state itself is never removed. *)
Theorem callback_checks_state :
  forall (BS : Type) env fetch_token (store : OAuth.Store BS) (sid state code : string),
    let r := OAuth.auth_callback env fetch_token store sid state code in
    (~ (OAuth.oauth_csrf store !! sid = Some state /\ state <> EmptyString) ->
     forall env' fetch_token',
       OAuth.auth_callback env' fetch_token' store sid state code
       = (store, Return (OAuth.html 400 OAuth.mismatch_page None)))
    /\ (r.1 <> store ->
        OAuth.oauth_csrf store !! sid = Some state /\ state <> EmptyString
        /\ exists flow creds,
            OAuth._build_flow env state = Return flow
            /\ fetch_token flow code = Return creds
            /\ r.2 = Return (OAuth.html 200 OAuth.connected_page (Some sid))
            /\ App._get_tokens (OAuth.sessions r.1) sid
               = Some (App.mkTokens (OAuth.token creds) (OAuth.cred_refresh_token creds)))
    /\ OAuth.oauth_csrf r.1 = OAuth.oauth_csrf store.
Proof.
  intros BS env fetch_token store sid state code r. subst r.
  split; [intros Hno env' fetch_token'; now apply callback_mismatch|].
  destruct (negb (PyStr.truthy (OAuth.oauth_csrf store !! sid))
            || negb (Chat.is_str (OAuth.oauth_csrf store !! sid) state)) eqn:Hg.
  - assert (Hno : ~ (OAuth.oauth_csrf store !! sid = Some state /\ state <> EmptyString)).
    { intros H. apply state_accepted_iff in H. congruence. }
    rewrite (callback_mismatch env fetch_token _ _ _ code Hno). cbn [fst snd].
    split; [intros H; now contradiction H | reflexivity].
  - apply state_accepted_iff in Hg as [Hs Hne].
    rewrite (callback_match env fetch_token _ _ _ code Hs Hne).
    destruct (OAuth._build_flow env state) as [flow|e] eqn:Hflow;
      [|cbn [fst snd]; split; [intros H; now contradiction H | reflexivity]].
    destruct (fetch_token flow code) as [creds|e] eqn:Hfetch;
      [|cbn [fst snd]; split; [intros H; now contradiction H | reflexivity]].
    cbn [fst snd OAuth.oauth_csrf OAuth.sessions]. split; [|reflexivity].
    intros _. split; [exact Hs|]. split; [exact Hne|].
    exists flow, creds. split; [reflexivity|]. split; [exact Hfetch|].
    split; [reflexivity|].
    unfold App._get_tokens, App.auth_callback. cbv zeta.
    now rewrite get_session_insert.
Qed.

(** The theorem at a callback for a session that never asked to log in. *)
Lemma callback_checks_state_witness :
  OAuth.auth_callback Inv.sample_env Inv.sample_fetch Inv.empty_store "s1" "forged" "4/0Ab"
  = (Inv.empty_store, Return (OAuth.html 400 OAuth.mismatch_page None)).
Proof.
  destruct (callback_checks_state Chat.BookingState Inv.sample_env Inv.sample_fetch
              Inv.empty_store "s1" "forged" "4/0Ab") as [H _].
  apply H. intros [H' _]. vm_compute in H'. discriminate H'.
Defined.

(** X28. The login request and its callback, in this order.  The request
    saves its state for the session, also when the flow cannot be built,
    and leaves the tokens, the booking state and the history of every
    session alone.  A callback that brings this state back, with a code
    that the provider exchanges, connects the session: its tokens are the
    credentials, its booking state and history are untouched, and the
    other sessions are unchanged.  A callback with any other state is
    refused, and so is the old state once a new login request was made. *)
Theorem oauth_round_trip :
  forall (BS : Type) env authorization_url fetch_token (store : OAuth.Store BS)
         (sid csrf code : string),
    let asked := OAuth.auth_google env authorization_url store sid csrf in
    OAuth.oauth_csrf asked.1 !! sid = Some csrf
    /\ App.get_session (OAuth.sessions asked.1) sid = App.get_session (OAuth.sessions store) sid
    /\ (forall sid', sid <> sid' ->
                     OAuth.sessions asked.1 !! sid' = OAuth.sessions store !! sid'
                     /\ OAuth.oauth_csrf asked.1 !! sid' = OAuth.oauth_csrf store !! sid')
    /\ (forall flow creds,
           csrf <> EmptyString ->
           OAuth._build_flow env csrf = Return flow ->
           fetch_token flow code = Return creds ->
           let r := OAuth.auth_callback env fetch_token asked.1 sid csrf code in
           asked.2 = Return (OAuth.redirect (authorization_url flow) sid)
           /\ OAuth.flow_state flow = csrf
           /\ r.2 = Return (OAuth.html 200 OAuth.connected_page (Some sid))
           /\ App.get_session (OAuth.sessions r.1) sid
              = App.mkSession
                  (Some (App.mkTokens (OAuth.token creds) (OAuth.cred_refresh_token creds)))
                  (App.booking_state (App.get_session (OAuth.sessions store) sid))
                  (App.voice_history (App.get_session (OAuth.sessions store) sid))
           /\ (forall sid', sid <> sid' ->
                            OAuth.sessions r.1 !! sid' = OAuth.sessions store !! sid'))
    /\ (forall state', state' <> csrf ->
           OAuth.auth_callback env fetch_token asked.1 sid state' code
           = (asked.1, Return (OAuth.html 400 OAuth.mismatch_page None)))
    /\ (forall csrf', csrf' <> csrf ->
           let again := OAuth.auth_google env authorization_url asked.1 sid csrf' in
           OAuth.auth_callback env fetch_token again.1 sid csrf code
           = (again.1, Return (OAuth.html 400 OAuth.mismatch_page None))).
Proof.
  intros BS env authorization_url fetch_token store sid csrf code asked.
  assert (Hfst : forall (st : OAuth.Store BS) c,
             (OAuth.auth_google env authorization_url st sid c).1
             = OAuth.mkStore
                 (<[sid := App.get_session (OAuth.sessions st) sid]> (OAuth.sessions st))
                 (<[sid := c]> (OAuth.oauth_csrf st))).
  { intros st c. unfold OAuth.auth_google. cbv zeta.
    now destruct (OAuth._build_flow env c). }
  assert (Hcsrf : OAuth.oauth_csrf asked.1 !! sid = Some csrf).
  { subst asked. rewrite Hfst. cbn [OAuth.oauth_csrf]. apply lookup_insert_eq. }
  split; [exact Hcsrf|].
  split; [subst asked; rewrite Hfst; cbn [OAuth.sessions]; apply get_session_insert|].
  split.
  { intros sid' Hne. subst asked. rewrite Hfst. cbn [OAuth.sessions OAuth.oauth_csrf].
    now rewrite !lookup_insert_ne. }
  split.
  { intros flow creds Hne Hflow Hfetch r. subst r.
    rewrite (callback_match env fetch_token _ _ _ code Hcsrf Hne), Hflow, Hfetch.
    cbn [fst snd OAuth.sessions].
    split; [subst asked; unfold OAuth.auth_google; cbv zeta; now rewrite Hflow|].
    split.
    { unfold OAuth._build_flow in Hflow. destruct (_ || _); [discriminate|].
      now injection Hflow as <-. }
    split; [reflexivity|].
    unfold App.auth_callback. cbv zeta. rewrite get_session_insert.
    subst asked. rewrite Hfst. cbn [OAuth.sessions]. rewrite get_session_insert.
    split; [reflexivity|].
    intros sid' Hne'. now rewrite !lookup_insert_ne. }
  split.
  { intros state' Hne. apply callback_mismatch. rewrite Hcsrf. intros [[= ->] _].
    now contradiction Hne. }
  intros csrf' Hne again. apply callback_mismatch. subst again. rewrite Hfst.
  cbn [OAuth.oauth_csrf]. rewrite lookup_insert_eq. intros [[= ->] _].
  now contradiction Hne.
Qed.

(** The theorem at a login of a session that is in the middle of a booking. *)
Lemma oauth_round_trip_witness :
  App.get_session
    (OAuth.sessions
       (OAuth.auth_callback Inv.sample_env Inv.sample_fetch
          (OAuth.auth_google Inv.sample_env Inv.sample_url
             (OAuth.mkStore
                {[ "s1" := App.mkSession None (Some (Props.contact_state "ask_time")) [] ]}
                ∅) "s1" "Zk3v").1 "s1" "Zk3v" "4/0Ab").1) "s1"
  = App.mkSession (Some (App.mkTokens "ya29.token" None))
      (Some (Props.contact_state "ask_time")) [].
Proof.
  destruct (oauth_round_trip Chat.BookingState Inv.sample_env Inv.sample_url Inv.sample_fetch
              (OAuth.mkStore
                 {[ "s1" := App.mkSession None (Some (Props.contact_state "ask_time")) [] ]}
                 ∅) "s1" "Zk3v" "4/0Ab") as (_ & _ & _ & H & _).
  destruct (H (OAuth.mkFlow "client-id" "client-secret"
                 "https://agent.example/google/callback" "Zk3v")
              (OAuth.mkCredentials "ya29.token" None)) as (_ & _ & _ & Hs & _).
  - discriminate.
  - reflexivity.
  - reflexivity.
  - rewrite Hs. vm_compute. reflexivity.
Defined.

(** ** The theorems above at sample turns *)


(** A confirmed chat turn of one session, seen from another session. *)
Lemma chat_turn_frame_witness :
  App.sessions_after
    (Chat.chat_stream Chat.default_config (Props.planner_confirm None) Props.speaker_echo
       Props.calendar_ok Props.run_titled "s1" (Props.say "yes")) !! "s2"
  = Props.run_titled !! "s2".
Proof.
  destruct (chat_turn_frame Chat.default_config (Props.planner_confirm None)
              Props.speaker_echo Props.calendar_ok Props.run_titled "s1" (Props.say "yes"))
    as (_ & _ & H).
  apply H. discriminate.
Defined.

(** A booking voice turn of one session, seen from another session. *)
Lemma voice_turn_frame_witness :
  App.sessions_after
    (Voice.voice_chat_stream (Inv.assistant_says "CONFIR" "MED") Inv.booking_ok
       (Inv.voice_store [Inv.msg 1]) "v1" (Inv.user_says "yes")) !! "v2"
  = Inv.voice_store [Inv.msg 1] !! "v2".
Proof.
  destruct (voice_turn_frame Chat.BookingState (Inv.assistant_says "CONFIR" "MED")
              Inv.booking_ok (Inv.voice_store [Inv.msg 1]) "v1" (Inv.user_says "yes"))
    as [_ H].
  apply H. discriminate.
Defined.
